(** * Wind data analyzer (jamaica_bay_wind_data): a shallow embedding of
    [wind_analyzer.py] and the properties of its query operations.

    Numbers.  The analyzer works on pandas columns of binary64 floats.  The
    embedding reads their arithmetic in two ways.

    - Exact arithmetic.  The query operations are embedded with finite values
      as exact rationals ([Q]): sums, quotients and products are the exact
      ones.  The special values that decide the "missing value" behaviour of
      the program (NaN and the two infinities) are modelled explicitly by
      the type [ext].  The only irrational operation of the program, the
      square root inside [Series.std], maps the exact rational variance into
      [R].  What is proved of sums, means and quotients in this reading is a
      property of the formulas of the program, and is stated as holding in
      exact arithmetic.

    - Machine arithmetic.  The section [Doubles] embeds, on columns of IEEE
      binary64 values ([PrimFloat.float]) and of int64 integers, the
      computations whose result a rounding error or a wrap-around can
      change: the mean of a column, the rolling mean and the gust factor,
      the bin of the wind rose and its frequencies, and the cube of an
      integer speed.  They are evaluated on given inputs to show where the
      value the program returns leaves the exact one. *)

From Stdlib Require Import String.
From Stdlib Require Import ZArith QArith Qround Qminmax Qreals Reals.
From Stdlib Require Import List Sorted Permutation Bool Psatz PeanoNat.
From Stdlib Require PrimFloat FloatOps SpecFloat.
Import ListNotations.

Local Open Scope Q_scope.

(* ================================================================= *)
(** ** Float values with the IEEE special values *)

Inductive ext (A : Type) : Type :=
| Fin (x : A)
| PosInf
| NegInf
| NaN.

Arguments Fin {A} x.
Arguments PosInf {A}.
Arguments NegInf {A}.
Arguments NaN {A}.


Definition ext_map {A B} (f : A -> B) (v : ext A) : ext B :=
  match v with
  | Fin x => Fin (f x)
  | PosInf => PosInf
  | NegInf => NegInf
  | NaN => NaN
  end.

(** IEEE comparison [a <= b]: false as soon as one side is NaN. *)
Definition ext_le {A} (le : A -> A -> Prop) (a b : ext A) : Prop :=
  match a, b with
  | NaN, _ | _, NaN => False
  | NegInf, _ => True
  | _, PosInf => True
  | Fin x, Fin y => le x y
  | _, _ => False
  end.

Definition Qltb (x y : Q) : bool := negb (Qle_bool y x).

(** Sign of a rational as a comparison with 0. *)
Definition Qsign (x : Q) : comparison := (0 ?= x).

(** IEEE division (signed zeros are not distinguished: a zero is +0). *)
Definition ext_div (a b : ext Q) : ext Q :=
  match a, b with
  | NaN, _ | _, NaN => NaN
  | Fin x, Fin y =>
      if Qeq_bool y 0 then
        match Qsign x with
        | Eq => NaN
        | Lt => PosInf
        | Gt => NegInf
        end
      else Fin (x / y)
  | Fin _, (PosInf | NegInf) => Fin 0
  | PosInf, Fin y => if Qltb y 0 then NegInf else PosInf
  | NegInf, Fin y => if Qltb y 0 then PosInf else NegInf
  | (PosInf | NegInf), (PosInf | NegInf) => NaN
  end.

(* ================================================================= *)
(** ** Series aggregations (pandas [Series.mean], [.min], [.max], ...) *)

(** The exact sum, count and mean of a column.  The mean that the program
    returns is the rounded one, [series_mean64] below. *)
Definition qsum (l : list Q) : Q := fold_right Qplus 0 l.

Definition qlen (l : list Q) : Q := inject_Z (Z.of_nat (length l)).

Definition qmean (l : list Q) : Q := qsum l / qlen l.

Definition series_mean (l : list Q) : ext Q :=
  match l with
  | [] => NaN
  | _ :: _ => Fin (qmean l)
  end.

Definition series_min (l : list Q) : ext Q :=
  match l with
  | [] => NaN
  | x :: t => Fin (fold_left Qmin t x)
  end.

Definition series_max (l : list Q) : ext Q :=
  match l with
  | [] => NaN
  | x :: t => Fin (fold_left Qmax t x)
  end.

(** Sum of squared deviations from [m]. *)
Definition sq_dev (m : Q) (l : list Q) : Q :=
  qsum (map (fun x => (x - m) * (x - m)) l).

(** [Series.var()] with the pandas default [ddof=1]: with fewer than two
    observations the denominator [n - 1] is not positive and the result is
    NaN. *)
Definition series_var (l : list Q) : ext Q :=
  if (length l <=? 1)%nat then NaN
  else Fin (sq_dev (qmean l) l / (qlen l - 1)).

(** [Series.std()] is the square root of [Series.var()]. *)
Definition series_std (l : list Q) : ext R :=
  ext_map (fun v => sqrt (Q2R v)) (series_var l).

(** Insertion sort, for [sort_values] and the ordered keys of [groupby]
    and [mode]. *)
Section Sorting.
Context {A : Type} (leb : A -> A -> bool).

Fixpoint insert_sorted (x : A) (l : list A) : list A :=
  match l with
  | [] => [x]
  | y :: t => if leb x y then x :: l else y :: insert_sorted x t
  end.

Definition isort (l : list A) : list A :=
  fold_right insert_sorted [] l.

End Sorting.

(** [Series.median()]: middle of the sorted values, the mean of the two
    middle values when their number is even. *)
Definition series_median (l : list Q) : ext Q :=
  let s := isort Qle_bool l in
  let n := length s in
  match l with
  | [] => NaN
  | _ :: _ =>
      if Nat.even n
      then Fin ((nth (n / 2 - 1) s 0 + nth (n / 2) s 0) / 2)
      else Fin (nth (n / 2) s 0)
  end.

(* ================================================================= *)
(** ** Rounding *)

(** [astype(int)]: conversion of a float to an integer truncates toward
    zero.  The integer is unbounded here; the conversion of a double to
    int64 is [trunc64] below. *)
Definition trunc (q : Q) : Z := Z.quot (Qnum q) (Zpos (Qden q)).

(** [Series.round()] (numpy [rint]): nearest integer, ties to even. *)
Definition round_half_even (q : Q) : Z :=
  let f := Qfloor q in
  match ((q - inject_Z f) ?= (1 # 2))%Q with
  | Lt => f
  | Gt => (f + 1)%Z
  | Eq => if Z.even f then f else (f + 1)%Z
  end.

(* ================================================================= *)
(** ** Rolling windows ([Series.rolling(window=w)], [min_periods = w]) *)

(** The sliding buffer: the new observation enters, and the oldest one
    leaves once the buffer holds more than [w] values. *)
Definition push (w : nat) (buf : list Q) (x : Q) : list Q :=
  let b := buf ++ [x] in
  skipn (length b - w) b.

Fixpoint rolling_from (w : nat) (agg : list Q -> ext Q)
         (buf : list Q) (l : list Q) : list (ext Q) :=
  match l with
  | [] => []
  | x :: t =>
      let buf' := push w buf x in
      (if ((1 <=? length buf') && (w <=? length buf'))%nat
       then agg buf' else NaN)
        :: rolling_from w agg buf' t
  end.

Definition rolling (w : nat) (agg : list Q -> ext Q) (l : list Q)
  : list (ext Q) :=
  rolling_from w agg [] l.

(** Elementwise binary operation on two index-aligned series. *)
Fixpoint map2 {A B C} (f : A -> B -> C) (a : list A) (b : list B) : list C :=
  match a, b with
  | x :: a', y :: b' => f x y :: map2 f a' b'
  | _, _ => []
  end.

(* ================================================================= *)
(** ** Data frames *)

Record Timestamp := mkTimestamp {
  ts_day : Z;      (* calendar date, as a day number *)
  ts_hour : Z;     (* hour of day, 0..23 *)
  ts_minute : Z;
  ts_second : Z
}.

(** The table held by the analyzer, column by column.  [timestamp] is an
    optional input column; [direction_bin] and [hour] are the helper
    columns that some queries write into the table.  The values of
    [direction_bin] are integral (an int column after [get_wind_rose_data],
    a float column with integral values after [get_prevailing_direction]). *)
Record DataFrame := mkDataFrame {
  timestamp : option (list Timestamp);
  wind_speed : list Q;
  wind_direction : list Q;
  direction_bin : option (list Z);
  hour : option (list Z)
}.

Definition df_len (df : DataFrame) : nat := length (wind_speed df).

(** [DataFrame.empty] *)
Definition df_empty (df : DataFrame) : bool := (df_len df =? 0)%nat.

Definition set_direction_bin (df : DataFrame) (c : list Z) : DataFrame :=
  {| timestamp := timestamp df;
     wind_speed := wind_speed df;
     wind_direction := wind_direction df;
     direction_bin := Some c;
     hour := hour df |}.

Definition set_hour (df : DataFrame) (c : list Z) : DataFrame :=
  {| timestamp := timestamp df;
     wind_speed := wind_speed df;
     wind_direction := wind_direction df;
     direction_bin := direction_bin df;
     hour := Some c |}.

(** Boolean-mask selection [col[mask]]. *)
Fixpoint select {A} (mask : list bool) (c : list A) : list A :=
  match mask, c with
  | b :: mask', x :: c' => if b then x :: select mask' c' else select mask' c'
  | _, _ => []
  end.

(** [df[mask].copy()]: the selected rows, with every column of [df]. *)
Definition df_select (mask : list bool) (df : DataFrame) : DataFrame :=
  {| timestamp := option_map (select mask) (timestamp df);
     wind_speed := select mask (wind_speed df);
     wind_direction := select mask (wind_direction df);
     direction_bin := option_map (select mask) (direction_bin df);
     hour := option_map (select mask) (hour df) |}.

(** A sample is one row of the three input columns. *)
Record Sample := mkSample {
  s_timestamp : option Timestamp;
  s_speed : Q;
  s_direction : Q
}.

Fixpoint zip_samples (ts : option (list Timestamp)) (sp dr : list Q)
  : list Sample :=
  match sp, dr with
  | s :: sp', d :: dr' =>
      match ts with
      | Some (t :: ts') => mkSample (Some t) s d :: zip_samples (Some ts') sp' dr'
      | _ => mkSample None s d :: zip_samples None sp' dr'
      end
  | _, _ => []
  end.

Definition samples (df : DataFrame) : list Sample :=
  zip_samples (timestamp df) (wind_speed df) (wind_direction df).

(* ================================================================= *)
(** ** Exceptions and the analyzer monad *)

Inductive exn :=
| ValueError (msg : string)
| ZeroDivisionError
| KeyError.

(** The two errors the specification names. *)
Definition EmptyDatasetError : exn := ValueError "No data loaded".
Definition MissingTimestampError : exn :=
  ValueError "Timestamp column required for daily pattern analysis".

(** [self.data]: [None] until a data set is given. *)
Definition Analyzer := option DataFrame.

(** A method of [WindDataAnalyzer]: it reads and may update [self.data],
    and returns a value or raises. *)
Definition M (A : Type) : Type := Analyzer -> (exn + A) * Analyzer.

Definition ret {A} (x : A) : M A := fun s => (inr x, s).

Definition bind {A B} (c : M A) (k : A -> M B) : M B :=
  fun s =>
    match c s with
    | (inl e, s') => (inl e, s')
    | (inr x, s') => k x s'
    end.

Definition raise {A} (e : exn) : M A := fun s => (inl e, s).

Definition get_data : M Analyzer := fun s => (inr s, s).

Definition put_data (df : DataFrame) : M unit := fun _ => (inr tt, Some df).

Notation "x <- c ;; k" := (bind c (fun x => k))
  (at level 61, c at next level, right associativity).
Notation "c ;;; k" := (bind c (fun _ => k))
  (at level 61, right associativity).

Definition result {A} (c : M A) (s : Analyzer) : exn + A := fst (c s).
Definition state_after {A} (c : M A) (s : Analyzer) : Analyzer := snd (c s).

(** The guard that opens every query:
    [if self.data is None or self.data.empty: raise ValueError(...)]. *)
Definition require_data : M DataFrame :=
  d <- get_data ;;
  match d with
  | None => raise EmptyDatasetError
  | Some df => if df_empty df then raise EmptyDatasetError else ret df
  end.

(* ================================================================= *)
(** ** The query operations of [WindDataAnalyzer] *)

Record BasicStatistics := mkBasicStatistics {
  mean_speed : ext Q;
  median_speed : ext Q;
  std_speed : ext R;
  min_speed : ext Q;
  max_speed : ext Q
}.

Definition get_basic_statistics : M BasicStatistics :=
  df <- require_data ;;
  ret {| mean_speed := series_mean (wind_speed df);
         median_speed := series_median (wind_speed df);
         std_speed := series_std (wind_speed df);
         min_speed := series_min (wind_speed df);
         max_speed := series_max (wind_speed df) |}.

Record WindRose := mkWindRose {
  directions : list Q;
  frequencies : list Q;
  avg_speeds : list (ext Q)
}.

Definition qnat (n : nat) : Q := inject_Z (Z.of_nat n).

(** One turn of the loop [for i in range(bins)]. *)
Definition rose_bin (col : list Z) (speeds : list Q) (bin_size : Q) (i : Z)
  : Q * Q * ext Q :=
  let bin_data := select (map (Z.eqb i) col) speeds in
  let direction := inject_Z i * bin_size in
  let frequency := qnat (length bin_data) / qnat (length speeds) * 100 in
  let avg_speed :=
    if (0 <? length bin_data)%nat then series_mean bin_data else Fin 0 in
  (direction, frequency, avg_speed).

Definition range (n : Z) : list Z :=
  map Z.of_nat (seq 0 (Z.to_nat n)).

(** The bin of a direction, with the exact quotient; with the rounded one
    it is [wind_rose_bin64] below. *)
Definition wind_rose_bin_of (bins : Z) (bin_size d : Q) : Z :=
  (trunc (d / bin_size) mod bins)%Z.

Definition get_wind_rose_data (bins : Z) : M WindRose :=
  df <- require_data ;;
  if (bins =? 0)%Z then raise ZeroDivisionError
  else
    let bin_size := 360 / inject_Z bins in
    put_data (set_direction_bin df
                (map (wind_rose_bin_of bins bin_size) (wind_direction df))) ;;;
    d <- get_data ;;
    match d with
    | Some df' =>
        match direction_bin df' with
        | Some col =>
            let rows := map (rose_bin col (wind_speed df') bin_size) (range bins) in
            ret {| directions := map (fun r => fst (fst r)) rows;
                   frequencies := map (fun r => snd (fst r)) rows;
                   avg_speeds := map snd rows |}
        | None => raise KeyError
        end
    | None => raise KeyError
    end.

Definition detect_calm_periods (threshold : Q) : M DataFrame :=
  df <- require_data ;;
  ret (df_select (map (fun s => Qltb s threshold) (wind_speed df)) df).

Definition detect_strong_wind_events (threshold : Q) : M DataFrame :=
  df <- require_data ;;
  ret (df_select (map (fun s => Qltb threshold s) (wind_speed df)) df).

(** pandas rejects a negative window; with a window of 0 no position has
    an observation. *)
Definition calculate_gust_factor (window : Z) : M (list (ext Q)) :=
  df <- require_data ;;
  if (window <? 0)%Z
  then raise (ValueError "window must be an integer 0 or greater")
  else
    let rolling_max := rolling (Z.to_nat window) series_max (wind_speed df) in
    let rolling_mean := rolling (Z.to_nat window) series_mean (wind_speed df) in
    ret (map2 ext_div rolling_max rolling_mean).

(** [(col == v).sum()] *)
Definition count_eq (v : Z) (col : list Z) : nat :=
  length (filter (Z.eqb v) col).

(** [Series.mode()]: the most frequent values, in ascending order. *)
Definition mode (col : list Z) : list Z :=
  let keys := isort Z.leb (nodup Z.eq_dec col) in
  let top := fold_right Nat.max 0%nat (map (fun k => count_eq k col) keys) in
  filter (fun k => (count_eq k col =? top)%nat) keys.

Definition prevailing_bin_of (d : Q) : Z :=
  (round_half_even (d / (45 # 2)) mod 16)%Z.

Definition get_prevailing_direction : M (Q * Q) :=
  df <- require_data ;;
  let bin_size := 45 # 2 in
  put_data (set_direction_bin df (map prevailing_bin_of (wind_direction df))) ;;;
  d <- get_data ;;
  match d with
  | Some df' =>
      match direction_bin df' with
      | Some col =>
          match mode col with
          | most_common_bin :: _ =>
              let prevailing_direction := inject_Z most_common_bin * bin_size in
              let percentage :=
                qnat (count_eq most_common_bin col) / qnat (df_len df') * 100 in
              ret (prevailing_direction, percentage)
          | [] => raise KeyError
          end
      | None => raise KeyError
      end
  | None => raise KeyError
  end.

Record HourStats := mkHourStats {
  h_mean : ext Q;
  h_std : ext R;
  h_min : ext Q;
  h_max : ext Q
}.

(** [.agg(['mean', 'std', 'min', 'max'])] on one group. *)
Definition agg_stats (l : list Q) : HourStats :=
  {| h_mean := series_mean l;
     h_std := series_std l;
     h_min := series_min l;
     h_max := series_max l |}.

(** [df.groupby(key)[col].agg(...)]: one row per key present, keys in
    ascending order. *)
Definition groupby_agg (keys : list Z) (vals : list Q) : list (Z * HourStats) :=
  map (fun k => (k, agg_stats (select (map (Z.eqb k) keys) vals)))
      (isort Z.leb (nodup Z.eq_dec keys)).

Definition analyze_daily_pattern : M (list (Z * HourStats)) :=
  df <- require_data ;;
  match timestamp df with
  | None => raise MissingTimestampError
  | Some ts =>
      put_data (set_hour df (map ts_hour ts)) ;;;
      d <- get_data ;;
      match d with
      | Some df' =>
          match hour df' with
          | Some hours => ret (groupby_agg hours (wind_speed df'))
          | None => raise KeyError
          end
      | None => raise KeyError
      end
  end.

(** The exact value of [0.5 * air_density * speed ** 3] for a float speed.
    On a column of integers the cube is taken in int64
    ([power_density_int64] below). *)
Definition power_of (air_density s : Q) : Q := (1 # 2) * air_density * s ^ 3.

Definition calculate_power_density (air_density : Q) : M (list Q) :=
  df <- require_data ;;
  ret (map (power_of air_density) (wind_speed df)).

(** The values that [get_summary_report] writes into its text template;
    the text is a fixed rendering of these fields. *)
Record Report := mkReport {
  total_observations : nat;
  r_stats : BasicStatistics;
  r_prevailing_dir : Q;
  r_prevailing_pct : Q;
  r_calm_periods : nat;
  r_strong_events : nat;
  r_avg_power_density : ext Q
}.

Definition default_calm_threshold : Q := 2.
Definition default_strong_threshold : Q := 10.
Definition default_air_density : Q := 1225 # 1000.

Definition get_summary_report : M Report :=
  df0 <- require_data ;;
  stats <- get_basic_statistics ;;
  prevailing <- get_prevailing_direction ;;
  calm <- detect_calm_periods default_calm_threshold ;;
  strong <- detect_strong_wind_events default_strong_threshold ;;
  d <- get_data ;;
  power <- calculate_power_density default_air_density ;;
  ret {| total_observations := match d with Some df => df_len df | None => 0 end;
         r_stats := stats;
         r_prevailing_dir := fst prevailing;
         r_prevailing_pct := snd prevailing;
         r_calm_periods := df_len calm;
         r_strong_events := df_len strong;
         r_avg_power_density := series_mean power |}.

(** The query operations, with their arguments, and their answers. *)
Inductive query :=
| QBasicStatistics
| QWindRose (bins : Z)
| QDetectCalmPeriods (threshold : Q)
| QDetectStrongWindEvents (threshold : Q)
| QGustFactor (window : Z)
| QPrevailingDirection
| QDailyPattern
| QPowerDensity (air_density : Q)
| QSummaryReport.

Inductive answer :=
| ABasicStatistics (r : BasicStatistics)
| AWindRose (r : WindRose)
| AFrame (r : DataFrame)
| AGustFactor (r : list (ext Q))
| APrevailingDirection (r : Q * Q)
| ADailyPattern (r : list (Z * HourStats))
| APowerDensity (r : list Q)
| ASummaryReport (r : Report).

Definition fmap {A B} (f : A -> B) (c : M A) : M B :=
  x <- c ;; ret (f x).

Definition run_query (q : query) : M answer :=
  match q with
  | QBasicStatistics => fmap ABasicStatistics get_basic_statistics
  | QWindRose bins => fmap AWindRose (get_wind_rose_data bins)
  | QDetectCalmPeriods t => fmap AFrame (detect_calm_periods t)
  | QDetectStrongWindEvents t => fmap AFrame (detect_strong_wind_events t)
  | QGustFactor w => fmap AGustFactor (calculate_gust_factor w)
  | QPrevailingDirection => fmap APrevailingDirection get_prevailing_direction
  | QDailyPattern => fmap ADailyPattern analyze_daily_pattern
  | QPowerDensity rho => fmap APowerDensity (calculate_power_density rho)
  | QSummaryReport => fmap ASummaryReport get_summary_report
  end.

(** Running a sequence of queries, ignoring what they return or raise. *)
Fixpoint run_all (qs : list query) (s : Analyzer) : Analyzer :=
  match qs with
  | [] => s
  | q :: qs' => run_all qs' (state_after (run_query q) s)
  end.

(* ================================================================= *)
(** ** Notions used to state the properties *)

(** No data set was given, or the one given has no rows. *)
Definition no_data (s : Analyzer) : bool :=
  match s with
  | None => true
  | Some df => df_empty df
  end.

(** The trailing window of up to [w] values ending at position [i]:
    positions [max(0, i-w+1) .. i] of [l]. *)
Definition window_slice (w i : nat) (l : list Q) : list Q :=
  let lo := (i + 1 - w)%nat in
  firstn (i + 1 - lo) (skipn lo l).

(** The last [w] values of [l] (all of [l] when it has fewer). *)
Definition tail_of (w : nat) (l : list Q) : list Q :=
  skipn (length l - w) l.

(** The value of a rolling aggregation on a window holding [win]. *)
Definition cell (w : nat) (agg : list Q -> ext Q) (win : list Q) : ext Q :=
  if ((1 <=? length win) && (w <=? length win))%nat then agg win else NaN.

Definition calm (t : Q) (s : Sample) : bool :=
  if Qlt_le_dec (s_speed s) t then true else false.

Definition strong (t : Q) (s : Sample) : bool :=
  if Qlt_le_dec t (s_speed s) then true else false.

(** The values of [vals] on the rows whose key is [k]. *)
Definition vals_of_key {K} (eqb : K -> K -> bool) (k : K)
           (keys : list K) (vals : list Q) : list Q :=
  map snd (filter (fun p => eqb k (fst p)) (combine keys vals)).

(** The data frame without its helper columns. *)
Definition strip_df (df : DataFrame) : DataFrame :=
  {| timestamp := timestamp df;
     wind_speed := wind_speed df;
     wind_direction := wind_direction df;
     direction_bin := None;
     hour := None |}.

Definition strip (s : Analyzer) : Analyzer := option_map strip_df s.

(** What a query returns, up to the helper columns of a returned frame. *)
Definition answer_core (r : exn + answer) : exn + answer :=
  match r with
  | inr (AFrame df) => inr (AFrame (strip_df df))
  | _ => r
  end.

Definition returns_frame (q : query) : bool :=
  match q with
  | QDetectCalmPeriods _ | QDetectStrongWindEvents _ => true
  | _ => false
  end.

(** Sample data sets. *)
Definition frame_of (speeds dirs : list Q) : DataFrame :=
  {| timestamp := None;
     wind_speed := speeds;
     wind_direction := dirs;
     direction_bin := None;
     hour := None |}.

Definition ten_samples : DataFrame :=
  frame_of [1; 2; 3; 4; 5; 6; 7; 8; 9; 10] [0; 0; 0; 0; 0; 0; 0; 0; 0; 0].

Definition one_sample : DataFrame := frame_of [5] [180].

Definition signed_samples : DataFrame := frame_of [-1; 1] [0; 90].

(** Directions 11.25 and 33.75 lie halfway between two bins of 22.5
    degrees; 20 and 350 are nearer to the bin above than to the one below. *)
Definition veering_samples : DataFrame :=
  frame_of [3; 4; 5; 6] [45 # 4; 135 # 4; 20; 350].

Definition at_hour (h : Z) : Timestamp := mkTimestamp 0 h 0 0.

Definition timed_samples : DataFrame :=
  {| timestamp := Some [at_hour 0; at_hour 1; at_hour 0];
     wind_speed := [3; 4; 5];
     wind_direction := [10; 200; 350];
     direction_bin := None;
     hour := None |}.

(* ================================================================= *)
(** ** Further notions: aligned tables, write sets, equal values *)

Definition col_aligned {A} (n : nat) (c : option (list A)) : Prop :=
  match c with
  | None => True
  | Some l => length l = n
  end.

(** Every column of the table has as many entries as the table has rows
    (pandas keeps every data frame so). *)
Definition aligned (df : DataFrame) : Prop :=
  length (wind_direction df) = df_len df /\
  col_aligned (df_len df) (timestamp df) /\
  col_aligned (df_len df) (direction_bin df) /\
  col_aligned (df_len df) (hour df).

(** The queries that assign [self.data['direction_bin']], and the one that
    assigns [self.data['hour']]. *)
Definition writes_direction_bin (q : query) : bool :=
  match q with
  | QWindRose _ | QPrevailingDirection | QSummaryReport => true
  | _ => false
  end.

Definition writes_hour (q : query) : bool :=
  match q with
  | QDailyPattern => true
  | _ => false
  end.

(** Two float values are the same number (or the same special value). *)
Definition ext_Qeq (a b : ext Q) : Prop :=
  match a, b with
  | Fin x, Fin y => x == y
  | PosInf, PosInf | NegInf, NegInf | NaN, NaN => True
  | _, _ => False
  end.

(** Number of values of a series that pass a test. *)
Definition count_if (p : Q -> bool) (l : list Q) : nat := length (filter p l).

(* ================================================================= *)
(** ** [generate_sample_data.py] *)

(** numpy's [%] on floats: the remainder has the sign of the divisor. *)
Definition fmod (x m : Q) : Q := x - m * inject_Z (Qfloor (x / m)).

(** [ts + timedelta(hours=i)] *)
Definition add_hours (ts : Timestamp) (i : Z) : Timestamp :=
  {| ts_day := (ts_day ts + (ts_hour ts + i) / 24)%Z;
     ts_hour := ((ts_hour ts + i) mod 24)%Z;
     ts_minute := ts_minute ts;
     ts_second := ts_second ts |}.

Section Generator.

(** The library sine and pi, and the pseudo-random draws of the generator,
    by index: [np.random.normal(0, 1.5, n)], [np.random.choice([0, 1], ...)],
    [np.random.uniform(3, 8, n)] and [np.random.normal(0, 45, n)]. *)
Variable np_sin : Q -> Q.
Variable np_pi : Q.
Variable random_component : nat -> Q.
Variable gust_choice : nat -> Q.
Variable gust_size : nat -> Q.
Variable direction_variation : nat -> Q.

Definition daily_cycle (h : Z) : Q :=
  3 + 2 * np_sin (2 * np_pi * (inject_Z h - 6) / 24).

Definition generated_speed (start : Timestamp) (i : nat) : Q :=
  Qmax 0 (daily_cycle (ts_hour (add_hours start (Z.of_nat i)))
          + random_component i + gust_choice i * gust_size i).

Definition generated_direction (i : nat) : Q :=
  fmod (225 + direction_variation i) 360.

(** [generate_sample_data(num_samples, start_date)], with [start] the parsed
    [start_date]; numpy rejects a negative size. *)
Definition generate_sample_data (num_samples : Z) (start : Timestamp)
  : exn + DataFrame :=
  if (num_samples <? 0)%Z
  then inl (ValueError "negative dimensions are not allowed")
  else
    let idx := seq 0 (Z.to_nat num_samples) in
    inr {| timestamp := Some (map (fun i => add_hours start (Z.of_nat i)) idx);
           wind_speed := map (generated_speed start) idx;
           wind_direction := map generated_direction idx;
           direction_bin := None;
           hour := None |}.

End Generator.

(* ================================================================= *)
(** ** [example_analysis.py] *)

(** What [main] computes with the analyzer and hands to the plots.  [main]
    keeps the table it gave to the analyzer in the variable [data]; that is
    the very object the analyzer works on, so the plots receive the table as
    the queries have left it. *)
Record AnalysisOutputs := mkAnalysisOutputs {
  out_stats : BasicStatistics;
  out_prevailing : Q * Q;
  out_calm : DataFrame;
  out_strong : DataFrame;
  out_power_density : list Q;
  out_wind_rose : WindRose;
  out_daily_pattern : list (Z * HourStats);
  out_report : Report;
  out_data : Analyzer
}.

Definition main_analysis : M AnalysisOutputs :=
  stats <- get_basic_statistics ;;
  prevailing <- get_prevailing_direction ;;
  calm_frame <- detect_calm_periods 2 ;;
  strong_frame <- detect_strong_wind_events 10 ;;
  power_density <- calculate_power_density default_air_density ;;
  wind_rose <- get_wind_rose_data 16 ;;
  daily_pattern <- analyze_daily_pattern ;;
  report <- get_summary_report ;;
  data <- get_data ;;
  ret {| out_stats := stats;
         out_prevailing := prevailing;
         out_calm := calm_frame;
         out_strong := strong_frame;
         out_power_density := power_density;
         out_wind_rose := wind_rose;
         out_daily_pattern := daily_pattern;
         out_report := report;
         out_data := data |}.

(* ================================================================= *)
(** ** Rounding to the nearest integer, stated without the program *)

(** [r] is an integer nearest to [q], and the even one of the two nearest
    when [q] lies halfway between two integers. *)
Definition rounds_to (q : Q) (r : Z) : Prop :=
  inject_Z r - (1 # 2) <= q /\
  q <= inject_Z r + (1 # 2) /\
  ((q == inject_Z r - (1 # 2) \/ q == inject_Z r + (1 # 2)) ->
   Z.even r = true).

(* ================================================================= *)
(** ** Machine arithmetic: binary64 columns and int64 columns *)

Section Doubles.

Import PrimFloat.
#[local] Set Warnings "-inexact-float".
Local Open Scope float_scope.

(** The double nearest to an integer (ties to even): Python's conversion of
    an [int] operand of [/] or [*], and numpy's conversion of an int64 to a
    float64. *)
Definition float_of_Z (z : Z) : float :=
  FloatOps.SF2Prim
    (SpecFloat.binary_normalize FloatOps.prec FloatOps.emax z 0 false).



(** A Python or numpy sum of a few doubles, from left to right. *)
Definition sum64 (l : list float) : float := fold_left add l 0.

(** [Series.mean()] of a float column without NaN: numpy's sum of the column
    over the count.  numpy adds fewer than eight values from left to right;
    it adds a longer column in blocks, an order that is not followed here,
    so that only the mean of a column of fewer than eight values is given. *)
Definition series_mean64 (l : list float) : option float :=
  if (length l <? 8)%nat
  then Some (sum64 l / float_of_Z (Z.of_nat (length l)))
  else None.

Definition max64 (a b : float) : float := if a <? b then b else a.

Definition min64 (a b : float) : float := if b <? a then b else a.

(** [Series.max()] and [Series.min()] of a float column without NaN. *)
Definition series_max64 (l : list float) : float :=
  match l with
  | [] => nan
  | x :: t => fold_left max64 t x
  end.

Definition series_min64 (l : list float) : float :=
  match l with
  | [] => nan
  | x :: t => fold_left min64 t x
  end.

(** [rolling(window).mean()].  pandas keeps, from one window to the next, a
    running sum with a Kahan compensation for the values that enter and
    another for those that leave, the number of observations, the number of
    negative ones, and the length of the current run of equal values
    ([roll_mean] with [add_mean], [remove_mean] and [calc_mean]). *)
Record mean_state := mkMeanState {
  nobs : Z;
  sum_x : float;
  neg_ct : Z;
  compensation_add : float;
  compensation_remove : float;
  num_consecutive_same_value : Z;
  prev_value : float
}.

Definition add_mean (st : mean_state) (val : float) : mean_state :=
  if val =? val then
    let y := val - compensation_add st in
    let t := sum_x st + y in
    {| nobs := nobs st + 1;
       sum_x := t;
       neg_ct := if get_sign val then (neg_ct st + 1)%Z else neg_ct st;
       compensation_add := t - sum_x st - y;
       compensation_remove := compensation_remove st;
       num_consecutive_same_value :=
         if val =? prev_value st
         then (num_consecutive_same_value st + 1)%Z else 1%Z;
       prev_value := val |}
  else st.

Definition remove_mean (st : mean_state) (val : float) : mean_state :=
  if val =? val then
    let y := - val - compensation_remove st in
    let t := sum_x st + y in
    {| nobs := nobs st - 1;
       sum_x := t;
       neg_ct := if get_sign val then (neg_ct st - 1)%Z else neg_ct st;
       compensation_add := compensation_add st;
       compensation_remove := t - sum_x st - y;
       num_consecutive_same_value := num_consecutive_same_value st;
       prev_value := prev_value st |}
  else st.

Definition calc_mean (minp : Z) (st : mean_state) : float :=
  if ((minp <=? nobs st) && (0 <? nobs st))%Z then
    let result := sum_x st / float_of_Z (nobs st) in
    if (nobs st <=? num_consecutive_same_value st)%Z then prev_value st
    else if (neg_ct st =? 0)%Z && (result <? 0) then 0
    else if (neg_ct st =? nobs st)%Z && (0 <? result) then 0
    else result
  else nan.

(** Positions [lo .. hi-1] of a column. *)
Definition slice {A} (lo hi : nat) (l : list A) : list A :=
  firstn (hi - lo) (skipn lo l).

(** The bounds of the window that ends at position [i]:
    [max(0, i+1-w) .. i]. *)
Definition win_start (w i : nat) : nat := (i + 1 - w)%nat.

Definition win_end (i : nat) : nat := (i + 1)%nat.

Definition fresh_mean_state (prev : float) : mean_state :=
  mkMeanState 0 0 0 0 0 0 prev.

(** One position of [roll_mean]: the first window, and a window that shares
    nothing with the one before, are summed afresh; otherwise the values
    that left are removed from the running sum and the new ones added. *)
Definition roll_mean_step (w : nat) (values : list float)
           (acc : mean_state * list float) (i : nat)
  : mean_state * list float :=
  let s := win_start w i in
  let e := win_end i in
  let afresh :=
    fold_left add_mean (slice s e values)
              (fresh_mean_state (nth s values nan)) in
  let st :=
    match i with
    | O => afresh
    | S j =>
        if (win_end j <=? s)%nat then afresh
        else
          fold_left add_mean (slice (win_end j) e values)
                    (fold_left remove_mean (slice (win_start w j) s values)
                               (fst acc))
    end in
  (st, snd acc ++ [calc_mean (Z.of_nat w) st]).

Definition roll_mean (w : nat) (values : list float) : list float :=
  snd (fold_left (roll_mean_step w values) (seq 0 (length values))
                 (fresh_mean_state 0, [])).

(** [rolling(window).max()] on a column without NaN: the greatest value of
    a full window, NaN before the first full window. *)
Definition roll_max (w : nat) (values : list float) : list float :=
  map (fun i => if ((1 <=? w) && (w <=? i + 1))%nat
                then series_max64 (slice (win_start w i) (win_end i) values)
                else nan)
      (seq 0 (length values)).

(** [calculate_gust_factor] on a column of doubles:
    [rolling_max / rolling_mean], the IEEE division. *)
Definition gust_factor64 (window : Z) (speeds : list float) : list float :=
  map2 div (roll_max (Z.to_nat window) speeds)
           (roll_mean (Z.to_nat window) speeds).






(** An int64 value after an operation that overflowed: the result modulo
    [2^64], read as a signed integer. *)
Definition wrap64 (z : Z) : Z := ((z + 2 ^ 63) mod 2 ^ 64 - 2 ^ 63)%Z.

(** [calculate_power_density] on an integer speed column (pandas gives a
    column of Python integers the dtype int64): the cube is taken in int64,
    then converted to a double and multiplied by [0.5 * air_density]. *)
Definition power_density_int64 (air_density : float) (speeds : list Z)
  : list float :=
  map (fun s => 0.5 * air_density * float_of_Z (wrap64 (s ^ 3))) speeds.

(** Sample columns. *)
Definition tenths : list float := [0.1; 0.1; 0.1].




Definition rising_then_calm : list float := [0.1; 0.2; 0.3; 0; 0; 0].

End Doubles.

(* ================================================================= *)
(** ** Running the guard and the queries on a given table *)

Lemma require_data_none : require_data None = (inl EmptyDatasetError, None).
Proof. reflexivity. Qed.

Lemma require_data_some (df : DataFrame) :
  require_data (Some df) =
  if df_empty df then (inl EmptyDatasetError, Some df) else (inr df, Some df).
Proof.
  unfold require_data, bind, get_data. destruct (df_empty df); reflexivity.
Qed.

Lemma require_data_no_data (s : Analyzer) :
  no_data s = true -> require_data s = (inl EmptyDatasetError, s).
Proof.
  destruct s as [df|]; simpl; intros H.
  - rewrite require_data_some, H. reflexivity.
  - reflexivity.
Qed.

Lemma bind_require_no_data {A} (k : DataFrame -> M A) (s : Analyzer) :
  no_data s = true -> bind require_data k s = (inl EmptyDatasetError, s).
Proof.
  intros H. unfold bind at 1. rewrite (require_data_no_data s H). reflexivity.
Qed.

Lemma bind_require_ok {A} (k : DataFrame -> M A) (df : DataFrame) :
  df_empty df = false -> bind require_data k (Some df) = k df (Some df).
Proof.
  intros H. unfold bind at 1. rewrite require_data_some, H. reflexivity.
Qed.

Lemma get_basic_statistics_run df :
  df_empty df = false ->
  get_basic_statistics (Some df) =
  (inr {| mean_speed := series_mean (wind_speed df);
          median_speed := series_median (wind_speed df);
          std_speed := series_std (wind_speed df);
          min_speed := series_min (wind_speed df);
          max_speed := series_max (wind_speed df) |}, Some df).
Proof.
  intros H. unfold get_basic_statistics. rewrite bind_require_ok by exact H.
  reflexivity.
Qed.

Lemma get_wind_rose_data_run df bins :
  df_empty df = false -> bins <> 0%Z ->
  get_wind_rose_data bins (Some df) =
  let bin_size := 360 / inject_Z bins in
  let col := map (wind_rose_bin_of bins bin_size) (wind_direction df) in
  let rows := map (rose_bin col (wind_speed df) bin_size) (range bins) in
  (inr {| directions := map (fun r => fst (fst r)) rows;
          frequencies := map (fun r => snd (fst r)) rows;
          avg_speeds := map snd rows |},
   Some (set_direction_bin df col)).
Proof.
  intros H Hb. unfold get_wind_rose_data. rewrite bind_require_ok by exact H.
  apply Z.eqb_neq in Hb. rewrite Hb. reflexivity.
Qed.

Lemma detect_calm_periods_run df t :
  df_empty df = false ->
  detect_calm_periods t (Some df) =
  (inr (df_select (map (fun s => Qltb s t) (wind_speed df)) df), Some df).
Proof.
  intros H. unfold detect_calm_periods. rewrite bind_require_ok by exact H.
  reflexivity.
Qed.

Lemma detect_strong_wind_events_run df t :
  df_empty df = false ->
  detect_strong_wind_events t (Some df) =
  (inr (df_select (map (fun s => Qltb t s) (wind_speed df)) df), Some df).
Proof.
  intros H. unfold detect_strong_wind_events.
  rewrite bind_require_ok by exact H. reflexivity.
Qed.

Lemma calculate_gust_factor_run df w :
  df_empty df = false -> (0 <= w)%Z ->
  calculate_gust_factor w (Some df) =
  (inr (map2 ext_div (rolling (Z.to_nat w) series_max (wind_speed df))
                     (rolling (Z.to_nat w) series_mean (wind_speed df))),
   Some df).
Proof.
  intros H Hw. unfold calculate_gust_factor.
  rewrite bind_require_ok by exact H.
  apply Z.ltb_ge in Hw. rewrite Hw. reflexivity.
Qed.

Lemma get_prevailing_direction_run df :
  df_empty df = false ->
  get_prevailing_direction (Some df) =
  let col := map prevailing_bin_of (wind_direction df) in
  (match mode col with
   | b :: _ =>
       inr (inject_Z b * (45 # 2),
            qnat (count_eq b col) / qnat (df_len df) * 100)
   | [] => inl KeyError
   end, Some (set_direction_bin df col)).
Proof.
  intros H. unfold get_prevailing_direction.
  rewrite bind_require_ok by exact H.
  unfold bind, put_data, get_data. cbn [direction_bin set_direction_bin].
  destruct (mode (map prevailing_bin_of (wind_direction df))); reflexivity.
Qed.

Lemma analyze_daily_pattern_run df :
  df_empty df = false ->
  analyze_daily_pattern (Some df) =
  match timestamp df with
  | None => (inl MissingTimestampError, Some df)
  | Some ts =>
      (inr (groupby_agg (map ts_hour ts) (wind_speed df)),
       Some (set_hour df (map ts_hour ts)))
  end.
Proof.
  intros H. unfold analyze_daily_pattern.
  rewrite bind_require_ok by exact H.
  destruct (timestamp df); reflexivity.
Qed.

Lemma calculate_power_density_run df rho :
  df_empty df = false ->
  calculate_power_density rho (Some df) =
  (inr (map (power_of rho) (wind_speed df)), Some df).
Proof.
  intros H. unfold calculate_power_density.
  rewrite bind_require_ok by exact H. reflexivity.
Qed.

Lemma get_summary_report_run df :
  df_empty df = false ->
  get_summary_report (Some df) =
  let col := map prevailing_bin_of (wind_direction df) in
  let df' := set_direction_bin df col in
  (match mode col with
   | b :: _ =>
       inr {| total_observations := df_len df;
              r_stats :=
                {| mean_speed := series_mean (wind_speed df);
                   median_speed := series_median (wind_speed df);
                   std_speed := series_std (wind_speed df);
                   min_speed := series_min (wind_speed df);
                   max_speed := series_max (wind_speed df) |};
              r_prevailing_dir := inject_Z b * (45 # 2);
              r_prevailing_pct :=
                qnat (count_eq b col) / qnat (df_len df) * 100;
              r_calm_periods :=
                length (select (map (fun s => Qltb s default_calm_threshold)
                                    (wind_speed df)) (wind_speed df));
              r_strong_events :=
                length (select (map (fun s => Qltb default_strong_threshold s)
                                    (wind_speed df)) (wind_speed df));
              r_avg_power_density :=
                series_mean (map (power_of default_air_density) (wind_speed df)) |}
   | [] => inl KeyError
   end, Some df').
Proof.
  intros H. unfold get_summary_report.
  rewrite bind_require_ok by exact H.
  unfold bind at 1. rewrite get_basic_statistics_run by exact H.
  unfold bind at 1. rewrite get_prevailing_direction_run by exact H.
  cbv zeta.
  destruct (mode (map prevailing_bin_of (wind_direction df))) as [|b t].
  - reflexivity.
  - unfold bind at 1. rewrite detect_calm_periods_run by exact H.
    unfold bind at 1. rewrite detect_strong_wind_events_run by exact H.
    unfold bind at 1. unfold get_data at 1.
    unfold bind at 1. rewrite calculate_power_density_run by exact H.
    reflexivity.
Qed.

Lemma result_fmap {A B} (f : A -> B) (c : M A) (s : Analyzer) :
  result (fmap f c) s =
  match result c s with
  | inl e => inl e
  | inr x => inr (f x)
  end.
Proof.
  unfold result, fmap, bind, ret. destruct (c s) as [[e|x] s']; reflexivity.
Qed.

Lemma state_after_fmap {A B} (f : A -> B) (c : M A) (s : Analyzer) :
  state_after (fmap f c) s = state_after c s.
Proof.
  unfold state_after, fmap, bind, ret. destruct (c s) as [[e|x] s']; reflexivity.
Qed.

(** Every operation opens with the guard. *)
Lemma query_guard (q : query) (s : Analyzer) :
  no_data s = true -> run_query q s = (inl EmptyDatasetError, s).
Proof.
  intros H.
  destruct q; unfold run_query, fmap;
    [ unfold get_basic_statistics
    | unfold get_wind_rose_data
    | unfold detect_calm_periods
    | unfold detect_strong_wind_events
    | unfold calculate_gust_factor
    | unfold get_prevailing_direction
    | unfold analyze_daily_pattern
    | unfold calculate_power_density
    | unfold get_summary_report ];
    unfold bind at 1; rewrite (bind_require_no_data _ s H); reflexivity.
Qed.

(** On a table with rows, what comes out of each operation is a value or
    an error other than the empty-table one. *)
Lemma query_no_guard_error (q : query) (df : DataFrame) :
  df_empty df = false ->
  result (run_query q) (Some df) <> inl EmptyDatasetError.
Proof.
  intros H. destruct q; unfold run_query; rewrite result_fmap; unfold result.
  - rewrite get_basic_statistics_run by exact H. discriminate.
  - destruct (Z.eq_dec bins 0) as [-> | Hb].
    + unfold get_wind_rose_data. rewrite bind_require_ok by exact H.
      simpl. discriminate.
    + rewrite get_wind_rose_data_run by assumption. discriminate.
  - rewrite detect_calm_periods_run by exact H. discriminate.
  - rewrite detect_strong_wind_events_run by exact H. discriminate.
  - destruct (Z.ltb_spec window 0) as [Hw | Hw].
    + unfold calculate_gust_factor. rewrite bind_require_ok by exact H.
      apply Z.ltb_lt in Hw. rewrite Hw. unfold EmptyDatasetError.
      simpl. discriminate.
    + rewrite calculate_gust_factor_run by assumption. discriminate.
  - rewrite get_prevailing_direction_run by exact H. cbv zeta.
    destruct (mode _); simpl; discriminate.
  - rewrite analyze_daily_pattern_run by exact H.
    destruct (timestamp df); simpl.
    + discriminate.
    + intros E. injection E as E. discriminate E.
  - rewrite calculate_power_density_run by exact H. discriminate.
  - rewrite get_summary_report_run by exact H. cbv zeta.
    destruct (mode _); simpl; discriminate.
Qed.

(* ================================================================= *)
(** ** The scenario of ten samples: speeds 1..10, all directions 0 *)

Example ten_samples_statistics :
  exists st m,
    result get_basic_statistics (Some ten_samples) = inr st /\
    mean_speed st = Fin m /\ m == 11 # 2 /\
    min_speed st = Fin 1 /\ max_speed st = Fin 10.
Proof.
  eexists. exists (qmean (wind_speed ten_samples)). unfold result.
  rewrite get_basic_statistics_run by reflexivity.
  repeat split; reflexivity.
Qed.

Example ten_samples_strong_events :
  result (detect_strong_wind_events 9) (Some ten_samples)
  = inr (frame_of [10] [0]).
Proof. reflexivity. Qed.

Example ten_samples_prevailing :
  exists d pct,
    result get_prevailing_direction (Some ten_samples) = inr (d, pct) /\
    d == 0 /\ pct == 100.
Proof.
  eexists. eexists. split; [reflexivity|]. split; reflexivity.
Qed.

Example signed_samples_gust :
  result (calculate_gust_factor 2) (Some signed_samples) = inr [NaN; PosInf].
Proof. reflexivity. Qed.

Example one_sample_statistics :
  exists st,
    result get_basic_statistics (Some one_sample) = inr st /\
    std_speed st = NaN.
Proof.
  eexists. unfold result. rewrite get_basic_statistics_run by reflexivity.
  split; reflexivity.
Qed.

Example timed_samples_hours :
  option_map (map fst)
             (match result analyze_daily_pattern (Some timed_samples) with
              | inr pat => Some pat
              | inl _ => None
              end)
  = Some [0%Z; 1%Z].
Proof. reflexivity. Qed.

(* ================================================================= *)
(** ** C1: the empty-data error *)

(** C1.  Each of the nine query operations fails with [EmptyDatasetError]
    exactly when no data set has been loaded or the loaded one has zero
    samples: it fails so in that case, and on a data set with at least one
    sample it never fails with that error, whatever its arguments. *)
Theorem empty_dataset_error (q : query) (s : Analyzer) :
  result (run_query q) s = inl EmptyDatasetError <-> no_data s = true.
Proof.
  split.
  - intros E. destruct (no_data s) eqn:Hs; [reflexivity|].
    destruct s as [df|]; [|discriminate Hs].
    exfalso. exact (query_no_guard_error q df Hs E).
  - intros H. unfold result. rewrite (query_guard q s H). reflexivity.
Qed.

Lemma empty_dataset_error_witness :
  result (run_query QSummaryReport) (Some (frame_of [] [])) = inl EmptyDatasetError
  /\ no_data (Some ten_samples) = false.
Proof.
  split.
  - apply (proj2 (empty_dataset_error QSummaryReport (Some (frame_of [] [])))).
    reflexivity.
  - reflexivity.
Defined.

(* ================================================================= *)
(** ** C6: calm periods and strong wind events *)

Lemma Qltb_lt (x y : Q) : Qltb x y = true <-> x < y.
Proof.
  unfold Qltb. rewrite negb_true_iff. split.
  - intros H. apply Qnot_le_lt. intros Hle.
    apply Qle_bool_iff in Hle. congruence.
  - intros H. destruct (Qle_bool y x) eqn:E; [|reflexivity].
    apply Qle_bool_iff in E. exfalso. exact (Qlt_not_le _ _ H E).
Qed.

Lemma calm_Qltb (t : Q) (x : Sample) : calm t x = Qltb (s_speed x) t.
Proof.
  unfold calm. destruct (Qlt_le_dec (s_speed x) t) as [H | H].
  - symmetry. apply Qltb_lt. exact H.
  - destruct (Qltb (s_speed x) t) eqn:E; [|reflexivity].
    apply Qltb_lt in E. exfalso. exact (Qlt_not_le _ _ E H).
Qed.

Lemma strong_Qltb (t : Q) (x : Sample) : strong t x = Qltb t (s_speed x).
Proof.
  unfold strong. destruct (Qlt_le_dec t (s_speed x)) as [H | H].
  - symmetry. apply Qltb_lt. exact H.
  - destruct (Qltb t (s_speed x)) eqn:E; [|reflexivity].
    apply Qltb_lt in E. exfalso. exact (Qlt_not_le _ _ E H).
Qed.

Lemma zip_samples_no_ts (sp dr : list Q) :
  zip_samples (Some []) sp dr = zip_samples None sp dr.
Proof. destruct sp, dr; reflexivity. Qed.

Lemma select_nil_r {A} (mask : list bool) : select mask (@nil A) = [].
Proof. destruct mask; reflexivity. Qed.

Lemma zip_samples_nil_r ts sp : zip_samples ts sp [] = [].
Proof. destruct sp; reflexivity. Qed.

(** Selecting rows column by column is filtering the samples. *)
Lemma zip_samples_select (f : Q -> bool) (sp : list Q) :
  forall ts dr,
    zip_samples (option_map (select (map f sp)) ts)
                (select (map f sp) sp) (select (map f sp) dr)
    = filter (fun x => f (s_speed x)) (zip_samples ts sp dr).
Proof.
  induction sp as [|s sp IH]; intros ts dr.
  - reflexivity.
  - destruct dr as [|d dr].
    + rewrite select_nil_r, !zip_samples_nil_r. reflexivity.
    + destruct ts as [[|t ts]|]; cbn [map select option_map zip_samples filter s_speed].
      * destruct (f s).
        -- cbn [zip_samples]. f_equal. apply (IH None dr).
        -- rewrite ?select_nil_r, zip_samples_no_ts. apply (IH None dr).
      * destruct (f s).
        -- cbn [zip_samples]. f_equal. apply (IH (Some ts) dr).
        -- apply (IH (Some ts) dr).
      * destruct (f s).
        -- cbn [zip_samples]. f_equal. apply (IH None dr).
        -- apply (IH None dr).
Qed.

Lemma samples_df_select (f : Q -> bool) (df : DataFrame) :
  samples (df_select (map f (wind_speed df)) df)
  = filter (fun x => f (s_speed x)) (samples df).
Proof.
  unfold samples, df_select. cbn [timestamp wind_speed wind_direction].
  apply zip_samples_select.
Qed.

(** C6.  On a data set with at least one sample and for every threshold
    [t], [detect_calm_periods t] returns exactly the samples whose speed is
    strictly below [t] and [detect_strong_wind_events t] exactly those whose
    speed is strictly above [t], both in the order of the data set; when no
    sample matches the result is the empty selection, not an error; and no
    sample is both calm and strong for the same [t]. *)
Theorem detect_calm_and_strong (df : DataFrame) (t : Q) :
  df_empty df = false ->
  exists c s : DataFrame,
    result (detect_calm_periods t) (Some df) = inr c /\
    result (detect_strong_wind_events t) (Some df) = inr s /\
    samples c = filter (calm t) (samples df) /\
    samples s = filter (strong t) (samples df) /\
    (forall x, In x (samples c) <-> In x (samples df) /\ s_speed x < t) /\
    (forall x, In x (samples s) <-> In x (samples df) /\ t < s_speed x) /\
    ((forall x, In x (samples df) -> ~ s_speed x < t) -> samples c = []) /\
    ((forall x, In x (samples df) -> ~ t < s_speed x) -> samples s = []) /\
    (forall x : Sample, ~ (s_speed x < t /\ t < s_speed x)).
Proof.
  intros H.
  exists (df_select (map (fun v => Qltb v t) (wind_speed df)) df),
         (df_select (map (fun v => Qltb t v) (wind_speed df)) df).
  assert (Ec : samples (df_select (map (fun v => Qltb v t) (wind_speed df)) df)
               = filter (calm t) (samples df)).
  { rewrite (samples_df_select (fun v => Qltb v t)).
    apply filter_ext. intros x. symmetry. apply calm_Qltb. }
  assert (Es : samples (df_select (map (fun v => Qltb t v) (wind_speed df)) df)
               = filter (strong t) (samples df)).
  { rewrite (samples_df_select (fun v => Qltb t v)).
    apply filter_ext. intros x. symmetry. apply strong_Qltb. }
  assert (Ic : forall x, In x (filter (calm t) (samples df)) <->
                         In x (samples df) /\ s_speed x < t).
  { intros x. rewrite filter_In, calm_Qltb, Qltb_lt. reflexivity. }
  assert (Is : forall x, In x (filter (strong t) (samples df)) <->
                         In x (samples df) /\ t < s_speed x).
  { intros x. rewrite filter_In, strong_Qltb, Qltb_lt. reflexivity. }
  unfold result.
  rewrite detect_calm_periods_run, detect_strong_wind_events_run by exact H.
  rewrite Ec, Es.
  split; [reflexivity|]. split; [reflexivity|].
  split; [reflexivity|]. split; [reflexivity|].
  split; [exact Ic|]. split; [exact Is|].
  split; [|split].
  - intros Hn. destruct (filter (calm t) (samples df)) as [|x l];
      [reflexivity|].
    destruct (proj1 (Ic x) (or_introl eq_refl)) as [Hi Hl].
    exfalso. exact (Hn x Hi Hl).
  - intros Hn. destruct (filter (strong t) (samples df)) as [|x l];
      [reflexivity|].
    destruct (proj1 (Is x) (or_introl eq_refl)) as [Hi Hl].
    exfalso. exact (Hn x Hi Hl).
  - intros x [H1 H2]. exact (Qlt_irrefl _ (Qlt_trans _ _ _ H1 H2)).
Qed.

Lemma detect_calm_and_strong_witness :
  exists c s : DataFrame,
    result (detect_calm_periods 9) (Some ten_samples) = inr c /\
    result (detect_strong_wind_events 9) (Some ten_samples) = inr s /\
    length (samples c) = 8%nat /\
    samples s = [mkSample None 10 0].
Proof.
  destruct (detect_calm_and_strong ten_samples 9 eq_refl)
    as (c & s & Hc & Hs & Ec & Es & _).
  exists c, s.
  split; [exact Hc|]. split; [exact Hs|]. split.
  - rewrite Ec. reflexivity.
  - rewrite Es. reflexivity.
Defined.

(* ================================================================= *)
(** ** C8: power density *)

Lemma cube_Qeq (s : Q) : s ^ 3 == s * s * s.
Proof. unfold Qpower, Qpower_positive. simpl. ring. Qed.

Lemma power_of_Qeq (rho s : Q) : power_of rho s == (1 # 2) * rho * (s * s * s).
Proof. unfold power_of. rewrite cube_Qeq. reflexivity. Qed.

Lemma power_of_nonneg (rho s : Q) : 0 <= rho -> 0 <= s -> 0 <= power_of rho s.
Proof.
  intros Hr Hs. rewrite power_of_Qeq.
  assert (H2 : 0 <= s * s) by (apply Qmult_le_0_compat; assumption).
  assert (H3 : 0 <= s * s * s) by (apply Qmult_le_0_compat; assumption).
  assert (H4 : 0 <= (1 # 2) * rho)
    by (apply Qmult_le_0_compat; [discriminate | assumption]).
  apply Qmult_le_0_compat; assumption.
Qed.

Lemma power_of_double (rho s : Q) :
  power_of (2 * rho) s == 2 * power_of rho s.
Proof. rewrite !power_of_Qeq. ring. Qed.

(** With a negative air density a sample of non-negative speed has a
    negative power density. *)
Lemma power_density_negative_density :
  ~ (forall (df : DataFrame) (rho : Q) (pd : list Q),
        df_empty df = false ->
        result (calculate_power_density rho) (Some df) = inr pd ->
        forall (i : nat) (s p : Q),
          nth_error (wind_speed df) i = Some s ->
          nth_error pd i = Some p ->
          0 <= s -> 0 <= p).
Proof.
  intros H.
  specialize (H one_sample (-1) [power_of (-1) 5] eq_refl eq_refl
                0%nat 5 (power_of (-1) 5) eq_refl eq_refl).
  assert (Hs : 0 <= 5) by discriminate.
  specialize (H Hs). vm_compute in H. apply H. reflexivity.
Qed.

(** The statement of C8 fails as written, in two ways.  The air density is
    not checked: with air density -1 the speed 5 has the power density
    -62.5.  And on a column of integer speeds the cube is taken in int64:
    the speed 2097152 = 2^21 has the cube 2^63, which wraps to -2^63, so that
    with air density 1 the power density is -2^62, about -4.6e18, although
    neither the air density nor the speed is negative. *)
Lemma power_density_refuted :
  ~ (forall (df : DataFrame) (rho : Q) (pd : list Q),
        df_empty df = false ->
        result (calculate_power_density rho) (Some df) = inr pd ->
        forall (i : nat) (s p : Q),
          nth_error (wind_speed df) i = Some s ->
          nth_error pd i = Some p ->
          0 <= s -> 0 <= p) /\
  ~ (forall (rho : PrimFloat.float) (speeds : list Z) (i : nat) (s : Z)
            (p : PrimFloat.float),
        (forall x, In x speeds -> (- 2 ^ 63 <= x < 2 ^ 63)%Z) ->
        nth_error speeds i = Some s ->
        nth_error (power_density_int64 rho speeds) i = Some p ->
        PrimFloat.leb PrimFloat.zero rho = true ->
        (0 <= s)%Z ->
        PrimFloat.leb PrimFloat.zero p = true).
Proof.
  split; [exact power_density_negative_density|].
  intros H.
  assert (Hr : forall x, In x [2097152%Z] -> (- 2 ^ 63 <= x < 2 ^ 63)%Z).
  { intros x [<- | []]. lia. }
  assert (Hs : (0 <= 2097152)%Z) by lia.
  pose proof (H PrimFloat.one [2097152%Z] 0%nat 2097152%Z
                (float_of_Z (- 2 ^ 62)) Hr eq_refl) as H1.
  assert (Hp : nth_error (power_density_int64 PrimFloat.one [2097152%Z]) 0
               = Some (float_of_Z (- 2 ^ 62))) by (vm_compute; reflexivity).
  assert (Hrho : PrimFloat.leb PrimFloat.zero PrimFloat.one = true)
    by (vm_compute; reflexivity).
  specialize (H1 Hp Hrho Hs). vm_compute in H1. discriminate H1.
Qed.

(** C8 (amended).  For speeds that are floats, in exact arithmetic (the
    product and the cube taken without rounding or overflow): on a data set
    with at least one sample and for every air density [rho],
    [calculate_power_density rho] has the length and order of the data set
    and its element at index [i] is [0.5 * rho * speed[i]^3]; when
    [rho >= 0], each element is [>= 0] whenever [speed[i] >= 0]; and the
    element at [i] for air density [2 * rho] is twice the one for [rho]. *)
Theorem power_density_spec (df : DataFrame) (rho : Q) :
  df_empty df = false ->
  exists pd pd2 : list Q,
    result (calculate_power_density rho) (Some df) = inr pd /\
    result (calculate_power_density (2 * rho)) (Some df) = inr pd2 /\
    length pd = df_len df /\
    (forall i s, nth_error (wind_speed df) i = Some s ->
                 exists p, nth_error pd i = Some p /\
                           p == (1 # 2) * rho * (s * s * s)) /\
    (0 <= rho ->
     forall i s p, nth_error (wind_speed df) i = Some s ->
                   nth_error pd i = Some p -> 0 <= s -> 0 <= p) /\
    (forall i p, nth_error pd i = Some p ->
                 exists p2, nth_error pd2 i = Some p2 /\ p2 == 2 * p).
Proof.
  intros H.
  exists (map (power_of rho) (wind_speed df)),
         (map (power_of (2 * rho)) (wind_speed df)).
  unfold result. rewrite !calculate_power_density_run by exact H.
  split; [reflexivity|]. split; [reflexivity|].
  split; [apply length_map|].
  split; [|split].
  - intros i s Hi. exists (power_of rho s). split.
    + rewrite nth_error_map, Hi. reflexivity.
    + apply power_of_Qeq.
  - intros Hr i s p Hi Hp Hs.
    rewrite nth_error_map, Hi in Hp. injection Hp as <-.
    apply power_of_nonneg; assumption.
  - intros i p Hp. rewrite nth_error_map in Hp.
    destruct (nth_error (wind_speed df) i) as [s|] eqn:Hi; [|discriminate].
    injection Hp as <-. exists (power_of (2 * rho) s). split.
    + rewrite nth_error_map, Hi. reflexivity.
    + apply power_of_double.
Qed.

Lemma power_density_spec_witness :
  exists pd pd2 : list Q,
    result (calculate_power_density 1) (Some ten_samples) = inr pd /\
    result (calculate_power_density (2 * 1)) (Some ten_samples) = inr pd2 /\
    length pd = 10%nat.
Proof.
  destruct (power_density_spec ten_samples 1 eq_refl)
    as (pd & pd2 & H1 & H2 & H3 & _).
  exists pd, pd2. split; [exact H1|]. split; [exact H2|]. exact H3.
Defined.

(* ================================================================= *)
(** ** C5: basic statistics *)

Lemma fold_min_spec (t : list Q) :
  forall x, In (fold_left Qmin t x) (x :: t) /\
            (forall y, In y (x :: t) -> fold_left Qmin t x <= y).
Proof.
  induction t as [|z t IH]; intros x; cbn [fold_left].
  - split; [left; reflexivity|].
    intros y [<- | []]. apply Qle_refl.
  - destruct (IH (Qmin x z)) as [Hin Hle]. split.
    + destruct Hin as [E | Hin].
      * rewrite <- E. unfold Qmin, GenericMinMax.gmin.
        destruct (x ?= z); [left | left | right; left]; reflexivity.
      * right; right. exact Hin.
    + intros y [<- | [<- | Hy]].
      * eapply Qle_trans; [apply Hle; left; reflexivity | apply Q.le_min_l].
      * eapply Qle_trans; [apply Hle; left; reflexivity | apply Q.le_min_r].
      * apply Hle. right. exact Hy.
Qed.

Lemma fold_max_spec (t : list Q) :
  forall x, In (fold_left Qmax t x) (x :: t) /\
            (forall y, In y (x :: t) -> y <= fold_left Qmax t x).
Proof.
  induction t as [|z t IH]; intros x; cbn [fold_left].
  - split; [left; reflexivity|].
    intros y [<- | []]. apply Qle_refl.
  - destruct (IH (Qmax x z)) as [Hin Hle]. split.
    + destruct Hin as [E | Hin].
      * rewrite <- E. unfold Qmax, GenericMinMax.gmax.
        destruct (x ?= z); [left | right; left | left]; reflexivity.
      * right; right. exact Hin.
    + intros y [<- | [<- | Hy]].
      * eapply Qle_trans; [apply Q.le_max_l | apply Hle; left; reflexivity].
      * eapply Qle_trans; [apply Q.le_max_r | apply Hle; left; reflexivity].
      * apply Hle. right. exact Hy.
Qed.

Lemma series_min_spec (l : list Q) :
  l <> [] ->
  exists mn, series_min l = Fin mn /\ In mn l /\ forall y, In y l -> mn <= y.
Proof.
  destruct l as [|x t]; [congruence|]. intros _.
  exists (fold_left Qmin t x). split; [reflexivity|]. apply fold_min_spec.
Qed.

Lemma series_max_spec (l : list Q) :
  l <> [] ->
  exists mx, series_max l = Fin mx /\ In mx l /\ forall y, In y l -> y <= mx.
Proof.
  destruct l as [|x t]; [congruence|]. intros _.
  exists (fold_left Qmax t x). split; [reflexivity|]. apply fold_max_spec.
Qed.

Lemma qlen_cons (x : Q) (l : list Q) : qlen (x :: l) == 1 + qlen l.
Proof.
  unfold qlen. cbn [length]. rewrite Nat2Z.inj_succ. unfold Z.succ.
  rewrite inject_Z_plus. ring.
Qed.

Lemma qlen_nonneg (l : list Q) : 0 <= qlen l.
Proof.
  unfold qlen. change 0 with (inject_Z 0). rewrite <- Zle_Qle. lia.
Qed.

Lemma qlen_pos (l : list Q) : l <> [] -> 0 < qlen l.
Proof.
  destruct l as [|x t]; [congruence|]. intros _.
  rewrite qlen_cons. pose proof (qlen_nonneg t). lra.
Qed.

Lemma qsum_lower (a : Q) (l : list Q) :
  (forall y, In y l -> a <= y) -> a * qlen l <= qsum l.
Proof.
  induction l as [|x l IH]; intros H.
  - change (a * 0 <= 0). lra.
  - rewrite qlen_cons. cbn [qsum fold_right]. fold (qsum l).
    assert (a <= x) by (apply H; left; reflexivity).
    assert (a * qlen l <= qsum l) by (apply IH; intros y Hy; apply H; right; exact Hy).
    lra.
Qed.

Lemma qsum_upper (b : Q) (l : list Q) :
  (forall y, In y l -> y <= b) -> qsum l <= b * qlen l.
Proof.
  induction l as [|x l IH]; intros H.
  - change (0 <= b * 0). lra.
  - rewrite qlen_cons. cbn [qsum fold_right]. fold (qsum l).
    assert (x <= b) by (apply H; left; reflexivity).
    assert (qsum l <= b * qlen l) by (apply IH; intros y Hy; apply H; right; exact Hy).
    lra.
Qed.

Lemma qmean_lower (a : Q) (l : list Q) :
  l <> [] -> (forall y, In y l -> a <= y) -> a <= qmean l.
Proof.
  intros Hl H. unfold qmean. apply Qle_shift_div_l.
  - apply qlen_pos, Hl.
  - apply qsum_lower, H.
Qed.

Lemma qmean_upper (b : Q) (l : list Q) :
  l <> [] -> (forall y, In y l -> y <= b) -> qmean l <= b.
Proof.
  intros Hl H. unfold qmean. apply Qle_shift_div_r.
  - apply qlen_pos, Hl.
  - apply qsum_upper, H.
Qed.

Lemma qsum_nonneg (l : list Q) : (forall y, In y l -> 0 <= y) -> 0 <= qsum l.
Proof.
  intros H. pose proof (qsum_lower 0 l H) as H0. lra.
Qed.

Lemma sq_dev_nonneg (m : Q) (l : list Q) : 0 <= sq_dev m l.
Proof.
  unfold sq_dev. apply qsum_nonneg. intros y Hy.
  apply in_map_iff in Hy. destruct Hy as (x & <- & _).
  generalize (x - m). intros a.
  destruct (Qlt_le_dec a 0).
  - setoid_replace (a * a) with ((- a) * (- a)) by ring.
    apply Qmult_le_0_compat; lra.
  - apply Qmult_le_0_compat; assumption.
Qed.

Lemma qlen_minus_one_pos (l : list Q) : (2 <= length l)%nat -> 0 < qlen l - 1.
Proof.
  intros H. unfold qlen.
  assert (E : inject_Z (Z.of_nat (length l)) - 1
              == inject_Z (Z.of_nat (length l) - 1)).
  { unfold Zminus. rewrite inject_Z_plus. reflexivity. }
  rewrite E. change 0 with (inject_Z 0). rewrite <- Zlt_Qlt. lia.
Qed.

Lemma series_var_spec (l : list Q) :
  (2 <= length l)%nat ->
  series_var l = Fin (sq_dev (qmean l) l / (qlen l - 1)) /\
  0 <= sq_dev (qmean l) l / (qlen l - 1).
Proof.
  intros H. split.
  - unfold series_var. destruct (Nat.leb_spec (length l) 1); [lia | reflexivity].
  - apply Qle_shift_div_l.
    + apply qlen_minus_one_pos, H.
    + pose proof (sq_dev_nonneg (qmean l) l). lra.
Qed.

Lemma df_nonempty_speeds (df : DataFrame) :
  df_empty df = false -> wind_speed df <> [].
Proof.
  unfold df_empty, df_len. destruct (wind_speed df); [discriminate | discriminate].
Qed.

(** On a data set with a single sample the standard deviation is NaN,
    which is not [>= 0]. *)
Lemma basic_statistics_single_sample :
  ~ (forall (df : DataFrame) (st : BasicStatistics),
        df_empty df = false ->
        result get_basic_statistics (Some df) = inr st ->
        ext_le Rle (Fin 0%R) (std_speed st)).
Proof.
  intros H.
  exact (H one_sample _ eq_refl
           (f_equal fst (get_basic_statistics_run one_sample eq_refl))).
Qed.

(** The statement of C5 fails as written, in two ways.  On a data set with
    a single sample the standard deviation is NaN, which is not [>= 0].
    And the mean that the program returns is the rounded sum over the count:
    on the three speeds 0.1 the sum of the doubles is 0.30000000000000004
    and the mean 0.10000000000000002, above the maximum 0.1. *)
Lemma basic_statistics_refuted :
  ~ (forall (df : DataFrame) (st : BasicStatistics),
        df_empty df = false ->
        result get_basic_statistics (Some df) = inr st ->
        ext_le Rle (Fin 0%R) (std_speed st)) /\
  ~ (forall (speeds : list PrimFloat.float) (m : PrimFloat.float),
        speeds <> [] ->
        series_mean64 speeds = Some m ->
        PrimFloat.leb m (series_max64 speeds) = true).
Proof.
  split; [exact basic_statistics_single_sample|].
  intros H.
  assert (Hne : tenths <> []) by discriminate.
  pose proof (H tenths
                (match series_mean64 tenths with
                 | Some m => m
                 | None => PrimFloat.nan
                 end) Hne) as H1.
  assert (E : series_mean64 tenths
              = Some (match series_mean64 tenths with
                      | Some m => m
                      | None => PrimFloat.nan
                      end)) by (vm_compute; reflexivity).
  specialize (H1 E). vm_compute in H1. discriminate H1.
Qed.

(** C5 (amended).  On a data set with at least one sample,
    [get_basic_statistics] returns as [min] and [max] elements of the data
    set that bound all the others, and as [mean] the sum of the speeds over
    their count; in exact arithmetic, that is with the sum and the quotient
    taken without rounding, [min <= mean <= max].  With at least two samples
    the standard deviation is the square root of the sum of squared
    deviations from the mean over [n - 1], and it is [>= 0]; with exactly one
    sample the standard deviation is missing (NaN). *)
Theorem basic_statistics_spec (df : DataFrame) :
  df_empty df = false ->
  exists (st : BasicStatistics) (mn m mx : Q),
    result get_basic_statistics (Some df) = inr st /\
    min_speed st = Fin mn /\ mean_speed st = Fin m /\ max_speed st = Fin mx /\
    mn <= m /\ m <= mx /\
    m = qsum (wind_speed df) / qlen (wind_speed df) /\
    In mn (wind_speed df) /\ (forall y, In y (wind_speed df) -> mn <= y) /\
    In mx (wind_speed df) /\ (forall y, In y (wind_speed df) -> y <= mx) /\
    (df_len df = 1%nat -> std_speed st = NaN) /\
    ((2 <= df_len df)%nat ->
     exists v : Q,
       v = qsum (map (fun x => (x - m) * (x - m)) (wind_speed df))
           / (qlen (wind_speed df) - 1) /\
       0 <= v /\
       std_speed st = Fin (sqrt (Q2R v)) /\
       ext_le Rle (Fin 0%R) (std_speed st)).
Proof.
  intros H. pose proof (df_nonempty_speeds df H) as Hne.
  destruct (series_min_spec _ Hne) as (mn & Emn & Imn & Lmn).
  destruct (series_max_spec _ Hne) as (mx & Emx & Imx & Lmx).
  eexists. exists mn, (qmean (wind_speed df)), mx.
  unfold result. rewrite get_basic_statistics_run by exact H.
  cbn [fst min_speed mean_speed max_speed std_speed].
  split; [reflexivity|]. split; [exact Emn|].
  split; [destruct (wind_speed df); [congruence | reflexivity]|].
  split; [exact Emx|].
  split; [apply qmean_lower; assumption|].
  split; [apply qmean_upper; assumption|].
  split; [reflexivity|].
  split; [exact Imn|]. split; [exact Lmn|].
  split; [exact Imx|]. split; [exact Lmx|].
  split.
  - unfold df_len. intros E1.
    destruct (wind_speed df) as [|x [|y t]]; try discriminate E1.
    reflexivity.
  - unfold df_len. intros H2.
    destruct (series_var_spec _ H2) as [Ev Hv].
    exists (sq_dev (qmean (wind_speed df)) (wind_speed df)
            / (qlen (wind_speed df) - 1)).
    split; [reflexivity|]. split; [exact Hv|].
    unfold series_std. rewrite Ev. cbn [ext_map ext_le].
    split; [reflexivity|]. apply sqrt_pos.
Qed.

Lemma basic_statistics_spec_witness :
  exists (st : BasicStatistics) (mn m mx : Q),
    result get_basic_statistics (Some ten_samples) = inr st /\
    min_speed st = Fin mn /\ mean_speed st = Fin m /\ max_speed st = Fin mx /\
    mn <= m /\ m <= mx.
Proof.
  destruct (basic_statistics_spec ten_samples eq_refl)
    as (st & mn & m & mx & H1 & H2 & H3 & H4 & H5 & H6 & _).
  exists st, mn, m, mx. repeat (split; [assumption|]). assumption.
Defined.

(* ================================================================= *)
(** ** Rolling windows: the sliding buffer against the positional window *)

Lemma push_tail_of (w : nat) (pre : list Q) (x : Q) :
  push w (tail_of w pre) x = tail_of w (pre ++ [x]).
Proof.
  unfold push, tail_of.
  rewrite !length_app, length_skipn. cbn [length].
  destruct (Nat.le_gt_cases (length pre) w) as [Hle | Hgt].
  - replace (length pre - w)%nat with 0%nat by lia.
    cbn [skipn]. f_equal. lia.
  - replace (length pre - (length pre - w) + 1 - w)%nat with 1%nat by lia.
    rewrite (skipn_app (length pre + 1 - w) pre [x]).
    destruct w as [|w].
    + rewrite Nat.sub_0_r, skipn_all.
      rewrite (skipn_all2 pre) by lia.
      replace (length pre + 1 - 0 - length pre)%nat with 1%nat by lia.
      reflexivity.
    + replace (length pre + 1 - S w - length pre)%nat with 0%nat by lia.
      cbn [skipn].
      replace (length pre + 1 - S w)%nat with (1 + (length pre - S w))%nat by lia.
      rewrite <- skipn_skipn.
      destruct (skipn (length pre - S w) pre) as [|y t] eqn:E.
      * apply (f_equal (@length Q)) in E. rewrite length_skipn in E.
        cbn [length] in E. lia.
      * reflexivity.
Qed.

Lemma rolling_from_length (w : nat) (agg : list Q -> ext Q) (l : list Q) :
  forall buf, length (rolling_from w agg buf l) = length l.
Proof.
  induction l as [|x l IH]; intros buf; cbn [rolling_from length].
  - reflexivity.
  - rewrite IH. reflexivity.
Qed.

(** The buffer at position [j] of [rest] holds the last [w] values seen. *)
Lemma rolling_from_nth (w : nat) (agg : list Q -> ext Q) (rest : list Q) :
  forall (pre : list Q) (j : nat),
    (j < length rest)%nat ->
    nth_error (rolling_from w agg (tail_of w pre) rest) j
    = Some (cell w agg (tail_of w (pre ++ firstn (j + 1) rest))).
Proof.
  induction rest as [|x rest IH]; intros pre j Hj.
  - cbn [length] in Hj. lia.
  - cbn [rolling_from]. rewrite push_tail_of. destruct j as [|j].
    + reflexivity.
    + cbn [nth_error]. rewrite IH by (cbn [length] in Hj; lia).
      cbn [Nat.add firstn]. rewrite <- app_assoc. reflexivity.
Qed.

Lemma tail_of_firstn (w i : nat) (l : list Q) :
  (i < length l)%nat ->
  tail_of w (firstn (i + 1) l) = window_slice w i l.
Proof.
  intros Hi. unfold tail_of, window_slice.
  rewrite firstn_length_le by lia.
  apply skipn_firstn_comm.
Qed.

Lemma rolling_nth (w : nat) (agg : list Q -> ext Q) (l : list Q) (i : nat) :
  (i < length l)%nat ->
  nth_error (rolling w agg l) i = Some (cell w agg (window_slice w i l)).
Proof.
  intros Hi. unfold rolling.
  change (@nil Q) with (tail_of w []).
  rewrite rolling_from_nth by exact Hi.
  cbn [app]. rewrite tail_of_firstn by exact Hi. reflexivity.
Qed.

Lemma window_slice_length (w i : nat) (l : list Q) :
  (i < length l)%nat -> length (window_slice w i l) = Nat.min w (i + 1).
Proof.
  intros Hi. unfold window_slice. rewrite length_firstn, length_skipn. lia.
Qed.


Lemma map2_length {A B C} (f : A -> B -> C) (a : list A) :
  forall b, length b = length a -> length (map2 f a b) = length a.
Proof.
  induction a as [|x a IH]; intros [|y b] H; cbn [map2 length] in *;
    try reflexivity; try discriminate.
  rewrite IH by lia. reflexivity.
Qed.

Lemma map2_nth {A B C} (f : A -> B -> C) (a : list A) :
  forall b i x y,
    nth_error a i = Some x -> nth_error b i = Some y ->
    nth_error (map2 f a b) i = Some (f x y).
Proof.
  induction a as [|x0 a IH]; intros [|y0 b] [|i] x y Ha Hb;
    cbn [nth_error map2] in *; try discriminate.
  - congruence.
  - apply IH; assumption.
Qed.

Lemma cell_short (w : nat) (agg : list Q -> ext Q) (win : list Q) :
  (length win < w)%nat -> cell w agg win = NaN.
Proof.
  intros H. unfold cell.
  destruct (Nat.leb_spec w (length win)); [lia|].
  rewrite andb_false_r. reflexivity.
Qed.

Lemma cell_full (w : nat) (agg : list Q -> ext Q) (win : list Q) :
  (1 <= w)%nat -> (w <= length win)%nat -> cell w agg win = agg win.
Proof.
  intros H1 H. unfold cell.
  destruct (Nat.leb_spec w (length win)); [|lia].
  destruct (Nat.leb_spec 1 (length win)); [|lia].
  reflexivity.
Qed.



Lemma Qsign_zero (x : Q) : x == 0 -> Qsign x = Eq.
Proof. intros H. unfold Qsign. apply Qeq_alt. symmetry. exact H. Qed.

Lemma Qsign_pos (x : Q) : 0 < x -> Qsign x = Lt.
Proof. intros H. unfold Qsign. apply Qlt_alt. exact H. Qed.

(** The value of the gust factor at one position of a series. *)
Lemma gust_value (l : list Q) (n i : nat) :
  (1 <= n)%nat -> (i < length l)%nat ->
  exists (v : ext Q) (mx : Q),
    nth_error (map2 ext_div (rolling n series_max l) (rolling n series_mean l)) i
    = Some v /\
    ((i + 1 < n)%nat -> v = NaN) /\
    ((n <= i + 1)%nat ->
     In mx (window_slice n i l) /\
     (forall y, In y (window_slice n i l) -> y <= mx) /\
     qmean (window_slice n i l) <= mx /\
     (qmean (window_slice n i l) == 0 -> mx == 0 -> v = NaN) /\
     (qmean (window_slice n i l) == 0 -> ~ mx == 0 -> v = PosInf) /\
     (~ qmean (window_slice n i l) == 0 ->
      v = Fin (mx / qmean (window_slice n i l)))).
Proof.
  intros Hn Hi.
  pose proof (window_slice_length n i l Hi) as Hlen.
  set (win := window_slice n i l) in *.
  destruct (Nat.lt_ge_cases (i + 1) n) as [Hshort | Hfull].
  - exists NaN, 0. split; [|split].
    + erewrite map2_nth; [| apply rolling_nth, Hi | apply rolling_nth, Hi].
      fold win. rewrite !cell_short by lia. reflexivity.
    + reflexivity.
    + intros. lia.
  - assert (Hne : win <> []).
    { intros E. rewrite E in Hlen. cbn [length] in Hlen. lia. }
    destruct (series_max_spec win Hne) as (mx & Emx & Imx & Lmx).
    assert (Emean : series_mean win = Fin (qmean win)).
    { destruct win; [congruence | reflexivity]. }
    pose proof (qmean_upper mx win Hne Lmx) as Hle.
    exists (ext_div (Fin mx) (Fin (qmean win))), mx. split; [|split].
    + erewrite map2_nth; [| apply rolling_nth, Hi | apply rolling_nth, Hi].
      fold win. rewrite !cell_full by lia. rewrite Emx, Emean. reflexivity.
    + intros. lia.
    + intros _. split; [exact Imx|]. split; [exact Lmx|]. split; [exact Hle|].
      cbn [ext_div].
      split; [|split].
      * intros Hm Hz. apply Qeq_bool_iff in Hm. rewrite Hm.
        rewrite (Qsign_zero mx Hz). reflexivity.
      * intros Hm Hz.
        assert (Hpos : 0 < mx).
        { apply Qnot_le_lt. intros Hneg. apply Hz.
          apply Qle_antisym; [exact Hneg | rewrite <- Hm; exact Hle]. }
        apply Qeq_bool_iff in Hm. rewrite Hm.
        rewrite (Qsign_pos mx Hpos). reflexivity.
      * intros Hm. destruct (Qeq_bool (qmean win) 0) eqn:E; [|reflexivity].
        apply Qeq_bool_iff in E. contradiction.
Qed.

(* ================================================================= *)
(** ** C2: the gust factor *)




(* ================================================================= *)
(** ** C10: a defined gust factor is at least 1 *)




(* ================================================================= *)
(** ** Sorting, counting and the mode *)

Lemma insert_sorted_In {A} (leb : A -> A -> bool) (x y : A) (l : list A) :
  In y (insert_sorted leb x l) <-> y = x \/ In y l.
Proof.
  induction l as [|z l IH]; cbn [insert_sorted].
  - cbn [In]. intuition.
  - destruct (leb x z); cbn [In]; [intuition|].
    rewrite IH. intuition.
Qed.

Lemma isort_In {A} (leb : A -> A -> bool) (y : A) (l : list A) :
  In y (isort leb l) <-> In y l.
Proof.
  induction l as [|x l IH]; cbn [isort fold_right].
  - reflexivity.
  - fold (isort leb l). rewrite insert_sorted_In, IH. cbn [In]. intuition.
Qed.

Lemma insert_sorted_NoDup {A} (leb : A -> A -> bool) (x : A) (l : list A) :
  ~ In x l -> NoDup l -> NoDup (insert_sorted leb x l).
Proof.
  induction l as [|z l IH]; intros Hx Hl; cbn [insert_sorted].
  - constructor; [intros [] | constructor].
  - destruct (leb x z).
    + constructor; assumption.
    + inversion Hl as [|? ? Hz Hl']; subst. constructor.
      * rewrite insert_sorted_In. intros [-> | Hin]; [|contradiction].
        apply Hx. left. reflexivity.
      * apply IH; [|exact Hl']. intros Hin. apply Hx. right. exact Hin.
Qed.

Lemma isort_NoDup {A} (leb : A -> A -> bool) (l : list A) :
  NoDup l -> NoDup (isort leb l).
Proof.
  induction l as [|x l IH]; intros H; cbn [isort fold_right].
  - constructor.
  - fold (isort leb l). inversion H as [|? ? Hx Hl]; subst.
    apply insert_sorted_NoDup; [rewrite isort_In; exact Hx | apply IH, Hl].
Qed.

Lemma insert_sorted_sorted (x : Z) (l : list Z) :
  StronglySorted Z.le l -> StronglySorted Z.le (insert_sorted Z.leb x l).
Proof.
  induction l as [|z l IH]; intros H; cbn [insert_sorted].
  - repeat constructor.
  - inversion H as [|? ? Hl Hz]; subst.
    destruct (Z.leb_spec x z) as [Hle | Hgt].
    + constructor; [exact H|]. constructor; [exact Hle|].
      eapply Forall_impl; [|exact Hz]. intros a Ha. cbv beta in Ha. lia.
    + constructor; [apply IH, Hl|].
      apply Forall_forall. intros a Ha. apply insert_sorted_In in Ha.
      destruct Ha as [-> | Ha]; [lia|].
      rewrite Forall_forall in Hz. apply Hz, Ha.
Qed.

Lemma isort_sorted (l : list Z) : StronglySorted Z.le (isort Z.leb l).
Proof.
  induction l as [|x l IH]; cbn [isort fold_right].
  - constructor.
  - apply insert_sorted_sorted, IH.
Qed.

(** The first element kept by a filter on a sorted list is the least
    element of the list that passes the filter. *)
Lemma filter_sorted_head (p : Z -> bool) (l : list Z) :
  StronglySorted Z.le l ->
  forall m t, filter p l = m :: t ->
              In m l /\ p m = true /\
              forall x, In x l -> p x = true -> (m <= x)%Z.
Proof.
  induction 1 as [|a l Hl IH Ha]; intros m t E; cbn [filter] in E.
  - discriminate E.
  - destruct (p a) eqn:Hp.
    + injection E as <- _. split; [left; reflexivity|]. split; [exact Hp|].
      intros x [<- | Hx] _; [lia|].
      rewrite Forall_forall in Ha. apply Ha, Hx.
    + destruct (IH m t E) as (Hin & Hpm & Hmin).
      split; [right; exact Hin|]. split; [exact Hpm|].
      intros x [<- | Hx] Hpx; [congruence|]. apply Hmin; assumption.
Qed.

Lemma max_list_upper (l : list nat) (n : nat) :
  In n l -> (n <= fold_right Nat.max 0%nat l)%nat.
Proof.
  induction l as [|x l IH]; intros H; cbn [fold_right].
  - destruct H.
  - destruct H as [<- | H]; [lia|]. specialize (IH H). lia.
Qed.

Lemma max_list_attained (l : list nat) :
  l <> [] -> In (fold_right Nat.max 0%nat l) l.
Proof.
  induction l as [|x l IH]; intros H; [congruence|].
  cbn [fold_right]. destruct l as [|y l].
  - left. cbn [fold_right]. lia.
  - destruct (Nat.max_spec x (fold_right Nat.max 0%nat (y :: l))) as [[_ E] | [_ E]];
      rewrite E.
    + right. apply IH. discriminate.
    + left. reflexivity.
Qed.

Lemma count_eq_count_occ (v : Z) (col : list Z) :
  count_eq v col = count_occ Z.eq_dec col v.
Proof.
  unfold count_eq. induction col as [|x col IH]; cbn [filter count_occ length].
  - reflexivity.
  - destruct (Z.eqb_spec v x) as [-> | Hne].
    + destruct (Z.eq_dec x x); [|congruence]. cbn [length]. rewrite IH. reflexivity.
    + destruct (Z.eq_dec x v); [congruence|]. exact IH.
Qed.

(** The head of [mode]: a most frequent value, the least of them. *)
Lemma mode_head (col : list Z) :
  col <> [] ->
  exists m t,
    mode col = m :: t /\ In m col /\
    (forall k, (count_occ Z.eq_dec col k <= count_occ Z.eq_dec col m)%nat) /\
    (forall k, count_occ Z.eq_dec col k = count_occ Z.eq_dec col m -> (m <= k)%Z).
Proof.
  intros Hne. unfold mode.
  set (keys := isort Z.leb (nodup Z.eq_dec col)).
  set (top := fold_right Nat.max 0%nat (map (fun k => count_eq k col) keys)).
  assert (Hkeys : forall k, In k keys <-> In k col).
  { intros k. unfold keys. rewrite isort_In, nodup_In. reflexivity. }
  assert (Hkne : keys <> []).
  { destruct col as [|x col]; [congruence|].
    intros E. assert (Hx : In x keys) by (apply Hkeys; left; reflexivity).
    rewrite E in Hx. destruct Hx. }
  assert (Htop : exists k, In k keys /\ count_eq k col = top).
  { assert (Hin : In top (map (fun k => count_eq k col) keys)).
    { apply max_list_attained. destruct keys; [congruence | discriminate]. }
    apply in_map_iff in Hin. destruct Hin as (k & E & Hk). exists k. auto. }
  assert (Hle : forall k, (count_eq k col <= top)%nat).
  { intros k. destruct (in_dec Z.eq_dec k col) as [Hin | Hnin].
    - apply max_list_upper. apply in_map_iff. exists k. split; [reflexivity|].
      apply Hkeys, Hin.
    - rewrite count_eq_count_occ.
      rewrite (proj1 (count_occ_not_In Z.eq_dec col k) Hnin). lia. }
  destruct Htop as (k0 & Hk0 & Ek0).
  destruct (filter (fun k => (count_eq k col =? top)%nat) keys) as [|m t] eqn:E.
  - exfalso.
    assert (Hin : In k0 (filter (fun k => (count_eq k col =? top)%nat) keys)).
    { apply filter_In. split; [exact Hk0 | apply Nat.eqb_eq, Ek0]. }
    rewrite E in Hin. destruct Hin.
  - destruct (filter_sorted_head _ keys (isort_sorted _) m t E) as (Hm & Hpm & Hmin).
    apply Nat.eqb_eq in Hpm.
    exists m, t. split; [reflexivity|]. split; [apply Hkeys, Hm|].
    split.
    + intros k. rewrite <- !count_eq_count_occ. rewrite Hpm. apply Hle.
    + intros k. rewrite <- !count_eq_count_occ. intros Ek.
      apply Hmin.
      * apply Hkeys. apply (count_occ_In Z.eq_dec).
        rewrite <- count_eq_count_occ, Ek, Hpm, <- Ek0.
        rewrite count_eq_count_occ. apply (count_occ_In Z.eq_dec).
        apply Hkeys, Hk0.
      * apply Nat.eqb_eq. rewrite Ek. exact Hpm.
Qed.

(* ================================================================= *)
(** ** C3: the prevailing direction *)

(** [round_half_even] is rounding to the nearest integer, a tie going to
    the even neighbour. *)
Lemma round_half_even_spec (q : Q) :
  inject_Z (round_half_even q) - (1 # 2) <= q /\
  q <= inject_Z (round_half_even q) + (1 # 2) /\
  ((q == inject_Z (round_half_even q) - (1 # 2) \/
    q == inject_Z (round_half_even q) + (1 # 2)) ->
   Z.even (round_half_even q) = true).
Proof.
  unfold round_half_even.
  pose proof (Qfloor_le q) as Hlo. pose proof (Qlt_floor q) as Hhi.
  rewrite inject_Z_plus in Hhi. change (inject_Z 1) with 1 in Hhi.
  destruct (q - inject_Z (Qfloor q) ?= 1 # 2) eqn:E.
  - apply Qeq_alt in E. destruct (Z.even (Qfloor q)) eqn:Ev.
    + split; [lra|]. split; [lra|]. intros _. exact Ev.
    + rewrite inject_Z_plus. change (inject_Z 1) with 1.
      split; [lra|]. split; [lra|]. intros _.
      rewrite Z.even_add, Ev. reflexivity.
  - apply Qlt_alt in E. split; [lra|]. split; [lra|].
    intros [H | H]; lra.
  - apply Qgt_alt in E. rewrite inject_Z_plus. change (inject_Z 1) with 1.
    split; [lra|]. split; [lra|]. intros [H | H]; lra.
Qed.

Lemma qnat_le (a b : nat) : (a <= b)%nat -> qnat a <= qnat b.
Proof. intros H. unfold qnat. rewrite <- Zle_Qle. lia. Qed.

Lemma qnat_pos (a : nat) : (1 <= a)%nat -> 0 < qnat a.
Proof.
  intros H. unfold qnat. change 0 with (inject_Z 0). rewrite <- Zlt_Qlt. lia.
Qed.

Lemma percentage_bounds (c n : nat) :
  (1 <= c)%nat -> (c <= n)%nat ->
  0 < qnat c / qnat n * 100 /\ qnat c / qnat n * 100 <= 100.
Proof.
  intros H1 H2.
  assert (Hc : 0 < qnat c) by (apply qnat_pos; lia).
  assert (Hn : 0 < qnat n) by (apply qnat_pos; lia).
  assert (Hcn : qnat c <= qnat n) by (apply qnat_le; lia).
  assert (Hlo : 0 < qnat c / qnat n).
  { apply Qlt_shift_div_l; [exact Hn | lra]. }
  assert (Hhi : qnat c / qnat n <= 1).
  { apply Qle_shift_div_r; [exact Hn | lra]. }
  generalize dependent (qnat c / qnat n). intros x Hlo Hhi. split; lra.
Qed.

Lemma percentage_all (n : nat) : (1 <= n)%nat -> qnat n / qnat n * 100 == 100.
Proof.
  intros H. pose proof (qnat_pos n H) as Hn. field. lra.
Qed.

Lemma count_occ_all (col : list Z) (m : Z) :
  (forall x, In x col -> x = m) -> count_occ Z.eq_dec col m = length col.
Proof.
  induction col as [|x col IH]; intros H; cbn [count_occ length].
  - reflexivity.
  - destruct (Z.eq_dec x m) as [_ | Hne].
    + rewrite IH; [reflexivity|]. intros y Hy. apply H. right. exact Hy.
    + exfalso. apply Hne, H. left. reflexivity.
Qed.

Lemma prevailing_bin_range (d : Q) : (0 <= prevailing_bin_of d < 16)%Z.
Proof. unfold prevailing_bin_of. apply Z.mod_pos_bound. lia. Qed.

(** At most one integer is the rounding of a given number. *)
Lemma rounds_to_unique (q : Q) (r r' : Z) :
  rounds_to q r -> rounds_to q r' -> r = r'.
Proof.
  intros (L1 & U1 & T1) (L2 & U2 & T2).
  assert (H1 : inject_Z r <= inject_Z (r' + 1)).
  { rewrite inject_Z_plus. change (inject_Z 1) with 1. lra. }
  assert (H2 : inject_Z r' <= inject_Z (r + 1)).
  { rewrite inject_Z_plus. change (inject_Z 1) with 1. lra. }
  rewrite <- Zle_Qle in H1, H2.
  destruct (Z.eq_dec r r') as [E | N]; [exact E | exfalso].
  destruct (Z.eq_dec r (r' + 1)) as [E1 | N1].
  - assert (Hq : q == inject_Z r - (1 # 2)).
    { rewrite E1, inject_Z_plus in L1 |- *. change (inject_Z 1) with 1 in *.
      lra. }
    assert (Hq' : q == inject_Z r' + (1 # 2)).
    { rewrite Hq, E1, inject_Z_plus. change (inject_Z 1) with 1. lra. }
    pose proof (T1 (or_introl Hq)) as Ev1.
    pose proof (T2 (or_intror Hq')) as Ev2.
    rewrite E1, Z.even_add, Ev2 in Ev1. discriminate Ev1.
  - assert (E2 : r' = (r + 1)%Z) by lia.
    assert (Hq : q == inject_Z r + (1 # 2)).
    { rewrite E2, inject_Z_plus in L2. change (inject_Z 1) with 1 in L2.
      lra. }
    assert (Hq' : q == inject_Z r' - (1 # 2)).
    { rewrite Hq, E2, inject_Z_plus. change (inject_Z 1) with 1. lra. }
    pose proof (T1 (or_intror Hq)) as Ev1.
    pose proof (T2 (or_introl Hq')) as Ev2.
    rewrite E2, Z.even_add, Ev1 in Ev2. discriminate Ev2.
Qed.

(** The bin that the program writes for a direction is the rounding of
    [direction / 22.5], reduced modulo 16. *)
Lemma prevailing_bins_rounded (dirs : list Q) :
  Forall2 (fun d k => exists r : Z,
               rounds_to (d / (45 # 2)) r /\ k = (r mod 16)%Z)
          dirs (map prevailing_bin_of dirs).
Proof.
  induction dirs as [|d dirs IH]; cbn [map]; constructor; [|exact IH].
  exists (round_half_even (d / (45 # 2))). split; [|reflexivity].
  apply round_half_even_spec.
Qed.

(** C3.  On a data set with at least one sample, [get_prevailing_direction]
    gives every sample a bin: with [r] the integer nearest to
    [direction / 22.5], the even one when [direction / 22.5] lies halfway
    between two integers, the bin is [r mod 16] (so 11.25 goes to bin 0 and
    33.75 to bin 2; truncation would give 0 and 1).  It then takes the bin
    [b] with the highest count, the lowest such bin when several tie, and
    returns [(b * 22.5, count(b) / total * 100)].  The direction returned
    lies in [[0, 360)], the percentage in [(0, 100]], and the percentage is
    100 when all directions are the same. *)
Theorem prevailing_direction_spec (df : DataFrame) :
  df_empty df = false ->
  length (wind_direction df) = df_len df ->
  exists (b : Z) (pct : Q) (bins : list Z),
    result get_prevailing_direction (Some df)
    = inr (inject_Z b * (45 # 2), pct) /\
    state_after get_prevailing_direction (Some df)
    = Some (set_direction_bin df bins) /\
    Forall2 (fun d k => exists r : Z,
                 rounds_to (d / (45 # 2)) r /\ k = (r mod 16)%Z)
            (wind_direction df) bins /\
    (forall k, (count_occ Z.eq_dec bins k <= count_occ Z.eq_dec bins b)%nat) /\
    (forall k, count_occ Z.eq_dec bins k = count_occ Z.eq_dec bins b ->
               (b <= k)%Z) /\
    pct = inject_Z (Z.of_nat (count_occ Z.eq_dec bins b))
          / inject_Z (Z.of_nat (length (wind_speed df))) * 100 /\
    0 <= inject_Z b * (45 # 2) /\ inject_Z b * (45 # 2) < 360 /\
    0 < pct /\ pct <= 100 /\
    ((exists d0, forall d, In d (wind_direction df) -> d = d0) -> pct == 100).
Proof.
  intros H Hlen.
  assert (Hcol : map prevailing_bin_of (wind_direction df) <> []).
  { pose proof (df_nonempty_speeds df H) as Hs. unfold df_len in Hlen.
    destruct (wind_direction df); [|discriminate].
    destruct (wind_speed df); [congruence | discriminate Hlen]. }
  destruct (mode_head _ Hcol) as (b & t & Emode & Hin & Hmax & Hleast).
  exists b, (qnat (count_occ Z.eq_dec (map prevailing_bin_of (wind_direction df)) b)
             / qnat (df_len df) * 100),
         (map prevailing_bin_of (wind_direction df)).
  pose proof (prevailing_bins_rounded (wind_direction df)) as Hround.
  set (col := map prevailing_bin_of (wind_direction df)) in *.
  unfold result, state_after. rewrite get_prevailing_direction_run by exact H.
  cbv zeta. fold col. rewrite Emode. cbn [fst snd].
  rewrite count_eq_count_occ.
  assert (Hb : (0 <= b < 16)%Z).
  { apply in_map_iff in Hin. destruct Hin as (d & <- & _).
    apply prevailing_bin_range. }
  assert (Hc1 : (1 <= count_occ Z.eq_dec col b)%nat).
  { apply (count_occ_In Z.eq_dec) in Hin. lia. }
  assert (Hc2 : (count_occ Z.eq_dec col b <= df_len df)%nat).
  { rewrite <- Hlen. unfold col at 1.
    pose proof (count_occ_bound Z.eq_dec b col) as Hbd.
    unfold col in Hbd at 2. rewrite length_map in Hbd. exact Hbd. }
  destruct (percentage_bounds _ _ Hc1 Hc2) as [Hp1 Hp2].
  assert (Hb0 : 0 <= inject_Z b).
  { change 0 with (inject_Z 0). rewrite <- Zle_Qle. lia. }
  assert (Hb15 : inject_Z b <= 15).
  { change 15 with (inject_Z 15). rewrite <- Zle_Qle. lia. }
  split; [reflexivity|]. split; [reflexivity|]. split; [exact Hround|].
  split; [exact Hmax|]. split; [exact Hleast|]. split; [reflexivity|].
  split; [lra|]. split; [lra|]. split; [exact Hp1|]. split; [exact Hp2|].
  intros [d0 Hsame].
  assert (Hall : forall x, In x col -> x = b).
  { assert (Hx0 : forall x, In x col -> x = prevailing_bin_of d0).
    { intros x Hx. apply in_map_iff in Hx. destruct Hx as (d & <- & Hd).
      rewrite (Hsame d Hd). reflexivity. }
    intros x Hx. rewrite (Hx0 x Hx), (Hx0 b Hin). reflexivity. }
  rewrite (count_occ_all col b Hall).
  unfold col. rewrite length_map, Hlen.
  apply percentage_all. lia.
Qed.

Ltac rounds_bound :=
  let E := fresh in unfold Qle; vm_compute; intros E; discriminate E.

(** On [veering_samples] the two directions that lie halfway go to the even
    bins 0 and 2, and 20 and 350 go up to the bins 1 and 16 mod 16 = 0: bin
    0 prevails with 2 samples of 4. *)
Lemma prevailing_direction_spec_witness :
  exists (b : Z) (pct : Q) (bins : list Z),
    result get_prevailing_direction (Some veering_samples)
    = inr (inject_Z b * (45 # 2), pct) /\
    state_after get_prevailing_direction (Some veering_samples)
    = Some (set_direction_bin veering_samples bins) /\
    bins = [0; 2; 1; 0]%Z /\
    b = 0%Z /\
    pct == 50.
Proof.
  destruct (prevailing_direction_spec veering_samples eq_refl eq_refl)
    as (b & pct & bins & H1 & H2 & H3 & H4 & H5 & H6 & _).
  assert (Hbins : bins = [0; 2; 1; 0]%Z).
  { cbn [veering_samples frame_of wind_direction] in H3.
    inversion H3 as [|d0 k0 l0 m0 (r0 & R0 & K0) T0]; subst.
    inversion T0 as [|d1 k1 l1 m1 (r1 & R1 & K1) T1]; subst.
    inversion T1 as [|d2 k2 l2 m2 (r2 & R2 & K2) T2]; subst.
    inversion T2 as [|d3 k3 l3 m3 (r3 & R3 & K3) T3]; subst.
    inversion T3; subst.
    assert (E0 : r0 = 0%Z).
    { apply (rounds_to_unique _ _ _ R0). unfold rounds_to.
      split; [|split]; [rounds_bound | rounds_bound |].
      intros _. reflexivity. }
    assert (E1 : r1 = 2%Z).
    { apply (rounds_to_unique _ _ _ R1). unfold rounds_to.
      split; [|split]; [rounds_bound | rounds_bound |].
      intros _. reflexivity. }
    assert (E2 : r2 = 1%Z).
    { apply (rounds_to_unique _ _ _ R2). unfold rounds_to.
      split; [|split]; [rounds_bound | rounds_bound |].
      intros [E | E]; vm_compute in E; discriminate E. }
    assert (E3 : r3 = 16%Z).
    { apply (rounds_to_unique _ _ _ R3). unfold rounds_to.
      split; [|split]; [rounds_bound | rounds_bound |].
      intros _. reflexivity. }
    subst. reflexivity. }
  exists b, pct, bins.
  split; [exact H1|]. split; [exact H2|]. split; [exact Hbins|].
  subst bins.
  assert (Hb : b = 0%Z).
  { assert (E : result get_prevailing_direction (Some veering_samples)
                = inr (0 # 2, 200 # 4)) by (vm_compute; reflexivity).
    rewrite E in H1. injection H1. intros. lia. }
  split; [exact Hb|].
  rewrite H6, Hb. reflexivity.
Defined.

(* ================================================================= *)
(** ** C4: the wind rose *)


Lemma select_vals_of_key (k : Z) (keys : list Z) :
  forall vals,
    select (map (Z.eqb k) keys) vals = vals_of_key Z.eqb k keys vals.
Proof.
  unfold vals_of_key.
  induction keys as [|x keys IH]; intros [|v vals];
    cbn [map select combine filter fst]; try reflexivity.
  destruct (k =? x)%Z; cbn [map snd]; rewrite IH; reflexivity.
Qed.

Lemma select_length_count (k : Z) (keys : list Z) :
  forall vals : list Q,
    length vals = length keys ->
    length (select (map (Z.eqb k) keys) vals) = count_occ Z.eq_dec keys k.
Proof.
  induction keys as [|x keys IH]; intros [|v vals] H;
    cbn [map select count_occ length] in *; try reflexivity; try discriminate.
  destruct (Z.eqb_spec k x) as [-> | Hne].
  - destruct (Z.eq_dec x x); [|congruence]. cbn [length]. rewrite IH by lia.
    reflexivity.
  - destruct (Z.eq_dec x k); [congruence|]. apply IH. lia.
Qed.

Lemma range_length (n : Z) : length (range n) = Z.to_nat n.
Proof. unfold range. rewrite length_map, length_seq. reflexivity. Qed.


Lemma list_sum_cons (x : nat) (l : list nat) :
  list_sum (x :: l) = (x + list_sum l)%nat.
Proof. reflexivity. Qed.

(** Over a run of consecutive integers, exactly one of them equals a value
    that lies in the run. *)
Lemma indicator_sum (x : Z) (n a : nat) :
  list_sum (map (fun i => if Z.eq_dec x i then 1%nat else 0%nat)
                (map Z.of_nat (seq a n)))
  = if ((Z.of_nat a <=? x) && (x <? Z.of_nat (a + n)))%Z then 1%nat else 0%nat.
Proof.
  revert a. induction n as [|n IH]; intros a.
  - cbn [seq map list_sum]. rewrite Nat.add_0_r.
    destruct (Z.leb_spec (Z.of_nat a) x), (Z.ltb_spec x (Z.of_nat a));
      cbn [andb]; try reflexivity; lia.
  - cbn [seq]. rewrite !map_cons, list_sum_cons, IH.
    destruct (Z.eq_dec x (Z.of_nat a)) as [-> | Hne].
    + destruct (Z.leb_spec (Z.of_nat (S a)) (Z.of_nat a)); [lia|].
      destruct (Z.leb_spec (Z.of_nat a) (Z.of_nat a)); [|lia].
      destruct (Z.ltb_spec (Z.of_nat a) (Z.of_nat (a + S n))); [|lia].
      reflexivity.
    + destruct (Z.leb_spec (Z.of_nat (S a)) x),
               (Z.leb_spec (Z.of_nat a) x),
               (Z.ltb_spec x (Z.of_nat (S a + n))),
               (Z.ltb_spec x (Z.of_nat (a + S n)));
        cbn [andb]; try reflexivity; lia.
Qed.

Lemma list_sum_map_add {A} (f g : A -> nat) (l : list A) :
  list_sum (map (fun i => (f i + g i)%nat) l)
  = (list_sum (map f l) + list_sum (map g l))%nat.
Proof.
  induction l as [|x l IH]; cbn [map]; [reflexivity|].
  rewrite !list_sum_cons, IH. lia.
Qed.

(** When every key lies in [0, n), the counts of the keys [0 .. n-1] add up
    to the number of rows. *)
Lemma counts_sum (n : Z) (col : list Z) :
  (forall x, In x col -> (0 <= x < n)%Z) ->
  list_sum (map (count_occ Z.eq_dec col) (range n)) = length col.
Proof.
  induction col as [|x col IH]; intros H.
  - cbn [count_occ length]. induction (range n) as [|i l IHl];
      cbn [map]; [reflexivity | rewrite list_sum_cons; exact IHl].
  - rewrite (map_ext (count_occ Z.eq_dec (x :: col))
                     (fun i => ((if Z.eq_dec x i then 1 else 0)
                                + count_occ Z.eq_dec col i)%nat)).
    + rewrite list_sum_map_add, IH by (intros y Hy; apply H; right; exact Hy).
      unfold range. rewrite indicator_sum.
      assert (Hx : (0 <= x < n)%Z) by (apply H; left; reflexivity).
      destruct (Z.leb_spec (Z.of_nat 0) x); [|lia].
      destruct (Z.ltb_spec x (Z.of_nat (0 + Z.to_nat n))); [|lia].
      reflexivity.
    + intros i. cbn [count_occ]. destruct (Z.eq_dec x i); reflexivity.
Qed.

Lemma qnat_add (a b : nat) : qnat (a + b) == qnat a + qnat b.
Proof. unfold qnat. rewrite Nat2Z.inj_add, inject_Z_plus. reflexivity. Qed.

Lemma frequencies_sum (c : Z -> nat) (n : Q) (l : list Z) :
  ~ n == 0 ->
  qsum (map (fun i => qnat (c i) / n * 100) l)
  == qnat (list_sum (map c l)) / n * 100.
Proof.
  intros Hn. induction l as [|i l IH]; cbn [map].
  - change (0 == 0 / n * 100). field. exact Hn.
  - rewrite list_sum_cons, qnat_add.
    change (qnat (c i) / n * 100
            + qsum (map (fun i0 => qnat (c i0) / n * 100) l)
            == (qnat (c i) + qnat (list_sum (map c l))) / n * 100).
    rewrite IH. field. exact Hn.
Qed.





(* ================================================================= *)
(** ** C7: the daily pattern *)

Lemma groupby_agg_keys (keys : list Z) (vals : list Q) :
  map fst (groupby_agg keys vals) = isort Z.leb (nodup Z.eq_dec keys).
Proof.
  unfold groupby_agg. rewrite map_map. cbn [fst]. apply map_id.
Qed.

Lemma groupby_agg_entry (keys : list Z) (vals : list Q) (k : Z) (st : HourStats) :
  In (k, st) (groupby_agg keys vals) ->
  In k keys /\ st = agg_stats (vals_of_key Z.eqb k keys vals).
Proof.
  unfold groupby_agg. intros H. apply in_map_iff in H.
  destruct H as (k' & E & Hk). injection E as -> <-.
  rewrite isort_In, nodup_In in Hk. split; [exact Hk|].
  rewrite select_vals_of_key. reflexivity.
Qed.

(** C7.  On a data set with at least one sample, [analyze_daily_pattern]
    fails with [MissingTimestampError] when the data set has no timestamps.
    Otherwise it groups the samples by the hour of their timestamp and
    returns, for each hour, the mean, standard deviation, minimum and maximum
    of the speeds of that hour; an hour is in the result exactly when some
    sample has it, so that an hour without sample is absent from the result,
    and every hour of the result has at least one sample.  The mean is the
    sum of the speeds of the hour over their number [n]; the standard
    deviation is missing (NaN) when the hour has one sample, and otherwise
    the square root of the sum of the squared deviations from that mean over
    [n - 1]; the minimum and the maximum are speeds of the hour that bound
    the others. *)
Theorem daily_pattern_spec (df : DataFrame) :
  df_empty df = false ->
  (timestamp df = None ->
   result analyze_daily_pattern (Some df) = inl MissingTimestampError) /\
  (forall ts : list Timestamp,
      timestamp df = Some ts -> length ts = df_len df ->
      exists pat : list (Z * HourStats),
        result analyze_daily_pattern (Some df) = inr pat /\
        (forall h, In h (map fst pat) <-> exists t, In t ts /\ ts_hour t = h) /\
        NoDup (map fst pat) /\
        StronglySorted Z.le (map fst pat) /\
        forall h st,
          In (h, st) pat ->
          let grp := vals_of_key Z.eqb h (map ts_hour ts) (wind_speed df) in
          let n := inject_Z (Z.of_nat (length grp)) in
          let m := fold_right Qplus 0 grp / n in
          grp <> [] /\
          h_mean st = Fin m /\
          (length grp = 1%nat -> h_std st = NaN) /\
          ((2 <= length grp)%nat ->
           exists v : Q,
             v = fold_right Qplus 0 (map (fun x => (x - m) * (x - m)) grp)
                 / (n - 1) /\
             0 <= v /\
             h_std st = Fin (sqrt (Q2R v))) /\
          (exists mn, h_min st = Fin mn /\ In mn grp /\
                      forall y, In y grp -> mn <= y) /\
          (exists mx, h_max st = Fin mx /\ In mx grp /\
                      forall y, In y grp -> y <= mx)).
Proof.
  intros H. unfold result. rewrite analyze_daily_pattern_run by exact H.
  split.
  - intros E. rewrite E. reflexivity.
  - intros ts E Hlen. rewrite E. cbn [fst].
    exists (groupby_agg (map ts_hour ts) (wind_speed df)).
    split; [reflexivity|]. rewrite groupby_agg_keys.
    split; [|split; [|split]].
    + intros h. rewrite isort_In, nodup_In, in_map_iff.
      split; intros (t & H1 & H2); exists t; auto.
    + apply isort_NoDup, NoDup_nodup.
    + apply isort_sorted.
    + intros h st Hin. cbv zeta.
      destruct (groupby_agg_entry _ _ _ _ Hin) as [Hh ->].
      set (grp := vals_of_key Z.eqb h (map ts_hour ts) (wind_speed df)).
      assert (Hne : grp <> []).
      { unfold grp. rewrite <- select_vals_of_key. intros E0.
        apply (f_equal (@length Q)) in E0.
        rewrite select_length_count in E0
          by (rewrite length_map, Hlen; reflexivity).
        apply (count_occ_In Z.eq_dec) in Hh. cbn [length] in E0. lia. }
      cbn [agg_stats h_mean h_std h_min h_max].
      split; [exact Hne|].
      split; [destruct grp; [congruence | reflexivity]|].
      split; [|split].
      * intros E1. destruct grp as [|x [|y t]]; try discriminate E1.
        reflexivity.
      * intros H2. destruct (series_var_spec _ H2) as [Ev Hv].
        exists (sq_dev (qmean grp) grp / (qlen grp - 1)).
        split; [reflexivity|]. split; [exact Hv|].
        unfold series_std. rewrite Ev. reflexivity.
      * split; [apply series_min_spec, Hne | apply series_max_spec, Hne].
Qed.

(** On [ten_samples], which has no timestamps, the query fails.  On
    [timed_samples] hour 0 holds the speeds 3 and 5, with variance
    [((3-4)^2 + (5-4)^2) / 1 = 2], and hour 1 holds the single speed 4. *)
Lemma daily_pattern_spec_witness :
  result analyze_daily_pattern (Some ten_samples) = inl MissingTimestampError /\
  exists pat : list (Z * HourStats),
    result analyze_daily_pattern (Some timed_samples) = inr pat /\
    map fst pat = [0; 1]%Z /\
    (forall st, In (0%Z, st) pat ->
                exists v : Q, v == 2 /\ h_std st = Fin (sqrt (Q2R v))) /\
    (forall st, In (1%Z, st) pat -> h_std st = NaN).
Proof.
  split.
  - apply (proj1 (daily_pattern_spec ten_samples eq_refl)). reflexivity.
  - destruct (proj2 (daily_pattern_spec timed_samples eq_refl)
                    [at_hour 0; at_hour 1; at_hour 0] eq_refl eq_refl)
      as (pat & H1 & _ & _ & _ & H5).
    exists pat. split; [exact H1|]. split; [|split].
    + unfold result in H1. rewrite analyze_daily_pattern_run in H1 by reflexivity.
      injection H1 as <-. apply groupby_agg_keys.
    + intros st Hin. destruct (H5 _ _ Hin) as (_ & _ & _ & Hstd & _).
      assert (H2 : (2 <= 2)%nat) by lia.
      destruct (Hstd H2) as (v & Ev & _ & Es).
      exists v. split; [rewrite Ev; reflexivity | exact Es].
    + intros st Hin. destruct (H5 _ _ Hin) as (_ & _ & Hstd & _).
      apply Hstd. reflexivity.
Defined.

(* ================================================================= *)
(** ** C9: repeating a query *)

Lemma no_data_strip (s : Analyzer) : no_data (strip s) = no_data s.
Proof. destruct s as [df|]; reflexivity. Qed.

(** What a query returns does not depend on the helper columns, except that
    a returned frame carries them. *)
Lemma run_query_strip (q : query) (s : Analyzer) :
  answer_core (result (run_query q) s)
  = answer_core (result (run_query q) (strip s)).
Proof.
  destruct (no_data s) eqn:Hs.
  - unfold result. rewrite (query_guard q s Hs).
    rewrite (query_guard q (strip s)) by (rewrite no_data_strip; exact Hs).
    reflexivity.
  - destruct s as [df|]; [|discriminate Hs]. cbn [no_data] in Hs.
    assert (Hs' : df_empty (strip_df df) = false) by exact Hs.
    cbn [strip option_map].
    destruct q; unfold run_query; rewrite !result_fmap; unfold result.
    + rewrite !get_basic_statistics_run by assumption. reflexivity.
    + destruct (Z.eq_dec bins 0) as [-> | Hb].
      * unfold get_wind_rose_data. rewrite !bind_require_ok by assumption.
        reflexivity.
      * rewrite !get_wind_rose_data_run by assumption. reflexivity.
    + rewrite !detect_calm_periods_run by assumption. reflexivity.
    + rewrite !detect_strong_wind_events_run by assumption. reflexivity.
    + destruct (Z.ltb_spec window 0) as [Hw | Hw].
      * unfold calculate_gust_factor. rewrite !bind_require_ok by assumption.
        apply Z.ltb_lt in Hw. rewrite Hw. reflexivity.
      * rewrite !calculate_gust_factor_run by assumption. reflexivity.
    + rewrite !get_prevailing_direction_run by assumption. reflexivity.
    + rewrite !analyze_daily_pattern_run by assumption. cbn [strip_df timestamp].
      destruct (timestamp df); reflexivity.
    + rewrite !calculate_power_density_run by assumption. reflexivity.
    + rewrite !get_summary_report_run by assumption. reflexivity.
Qed.

(** A query leaves the input columns of the table as they are. *)
Lemma run_query_state (q : query) (s : Analyzer) :
  strip (state_after (run_query q) s) = strip s.
Proof.
  destruct (no_data s) eqn:Hs.
  - unfold state_after. rewrite (query_guard q s Hs). reflexivity.
  - destruct s as [df|]; [|discriminate Hs]. cbn [no_data] in Hs.
    destruct q; unfold run_query; rewrite state_after_fmap; unfold state_after.
    + rewrite get_basic_statistics_run by assumption. reflexivity.
    + destruct (Z.eq_dec bins 0) as [-> | Hb].
      * unfold get_wind_rose_data. rewrite bind_require_ok by assumption.
        reflexivity.
      * rewrite get_wind_rose_data_run by assumption. reflexivity.
    + rewrite detect_calm_periods_run by assumption. reflexivity.
    + rewrite detect_strong_wind_events_run by assumption. reflexivity.
    + destruct (Z.ltb_spec window 0) as [Hw | Hw].
      * unfold calculate_gust_factor. rewrite bind_require_ok by assumption.
        apply Z.ltb_lt in Hw. rewrite Hw. reflexivity.
      * rewrite calculate_gust_factor_run by assumption. reflexivity.
    + rewrite get_prevailing_direction_run by assumption. reflexivity.
    + rewrite analyze_daily_pattern_run by assumption.
      destruct (timestamp df); reflexivity.
    + rewrite calculate_power_density_run by assumption. reflexivity.
    + rewrite get_summary_report_run by assumption. reflexivity.
Qed.

Lemma run_all_state (qs : list query) (s : Analyzer) :
  strip (run_all qs s) = strip s.
Proof.
  revert s. induction qs as [|q qs IH]; intros s; cbn [run_all].
  - reflexivity.
  - rewrite IH. apply run_query_state.
Qed.

(** The queries that do not return a frame of samples return no frame. *)
Lemma answer_core_id (q : query) (s : Analyzer) :
  returns_frame q = false ->
  answer_core (result (run_query q) s) = result (run_query q) s.
Proof.
  intros Hq.
  destruct q; try discriminate Hq; unfold run_query; rewrite result_fmap;
    destruct (result _ s); reflexivity.
Qed.

(** A query that returns a frame does not touch the table. *)
Lemma frame_query_state (q : query) (s : Analyzer) :
  returns_frame q = true -> state_after (run_query q) s = s.
Proof.
  intros Hq. destruct (no_data s) eqn:Hs.
  - unfold state_after. rewrite (query_guard q s Hs). reflexivity.
  - destruct s as [df|]; [|discriminate Hs]. cbn [no_data] in Hs.
    destruct q; try discriminate Hq;
      unfold run_query; rewrite state_after_fmap; unfold state_after.
    + rewrite detect_calm_periods_run by assumption. reflexivity.
    + rewrite detect_strong_wind_events_run by assumption. reflexivity.
Qed.

Lemma run_query_after (q : query) (qs : list query) (s : Analyzer) :
  answer_core (result (run_query q) (run_all qs (state_after (run_query q) s)))
  = answer_core (result (run_query q) s).
Proof.
  rewrite run_query_strip, run_all_state, run_query_state.
  symmetry. apply run_query_strip.
Qed.

(** The statement of C9 fails as written: [get_prevailing_direction] adds
    the column [direction_bin] to the table, and the frame returned by
    [detect_calm_periods] afterwards carries that column, which the frame
    returned before did not. *)
Lemma repeated_query_helper_column :
  ~ (forall (s : Analyzer) (q : query) (qs : list query),
        result (run_query q) (run_all qs (state_after (run_query q) s))
        = result (run_query q) s).
Proof.
  intros H.
  specialize (H (Some ten_samples) (QDetectCalmPeriods 2) [QPrevailingDirection]).
  vm_compute in H. discriminate H.
Qed.

(** C9 (amended).  For every state of the analyzer and every query with
    fixed arguments: calling the query twice in succession returns the same
    result (or raises the same error) both times; when other queries run
    between the two calls, the two results are the same for every query
    other than [detect_calm_periods] and [detect_strong_wind_events], and for
    these two the returned frames have the same timestamp, speed and
    direction columns and can differ only in the helper columns
    [direction_bin] and [hour] written in between. *)
Theorem repeated_query (q : query) (qs : list query) (s : Analyzer) :
  result (run_query q) (state_after (run_query q) s) = result (run_query q) s /\
  answer_core (result (run_query q) (run_all qs (state_after (run_query q) s)))
  = answer_core (result (run_query q) s) /\
  (returns_frame q = false ->
   result (run_query q) (run_all qs (state_after (run_query q) s))
   = result (run_query q) s).
Proof.
  assert (Hfull : forall qs', returns_frame q = false ->
            result (run_query q) (run_all qs' (state_after (run_query q) s))
            = result (run_query q) s).
  { intros qs' Hq.
    rewrite <- (answer_core_id q _ Hq), <- (answer_core_id q s Hq).
    apply run_query_after. }
  split; [|split].
  - destruct (returns_frame q) eqn:Hq.
    + rewrite (frame_query_state q s Hq). reflexivity.
    + exact (Hfull [] eq_refl).
  - apply run_query_after.
  - apply Hfull.
Qed.

Lemma repeated_query_witness :
  result (run_query QPrevailingDirection)
         (run_all [QWindRose 8; QDailyPattern]
                  (state_after (run_query QPrevailingDirection) (Some ten_samples)))
  = result (run_query QPrevailingDirection) (Some ten_samples).
Proof.
  apply (proj2 (proj2 (repeated_query QPrevailingDirection
                         [QWindRose 8; QDailyPattern] (Some ten_samples)))).
  reflexivity.
Defined.

(* ================================================================= *)
(** * Further properties of the analyzer *)

(* ================================================================= *)
(** ** The median of [get_basic_statistics] *)

Lemma insert_sorted_perm {A} (leb : A -> A -> bool) (x : A) (l : list A) :
  Permutation (insert_sorted leb x l) (x :: l).
Proof.
  induction l as [|y l IH]; cbn [insert_sorted].
  - apply Permutation_refl.
  - destruct (leb x y).
    + apply Permutation_refl.
    + eapply Permutation_trans; [apply perm_skip, IH | apply perm_swap].
Qed.

Lemma isort_perm {A} (leb : A -> A -> bool) (l : list A) :
  Permutation (isort leb l) l.
Proof.
  induction l as [|x l IH]; cbn [isort fold_right].
  - apply Permutation_refl.
  - fold (isort leb l).
    eapply Permutation_trans; [apply insert_sorted_perm | apply perm_skip, IH].
Qed.

Lemma count_if_perm (p : Q -> bool) (l l' : list Q) :
  Permutation l l' -> count_if p l = count_if p l'.
Proof.
  unfold count_if. induction 1 as [| x l l' _ IH | x y l | l l' l'' _ IH1 _ IH2];
    cbn [filter].
  - reflexivity.
  - destruct (p x); cbn [length]; rewrite IH; reflexivity.
  - destruct (p x), (p y); reflexivity.
  - rewrite IH1. exact IH2.
Qed.

Lemma Qle_bool_false (x y : Q) : Qle_bool x y = false -> y <= x.
Proof.
  intros H. apply Qlt_le_weak. apply Qnot_le_lt. intros Hle.
  apply Qle_bool_iff in Hle. congruence.
Qed.

Lemma insert_sorted_Qsorted (x : Q) (l : list Q) :
  StronglySorted Qle l -> StronglySorted Qle (insert_sorted Qle_bool x l).
Proof.
  induction l as [|z l IH]; intros H; cbn [insert_sorted].
  - repeat constructor.
  - inversion H as [|? ? Hl Hz]; subst.
    destruct (Qle_bool x z) eqn:E.
    + apply Qle_bool_iff in E. constructor; [exact H|].
      constructor; [exact E|].
      eapply Forall_impl; [|exact Hz]. intros a Ha. cbv beta in Ha.
      eapply Qle_trans; eassumption.
    + apply Qle_bool_false in E. constructor; [apply IH, Hl|].
      apply Forall_forall. intros a Ha. apply insert_sorted_In in Ha.
      destruct Ha as [-> | Ha]; [exact E|].
      rewrite Forall_forall in Hz. apply Hz, Ha.
Qed.

Lemma isort_Qsorted (l : list Q) : StronglySorted Qle (isort Qle_bool l).
Proof.
  induction l as [|x l IH]; cbn [isort fold_right].
  - constructor.
  - apply insert_sorted_Qsorted, IH.
Qed.

Lemma sorted_nth_le (s : list Q) :
  StronglySorted Qle s ->
  forall i j, (i <= j)%nat -> (j < length s)%nat -> nth i s 0 <= nth j s 0.
Proof.
  induction 1 as [|a s Hs IH Ha]; intros i j Hij Hj.
  - cbn [length] in Hj. lia.
  - destruct j as [|j].
    + replace i with 0%nat by lia. apply Qle_refl.
    + destruct i as [|i]; cbn [nth].
      * rewrite Forall_forall in Ha. apply Ha. apply nth_In.
        cbn [length] in Hj. lia.
      * apply IH; [lia | cbn [length] in Hj; lia].
Qed.

(** In a sorted series, the first [k + 1] values are at most the value at
    position [k]. *)
Lemma sorted_count_le (s : list Q) :
  StronglySorted Qle s ->
  forall (k : nat) (m : Q),
    (k < length s)%nat -> nth k s 0 <= m ->
    (k + 1 <= count_if (fun x => Qle_bool x m) s)%nat.
Proof.
  unfold count_if.
  induction 1 as [|a s Hs IH Ha]; intros k m Hk Hm.
  - cbn [length] in Hk. lia.
  - cbn [filter]. destruct k as [|k]; cbn [nth] in Hm.
    + apply Qle_bool_iff in Hm. rewrite Hm. cbn [length]. lia.
    + assert (Ham : a <= m).
      { eapply Qle_trans; [|exact Hm]. rewrite Forall_forall in Ha.
        apply Ha. apply nth_In. cbn [length] in Hk. lia. }
      apply Qle_bool_iff in Ham. rewrite Ham. cbn [length].
      specialize (IH k m). cbn [length] in Hk.
      assert (k + 1 <= length (filter (fun x => Qle_bool x m) s))%nat
        by (apply IH; [lia | exact Hm]).
      lia.
Qed.

Lemma count_all_ge (m : Q) (s : list Q) :
  Forall (Qle m) s -> count_if (fun x => Qle_bool m x) s = length s.
Proof.
  unfold count_if. induction 1 as [|a s Ha _ IH]; cbn [filter length].
  - reflexivity.
  - apply Qle_bool_iff in Ha. rewrite Ha. cbn [length]. rewrite IH. reflexivity.
Qed.

(** In a sorted series, the values from position [k] on are at least the
    value at position [k]. *)
Lemma sorted_count_ge (s : list Q) :
  StronglySorted Qle s ->
  forall (k : nat) (m : Q),
    (k < length s)%nat -> m <= nth k s 0 ->
    (length s - k <= count_if (fun x => Qle_bool m x) s)%nat.
Proof.
  induction 1 as [|a s Hs IH Ha]; intros k m Hk Hm.
  - cbn [length] in Hk. lia.
  - destruct k as [|k]; cbn [nth] in Hm.
    + rewrite count_all_ge; [lia|].
      constructor; [exact Hm|].
      eapply Forall_impl; [|exact Ha]. intros b Hb. cbv beta in Hb.
      eapply Qle_trans; eassumption.
    + cbn [length] in Hk.
      assert (length s - k <= count_if (fun x => Qle_bool m x) s)%nat
        by (apply IH; [lia | exact Hm]).
      unfold count_if in *. cbn [filter length].
      destruct (Qle_bool m a); cbn [length]; lia.
Qed.

Lemma isort_length {A} (leb : A -> A -> bool) (l : list A) :
  length (isort leb l) = length l.
Proof. apply Permutation_length, isort_perm. Qed.

(** The median of a non-empty series, with what locates it in the sorted
    series: it lies between the values at two middle positions [lo <= hi]
    of the sorted series that leave at most half of the values on either
    side. *)
Lemma series_median_spec (l : list Q) :
  l <> [] ->
  exists (md : Q) (lo hi : nat),
    series_median l = Fin md /\
    (hi < length l)%nat /\ (lo <= hi)%nat /\
    (length l <= 2 * (lo + 1))%nat /\ (length l <= 2 * (length l - hi))%nat /\
    nth lo (isort Qle_bool l) 0 <= md /\ md <= nth hi (isort Qle_bool l) 0 /\
    (Nat.odd (length l) = true -> md = nth hi (isort Qle_bool l) 0).
Proof.
  intros Hne. unfold series_median. rewrite isort_length.
  set (s := isort Qle_bool l). set (n := length l).
  assert (Hn : (1 <= n)%nat).
  { unfold n. destruct l; [congruence | cbn [length]; lia]. }
  assert (Hdiv : (n = 2 * (n / 2) + n mod 2)%nat) by (apply Nat.div_mod; lia).
  assert (Hmod : (n mod 2 < 2)%nat) by (apply Nat.mod_upper_bound; lia).
  destruct l as [|x0 l0]; [congruence|]. fold n.
  destruct (Nat.even n) eqn:Ev.
  - assert (H0 : (n mod 2 = 0)%nat).
    { apply Nat.even_spec in Ev. destruct Ev as [k Hk]. rewrite Hk.
      rewrite Nat.mul_comm. apply Nat.Div0.mod_mul. }
    exists ((nth (n / 2 - 1) s 0 + nth (n / 2) s 0) / 2), (n / 2 - 1)%nat, (n / 2)%nat.
    assert (Hs : nth (n / 2 - 1) s 0 <= nth (n / 2) s 0).
    { apply sorted_nth_le; [apply isort_Qsorted | lia |].
      unfold s. rewrite isort_length. fold n. lia. }
    split; [reflexivity|]. split; [lia|]. split; [lia|].
    split; [lia|]. split; [lia|].
    split; [|split].
    + apply Qle_shift_div_l; [reflexivity | lra].
    + apply Qle_shift_div_r; [reflexivity | lra].
    + intros Hodd. rewrite <- Nat.negb_even, Ev in Hodd. discriminate Hodd.
  - assert (H1 : (n mod 2 = 1)%nat).
    { destruct (n mod 2)%nat as [|[|r]] eqn:E; [|reflexivity|lia].
      exfalso. assert (Nat.even n = true); [|congruence].
      apply Nat.even_spec. exists (n / 2)%nat. lia. }
    exists (nth (n / 2) s 0), (n / 2)%nat, (n / 2)%nat.
    split; [reflexivity|]. split; [lia|]. split; [lia|].
    split; [lia|]. split; [lia|].
    split; [apply Qle_refl|]. split; [apply Qle_refl|]. reflexivity.
Qed.

(** X1.  The median returned by [get_basic_statistics] lies between the
    minimum and the maximum it returns; when the number of samples is odd,
    the median is one of the speeds of the data set. *)
Theorem median_between_extremes (df : DataFrame) :
  df_empty df = false ->
  exists (st : BasicStatistics) (mn md mx : Q),
    result get_basic_statistics (Some df) = inr st /\
    min_speed st = Fin mn /\ median_speed st = Fin md /\ max_speed st = Fin mx /\
    mn <= md /\ md <= mx /\
    (Nat.odd (df_len df) = true -> In md (wind_speed df)).
Proof.
  intros H. pose proof (df_nonempty_speeds df H) as Hne.
  destruct (series_min_spec _ Hne) as (mn & Emn & _ & Lmn).
  destruct (series_max_spec _ Hne) as (mx & Emx & _ & Lmx).
  destruct (series_median_spec _ Hne)
    as (md & lo & hi & Emd & Hhi & Hlo & _ & _ & Hlow & Hhigh & Hodd).
  assert (Hin : forall k, (k < length (wind_speed df))%nat ->
                          In (nth k (isort Qle_bool (wind_speed df)) 0)
                             (wind_speed df)).
  { intros k Hk. apply (isort_In Qle_bool). apply nth_In.
    rewrite isort_length. exact Hk. }
  eexists. exists mn, md, mx.
  unfold result. rewrite get_basic_statistics_run by exact H.
  cbn [fst min_speed median_speed max_speed].
  split; [reflexivity|]. split; [exact Emn|]. split; [exact Emd|].
  split; [exact Emx|].
  split; [|split].
  - eapply Qle_trans; [|exact Hlow]. apply Lmn, Hin. lia.
  - eapply Qle_trans; [exact Hhigh|]. apply Lmx, Hin. exact Hhi.
  - intros Ho. rewrite (Hodd Ho). apply Hin, Hhi.
Qed.

Lemma median_between_extremes_witness :
  exists (st : BasicStatistics) (md : Q),
    result get_basic_statistics (Some ten_samples) = inr st /\
    median_speed st = Fin md /\ 1 <= md /\ md <= 10.
Proof.
  destruct (median_between_extremes ten_samples eq_refl)
    as (st & mn & md & mx & H1 & H2 & H3 & H4 & H5 & H6 & _).
  exists st, md. split; [exact H1|]. split; [exact H3|].
  unfold result in H1. rewrite get_basic_statistics_run in H1 by reflexivity.
  injection H1 as <-. cbn [min_speed max_speed] in H2, H4.
  injection H2 as <-. injection H4 as <-. split; assumption.
Defined.

(** X2.  At least half of the speeds of the data set are at most the median
    returned by [get_basic_statistics], and at least half of them are at
    least the median. *)
Theorem median_splits_in_halves (df : DataFrame) :
  df_empty df = false ->
  exists (st : BasicStatistics) (md : Q),
    result get_basic_statistics (Some df) = inr st /\
    median_speed st = Fin md /\
    (df_len df <= 2 * count_if (fun x => Qle_bool x md) (wind_speed df))%nat /\
    (df_len df <= 2 * count_if (fun x => Qle_bool md x) (wind_speed df))%nat.
Proof.
  intros H. pose proof (df_nonempty_speeds df H) as Hne.
  destruct (series_median_spec _ Hne)
    as (md & lo & hi & Emd & Hhi & Hlo & Hhalf1 & Hhalf2 & Hlow & Hhigh & _).
  eexists. exists md.
  unfold result. rewrite get_basic_statistics_run by exact H.
  cbn [fst median_speed]. split; [reflexivity|]. split; [exact Emd|].
  unfold df_len.
  rewrite <- (count_if_perm _ _ _ (isort_perm Qle_bool (wind_speed df))).
  rewrite <- (count_if_perm (fun x => Qle_bool md x) _ _
                            (isort_perm Qle_bool (wind_speed df))).
  pose proof (sorted_count_le _ (isort_Qsorted (wind_speed df)) lo md) as Hle.
  pose proof (sorted_count_ge _ (isort_Qsorted (wind_speed df)) hi md) as Hge.
  rewrite isort_length in Hle, Hge.
  specialize (Hle ltac:(lia) Hlow). specialize (Hge Hhi Hhigh).
  split; lia.
Qed.

Lemma median_splits_in_halves_witness :
  exists (st : BasicStatistics) (md : Q),
    result get_basic_statistics (Some ten_samples) = inr st /\
    median_speed st = Fin md /\
    (10 <= 2 * count_if (fun x => Qle_bool x md) (wind_speed ten_samples))%nat.
Proof.
  destruct (median_splits_in_halves ten_samples eq_refl)
    as (st & md & H1 & H2 & H3 & _).
  exists st, md. split; [exact H1|]. split; [exact H2 | exact H3].
Defined.

(* ================================================================= *)
(** ** The wind rose for any direction and any number of bins *)

Lemma wind_rose_bin_range (bins : Z) (bin_size d : Q) :
  (1 <= bins)%Z -> (0 <= wind_rose_bin_of bins bin_size d < bins)%Z.
Proof. intros H. unfold wind_rose_bin_of. apply Z.mod_pos_bound. lia. Qed.

Lemma rose_frequency_eq (col : list Z) (speeds : list Q) (bin_size : Q) (i : Z) :
  snd (fst (rose_bin col speeds bin_size i))
  = qnat (length (select (map (Z.eqb i) col) speeds))
    / qnat (length speeds) * 100.
Proof. reflexivity. Qed.

Lemma select_length_le {A} (mask : list bool) :
  forall c : list A, (length (select mask c) <= length c)%nat.
Proof.
  induction mask as [|b mask IH]; intros [|x c]; cbn [select length]; try lia.
  destruct b; cbn [length]; specialize (IH c); lia.
Qed.

Lemma rose_frequency_bounds (col : list Z) (speeds : list Q) (bin_size : Q) (i : Z) :
  speeds <> [] ->
  0 <= snd (fst (rose_bin col speeds bin_size i)) /\
  snd (fst (rose_bin col speeds bin_size i)) <= 100.
Proof.
  intros Hne. rewrite rose_frequency_eq.
  set (c := length (select (map (Z.eqb i) col) speeds)).
  assert (Hc : (c <= length speeds)%nat) by apply select_length_le.
  assert (Hn : (1 <= length speeds)%nat)
    by (destruct speeds; [congruence | cbn [length]; lia]).
  destruct (Nat.eq_dec c 0) as [-> | Hc0].
  - change (qnat 0) with 0. split.
    + unfold Qdiv. rewrite !Qmult_0_l. apply Qle_refl.
    + unfold Qdiv. rewrite !Qmult_0_l. discriminate.
  - destruct (percentage_bounds c (length speeds)) as [H1 H2]; [lia | lia |].
    split; [apply Qlt_le_weak, H1 | exact H2].
Qed.

Lemma rose_frequencies_total (bins : Z) (col : list Z) (speeds : list Q) (bs : Q) :
  speeds <> [] -> length speeds = length col ->
  (forall x, In x col -> (0 <= x < bins)%Z) ->
  qsum (map (fun r => snd (fst r)) (map (rose_bin col speeds bs) (range bins)))
  == 100.
Proof.
  intros Hne Hlen Hrange. rewrite map_map.
  rewrite (map_ext _ (fun k => qnat (count_occ Z.eq_dec col k)
                               / qnat (length speeds) * 100)).
  - assert (Hn : (1 <= length speeds)%nat)
      by (destruct speeds; [congruence | cbn [length]; lia]).
    pose proof (qnat_pos _ Hn) as Hq.
    rewrite frequencies_sum by lra.
    rewrite (counts_sum bins col Hrange), <- Hlen.
    apply percentage_all, Hn.
  - intros k. rewrite rose_frequency_eq.
    rewrite (select_length_count k col speeds Hlen). reflexivity.
Qed.

(** X3.  For every number of bins [>= 1] and whatever the directions of the
    samples (negative, or 360 and more), [get_wind_rose_data] puts every
    sample in a bin of [0 .. bins-1], returns three lists of [bins] entries,
    every frequency lies in [[0, 100]] and the frequencies add up to 100. *)
Theorem wind_rose_any_direction (df : DataFrame) (bins : Z) :
  df_empty df = false ->
  length (wind_direction df) = df_len df ->
  (1 <= bins)%Z ->
  exists (rose : WindRose) (col : list Z),
    result (get_wind_rose_data bins) (Some df) = inr rose /\
    state_after (get_wind_rose_data bins) (Some df)
    = Some (set_direction_bin df col) /\
    length col = df_len df /\
    (forall b, In b col -> (0 <= b < bins)%Z) /\
    length (directions rose) = Z.to_nat bins /\
    length (frequencies rose) = Z.to_nat bins /\
    length (avg_speeds rose) = Z.to_nat bins /\
    (forall f, In f (frequencies rose) -> 0 <= f /\ f <= 100) /\
    qsum (frequencies rose) == 100.
Proof.
  intros H Hlen Hb.
  assert (Hb0 : bins <> 0%Z) by lia.
  pose proof (df_nonempty_speeds df H) as Hne.
  exists (match result (get_wind_rose_data bins) (Some df) with
          | inr r => r
          | inl _ => mkWindRose [] [] []
          end),
         (map (wind_rose_bin_of bins (360 / inject_Z bins)) (wind_direction df)).
  unfold result, state_after. rewrite get_wind_rose_data_run by assumption.
  cbv zeta. cbn [fst snd directions frequencies avg_speeds].
  assert (Hrange : forall b,
             In b (map (wind_rose_bin_of bins (360 / inject_Z bins))
                       (wind_direction df)) -> (0 <= b < bins)%Z).
  { intros b Hin. apply in_map_iff in Hin. destruct Hin as (d & <- & _).
    apply wind_rose_bin_range, Hb. }
  split; [reflexivity|]. split; [reflexivity|].
  split; [rewrite length_map; exact Hlen|].
  split; [exact Hrange|].
  rewrite !length_map, range_length.
  split; [reflexivity|]. split; [reflexivity|]. split; [reflexivity|].
  split.
  - intros f Hf. apply in_map_iff in Hf. destruct Hf as (r & <- & Hr).
    apply in_map_iff in Hr. destruct Hr as (i & <- & _).
    apply rose_frequency_bounds, Hne.
  - apply rose_frequencies_total; [exact Hne | | exact Hrange].
    rewrite length_map. symmetry. exact Hlen.
Qed.

Lemma wind_rose_any_direction_witness :
  exists (rose : WindRose),
    result (get_wind_rose_data 8) (Some (frame_of [3; 4; 5] [-10; 370; 725])) = inr rose /\
    length (frequencies rose) = 8%nat /\
    qsum (frequencies rose) == 100.
Proof.
  assert (Hb : (1 <= 8)%Z) by lia.
  destruct (wind_rose_any_direction (frame_of [3; 4; 5] [-10; 370; 725]) 8
              eq_refl eq_refl Hb)
    as (rose & col & H1 & _ & _ & _ & _ & H6 & _ & _ & H9).
  exists rose. split; [exact H1|]. split; [exact H6 | exact H9].
Defined.

(** X4.  On a data set with at least one sample, [get_wind_rose_data 0]
    raises [ZeroDivisionError] and leaves the table as it was; with a
    negative number of bins it raises nothing and returns three empty lists,
    and the table has received a [direction_bin] column. *)
Theorem wind_rose_without_bins (df : DataFrame) (bins : Z) :
  df_empty df = false ->
  (bins <= 0)%Z ->
  (bins = 0%Z ->
   result (get_wind_rose_data bins) (Some df) = inl ZeroDivisionError /\
   state_after (get_wind_rose_data bins) (Some df) = Some df) /\
  ((bins < 0)%Z ->
   result (get_wind_rose_data bins) (Some df) = inr (mkWindRose [] [] []) /\
   exists col, length col = length (wind_direction df) /\
               state_after (get_wind_rose_data bins) (Some df)
               = Some (set_direction_bin df col)).
Proof.
  intros H Hb. split.
  - intros ->. unfold result, state_after, get_wind_rose_data.
    rewrite bind_require_ok by exact H. split; reflexivity.
  - intros Hneg. unfold result, state_after.
    rewrite get_wind_rose_data_run by (assumption || lia). cbv zeta.
    assert (Er : range bins = []).
    { unfold range. replace (Z.to_nat bins) with 0%nat by lia. reflexivity. }
    rewrite Er. cbn [map fst snd]. split; [reflexivity|].
    eexists. split; [|reflexivity]. apply length_map.
Qed.

Lemma wind_rose_without_bins_witness :
  result (get_wind_rose_data 0) (Some ten_samples) = inl ZeroDivisionError /\
  result (get_wind_rose_data (-4)) (Some ten_samples) = inr (mkWindRose [] [] []).
Proof.
  assert (H0 : (0 <= 0)%Z) by lia.
  assert (H4 : (-4 <= 0)%Z) by lia.
  assert (H4' : (-4 < 0)%Z) by lia.
  split.
  - apply (proj1 (wind_rose_without_bins ten_samples 0 eq_refl H0)). reflexivity.
  - apply (proj2 (wind_rose_without_bins ten_samples (-4) eq_refl H4)). exact H4'.
Defined.

(* ================================================================= *)
(** ** The wind rose and the mean speed *)

Lemma qsum_cons (x : Q) (l : list Q) : qsum (x :: l) = x + qsum l.
Proof. reflexivity. Qed.

Lemma qsum_map_ext {A} (f g : A -> Q) (l : list A) :
  (forall i, In i l -> f i == g i) -> qsum (map f l) == qsum (map g l).
Proof.
  induction l as [|i l IH]; intros H; cbn [map].
  - reflexivity.
  - rewrite !qsum_cons. rewrite (H i) by (left; reflexivity).
    rewrite IH; [reflexivity|]. intros j Hj. apply H. right. exact Hj.
Qed.

Lemma qsum_map_add {A} (f g : A -> Q) (l : list A) :
  qsum (map (fun i => f i + g i) l) == qsum (map f l) + qsum (map g l).
Proof.
  induction l as [|i l IH]; cbn [map].
  - reflexivity.
  - rewrite !qsum_cons, IH. ring.
Qed.

Lemma qsum_map_scale {A} (c : Q) (f : A -> Q) (l : list A) :
  qsum (map (fun i => f i * c) l) == qsum (map f l) * c.
Proof.
  induction l as [|i l IH]; cbn [map].
  - change (0 == 0 * c). ring.
  - rewrite !qsum_cons, IH. ring.
Qed.

Lemma qsum_indicator (x : Z) (v : Q) (l : list Z) :
  qsum (map (fun i => if (i =? x)%Z then v else 0) l)
  == qnat (list_sum (map (fun i => if Z.eq_dec x i then 1%nat else 0%nat) l)) * v.
Proof.
  induction l as [|i l IH]; cbn [map].
  - change (0 == 0 * v). ring.
  - rewrite qsum_cons, list_sum_cons, qnat_add, IH.
    destruct (Z.eqb_spec i x) as [-> | Hne].
    + destruct (Z.eq_dec x x); [|congruence]. change (qnat 1) with 1. ring.
    + destruct (Z.eq_dec x i); [congruence|]. change (qnat 0) with 0. ring.
Qed.

Lemma qsum_select_cons (i x : Z) (v : Q) (col : list Z) (speeds : list Q) :
  qsum (select (map (Z.eqb i) (x :: col)) (v :: speeds))
  == (if (i =? x)%Z then v else 0) + qsum (select (map (Z.eqb i) col) speeds).
Proof.
  cbn [map select]. destruct (i =? x)%Z.
  - rewrite qsum_cons. reflexivity.
  - ring.
Qed.

(** The speeds of the bins [0 .. n-1] together are the speeds of the table. *)
Lemma bins_partition_speeds (n : Z) (col : list Z) :
  forall speeds : list Q,
    length speeds = length col ->
    (forall x, In x col -> (0 <= x < n)%Z) ->
    qsum (map (fun i => qsum (select (map (Z.eqb i) col) speeds)) (range n))
    == qsum speeds.
Proof.
  induction col as [|x col IH]; intros [|v speeds] Hlen Hrange;
    try discriminate Hlen.
  - cbn [map select]. induction (range n) as [|i l IHl]; cbn [map].
    + reflexivity.
    + rewrite qsum_cons, IHl. reflexivity.
  - rewrite (qsum_map_ext _ (fun i => (if (i =? x)%Z then v else 0)
                                      + qsum (select (map (Z.eqb i) col) speeds)))
      by (intros i _; apply qsum_select_cons).
    rewrite qsum_map_add, qsum_indicator.
    rewrite IH by (cbn [length] in Hlen; try lia;
                   intros y Hy; apply Hrange; right; exact Hy).
    unfold range. rewrite indicator_sum.
    assert (Hx : (0 <= x < n)%Z) by (apply Hrange; left; reflexivity).
    destruct (Z.leb_spec (Z.of_nat 0) x); [|lia].
    destruct (Z.ltb_spec x (Z.of_nat (0 + Z.to_nat n))); [|lia].
    cbn [andb]. rewrite qsum_cons. change (qnat 1) with 1. ring.
Qed.

Lemma map2_map_map {A B C D} (f : B -> C -> D) (g : A -> B) (h : A -> C)
      (l : list A) :
  map2 f (map g l) (map h l) = map (fun i => f (g i) (h i)) l.
Proof.
  induction l as [|i l IH]; cbn [map map2]; [reflexivity|].
  rewrite IH. reflexivity.
Qed.

(** X5.  In the wind rose of a data set (any directions, [bins >= 1]), every
    average speed is a number, and the average speeds of the bins weighted by
    the frequencies of the bins (as fractions of 100) give the mean speed of
    the whole data set. *)
Theorem wind_rose_weighted_mean (df : DataFrame) (bins : Z) :
  df_empty df = false ->
  length (wind_direction df) = df_len df ->
  (1 <= bins)%Z ->
  exists (rose : WindRose) (avgs : list Q),
    result (get_wind_rose_data bins) (Some df) = inr rose /\
    avg_speeds rose = map Fin avgs /\
    qsum (map2 (fun f a => f / 100 * a) (frequencies rose) avgs)
    == qsum (wind_speed df) / qlen (wind_speed df).
Proof.
  intros H Hlen Hb.
  assert (Hb0 : bins <> 0%Z) by lia.
  pose proof (df_nonempty_speeds df H) as Hne.
  remember (360 / inject_Z bins) as bs eqn:Ebs.
  remember (map (wind_rose_bin_of bins bs) (wind_direction df)) as col eqn:Ec.
  assert (Hcl : length (wind_speed df) = length col).
  { rewrite Ec, length_map. symmetry. exact Hlen. }
  assert (Hrange : forall x, In x col -> (0 <= x < bins)%Z).
  { intros x Hx. rewrite Ec in Hx. apply in_map_iff in Hx.
    destruct Hx as (d & <- & _). apply wind_rose_bin_range, Hb. }
  set (sel := fun i : Z => select (map (Z.eqb i) col) (wind_speed df)).
  exists (match result (get_wind_rose_data bins) (Some df) with
          | inr r => r
          | inl _ => mkWindRose [] [] []
          end),
         (map (fun i => if (0 <? length (sel i))%nat then qmean (sel i) else 0)
              (range bins)).
  unfold result. rewrite get_wind_rose_data_run by assumption.
  cbv zeta. rewrite <- Ebs, <- Ec. cbn [fst avg_speeds frequencies].
  split; [reflexivity|]. split.
  - rewrite !map_map. apply map_ext. intros i. unfold rose_bin, sel. cbn [snd].
    destruct (select (map (Z.eqb i) col) (wind_speed df)); reflexivity.
  - rewrite map_map, map2_map_map.
    assert (Hn : (1 <= length (wind_speed df))%nat)
      by (destruct (wind_speed df); [congruence | cbn [length]; lia]).
    pose proof (qnat_pos _ Hn) as Hq.
    rewrite (qsum_map_ext _ (fun i => qsum (sel i) * / qlen (wind_speed df))).
    + rewrite qsum_map_scale. unfold sel.
      rewrite (bins_partition_speeds bins col (wind_speed df) Hcl Hrange).
      reflexivity.
    + intros i _. rewrite rose_frequency_eq. fold (sel i).
      change (qnat (length (wind_speed df))) with (qlen (wind_speed df)) in *.
      destruct (sel i) as [|y t] eqn:Es.
      * cbn [length Nat.ltb Nat.leb]. change (qnat 0) with 0.
        change (qsum []) with 0. field. lra.
      * change (0 <? length (y :: t))%nat with true. cbv iota.
        unfold qmean. change (qnat (length (y :: t))) with (qlen (y :: t)).
        assert (Hy : 0 < qlen (y :: t)) by (apply qlen_pos; discriminate).
        field. split; lra.
Qed.

Lemma wind_rose_weighted_mean_witness :
  exists (rose : WindRose) (avgs : list Q),
    result (get_wind_rose_data 4) (Some ten_samples) = inr rose /\
    avg_speeds rose = map Fin avgs /\
    qsum (map2 (fun f a => f / 100 * a) (frequencies rose) avgs) == 11 # 2.
Proof.
  assert (Hb : (1 <= 4)%Z) by lia.
  destruct (wind_rose_weighted_mean ten_samples 4 eq_refl eq_refl Hb)
    as (rose & avgs & H1 & H2 & H3).
  exists rose, avgs. split; [exact H1|]. split; [exact H2|].
  rewrite H3. reflexivity.
Defined.

(* ================================================================= *)
(** ** Calm and strong selections: counts, refinement, alignment *)

Lemma select_own_mask (f : Q -> bool) (l : list Q) :
  select (map f l) l = filter f l.
Proof.
  induction l as [|x l IH]; cbn [map select filter]; [reflexivity|].
  destruct (f x); rewrite IH; reflexivity.
Qed.

Lemma df_len_select (f : Q -> bool) (df : DataFrame) :
  df_len (df_select (map f (wind_speed df)) df) = count_if f (wind_speed df).
Proof.
  unfold df_len, df_select, count_if. cbn [wind_speed].
  rewrite select_own_mask. reflexivity.
Qed.

Lemma Qeq_bool_false_lt (x t : Q) :
  Qeq_bool x t = false -> Qltb x t = negb (Qltb t x).
Proof.
  intros E.
  destruct (Qltb x t) eqn:E1, (Qltb t x) eqn:E2; try reflexivity; exfalso.
  - apply Qltb_lt in E1. apply Qltb_lt in E2.
    exact (Qlt_irrefl _ (Qlt_trans _ _ _ E1 E2)).
  - assert (H1 : ~ x < t) by (intros H; apply Qltb_lt in H; congruence).
    assert (H2 : ~ t < x) by (intros H; apply Qltb_lt in H; congruence).
    assert (Heq : x == t).
    { apply Qle_antisym; apply Qnot_lt_le; assumption. }
    apply Qeq_bool_iff in Heq. congruence.
Qed.

Lemma Qeq_bool_true_lt (x t : Q) :
  Qeq_bool x t = true -> Qltb x t = false /\ Qltb t x = false.
Proof.
  intros E. apply Qeq_bool_iff in E. split.
  - destruct (Qltb x t) eqn:E1; [|reflexivity].
    apply Qltb_lt in E1. rewrite E in E1. exfalso. exact (Qlt_irrefl _ E1).
  - destruct (Qltb t x) eqn:E1; [|reflexivity].
    apply Qltb_lt in E1. rewrite E in E1. exfalso. exact (Qlt_irrefl _ E1).
Qed.

Lemma three_way_count (t : Q) (l : list Q) :
  (count_if (fun x => Qltb x t) l + count_if (fun x => Qltb t x) l
   + count_if (fun x => Qeq_bool x t) l = length l)%nat.
Proof.
  unfold count_if. induction l as [|x l IH]; cbn [filter length].
  - reflexivity.
  - destruct (Qeq_bool x t) eqn:E.
    + destruct (Qeq_bool_true_lt x t E) as [-> ->]. cbn [length]. lia.
    + rewrite (Qeq_bool_false_lt x t E).
      destruct (Qltb t x); cbn [negb length]; lia.
Qed.

(** X6.  For every threshold [t], the calm samples, the strong samples and
    the samples whose speed equals [t] account for every sample of the data
    set exactly once: their numbers add up to the number of samples. *)
Theorem calm_strong_equal_partition (df : DataFrame) (t : Q) :
  df_empty df = false ->
  exists c s : DataFrame,
    result (detect_calm_periods t) (Some df) = inr c /\
    result (detect_strong_wind_events t) (Some df) = inr s /\
    (df_len c + df_len s + count_if (fun x => Qeq_bool x t) (wind_speed df)
     = df_len df)%nat.
Proof.
  intros H.
  exists (df_select (map (fun v => Qltb v t) (wind_speed df)) df),
         (df_select (map (fun v => Qltb t v) (wind_speed df)) df).
  unfold result.
  rewrite detect_calm_periods_run, detect_strong_wind_events_run by exact H.
  split; [reflexivity|]. split; [reflexivity|].
  rewrite (df_len_select (fun v => Qltb v t)), (df_len_select (fun v => Qltb t v)).
  apply three_way_count.
Qed.

Lemma calm_strong_equal_partition_witness :
  exists c s : DataFrame,
    result (detect_calm_periods 5) (Some ten_samples) = inr c /\
    result (detect_strong_wind_events 5) (Some ten_samples) = inr s /\
    (df_len c + df_len s + 1 = 10)%nat.
Proof.
  destruct (calm_strong_equal_partition ten_samples 5 eq_refl)
    as (c & s & H1 & H2 & H3).
  exists c, s. split; [exact H1|]. split; [exact H2 | exact H3].
Defined.

(** Selecting by [f1] inside a selection by [f2] is selecting by [f1], when
    whatever passes [f1] passes [f2]. *)
Lemma select_refine {A} (f1 f2 : Q -> bool) (sp : list Q) :
  (forall x, In x sp -> f1 x = true -> f2 x = true) ->
  forall c : list A,
    select (map f1 (select (map f2 sp) sp)) (select (map f2 sp) c)
    = select (map f1 sp) c.
Proof.
  induction sp as [|x sp IH]; intros Himp c.
  - reflexivity.
  - assert (IH' : forall c' : list A,
               select (map f1 (select (map f2 sp) sp)) (select (map f2 sp) c')
               = select (map f1 sp) c').
    { apply IH. intros y Hy. apply Himp. right. exact Hy. }
    destruct c as [|y c].
    + rewrite !select_nil_r. reflexivity.
    + cbn [map select]. destruct (f2 x) eqn:E2.
      * cbn [map select]. destruct (f1 x); rewrite IH'; reflexivity.
      * destruct (f1 x) eqn:E1.
        -- rewrite (Himp x (or_introl eq_refl) E1) in E2. discriminate E2.
        -- apply IH'.
Qed.

Lemma df_select_refine (f1 f2 : Q -> bool) (df : DataFrame) :
  (forall x, In x (wind_speed df) -> f1 x = true -> f2 x = true) ->
  df_select (map f1 (wind_speed (df_select (map f2 (wind_speed df)) df)))
            (df_select (map f2 (wind_speed df)) df)
  = df_select (map f1 (wind_speed df)) df.
Proof.
  intros Himp. unfold df_select.
  cbn [timestamp wind_speed wind_direction direction_bin hour].
  rewrite !(select_refine f1 f2 (wind_speed df) Himp).
  destruct (timestamp df), (direction_bin df), (hour df);
    cbn [option_map];
    rewrite ?(select_refine f1 f2 (wind_speed df) Himp); reflexivity.
Qed.

Lemma count_if_mono (f1 f2 : Q -> bool) (l : list Q) :
  (forall x, In x l -> f1 x = true -> f2 x = true) ->
  (count_if f1 l <= count_if f2 l)%nat.
Proof.
  unfold count_if. induction l as [|x l IH]; intros H; cbn [filter length].
  - lia.
  - assert (IH' : (length (filter f1 l) <= length (filter f2 l))%nat)
      by (apply IH; intros y Hy; apply H; right; exact Hy).
    destruct (f1 x) eqn:E1.
    + rewrite (H x (or_introl eq_refl) E1). cbn [length]. lia.
    + destruct (f2 x); cbn [length]; lia.
Qed.

Lemma filter_none {A} (f : A -> bool) (l : list A) :
  (forall x, In x l -> f x = false) -> filter f l = [].
Proof.
  induction l as [|x l IH]; intros H; cbn [filter]; [reflexivity|].
  rewrite (H x (or_introl eq_refl)). apply IH.
  intros y Hy. apply H. right. exact Hy.
Qed.

(** X7.  An analyzer built on the frame returned by [detect_calm_periods t]
    returns that same frame for [detect_calm_periods t] and a frame without
    rows for [detect_strong_wind_events t], as long as the frame has a row;
    when the frame has no row, every query of that analyzer raises
    [EmptyDatasetError]. *)
Theorem calm_selection_again (df : DataFrame) (t : Q) :
  df_empty df = false ->
  exists c : DataFrame,
    result (detect_calm_periods t) (Some df) = inr c /\
    (df_empty c = false ->
     result (detect_calm_periods t) (Some c) = inr c /\
     exists s, result (detect_strong_wind_events t) (Some c) = inr s /\
               df_len s = 0%nat) /\
    (df_empty c = true ->
     forall q, result (run_query q) (Some c) = inl EmptyDatasetError).
Proof.
  intros H.
  exists (df_select (map (fun v => Qltb v t) (wind_speed df)) df).
  unfold result at 1. rewrite detect_calm_periods_run by exact H.
  split; [reflexivity|]. split.
  - intros Hc. unfold result.
    rewrite detect_calm_periods_run, detect_strong_wind_events_run by exact Hc.
    cbn [fst]. split.
    + f_equal. apply (df_select_refine (fun v => Qltb v t) (fun v => Qltb v t)).
      intros x _ Hx. exact Hx.
    + eexists. split; [reflexivity|].
      rewrite (df_len_select (fun v => Qltb t v)).
      unfold df_select. cbn [wind_speed]. rewrite select_own_mask.
      unfold count_if. rewrite filter_none; [reflexivity|].
      intros x Hx. apply filter_In in Hx. destruct Hx as [_ Hx].
      apply Qltb_lt in Hx.
      destruct (Qltb t x) eqn:E; [|reflexivity].
      apply Qltb_lt in E. exfalso. exact (Qlt_irrefl _ (Qlt_trans _ _ _ Hx E)).
  - intros Hc q. unfold result.
    rewrite (query_guard q (Some _)) by exact Hc. reflexivity.
Qed.

Lemma calm_selection_again_witness :
  exists c : DataFrame,
    result (detect_calm_periods 3) (Some ten_samples) = inr c /\
    result (detect_calm_periods 3) (Some c) = inr c.
Proof.
  destruct (calm_selection_again ten_samples 3 eq_refl) as (c & H1 & H2 & _).
  exists c. split; [exact H1|].
  apply H2. unfold result in H1. rewrite detect_calm_periods_run in H1 by reflexivity.
  injection H1 as <-. reflexivity.
Defined.

(** X8.  Raising the threshold of [detect_calm_periods] only adds samples:
    for [t1 <= t2] every sample calm for [t1] is calm for [t2], the frame for
    [t1] has at most as many rows as the frame for [t2], and it is the frame
    that [detect_calm_periods t1] returns on the frame for [t2]. *)
Theorem calm_threshold_monotone (df : DataFrame) (t1 t2 : Q) :
  df_empty df = false ->
  t1 <= t2 ->
  exists c1 c2 : DataFrame,
    result (detect_calm_periods t1) (Some df) = inr c1 /\
    result (detect_calm_periods t2) (Some df) = inr c2 /\
    (forall x, In x (samples c1) -> In x (samples c2)) /\
    (df_len c1 <= df_len c2)%nat /\
    (df_empty c2 = false -> result (detect_calm_periods t1) (Some c2) = inr c1).
Proof.
  intros H Ht.
  assert (Himp : forall x : Q, Qltb x t1 = true -> Qltb x t2 = true).
  { intros x Hx. apply Qltb_lt. apply Qltb_lt in Hx.
    eapply Qlt_le_trans; eassumption. }
  exists (df_select (map (fun v => Qltb v t1) (wind_speed df)) df),
         (df_select (map (fun v => Qltb v t2) (wind_speed df)) df).
  unfold result at 1 2. rewrite !detect_calm_periods_run by exact H.
  split; [reflexivity|]. split; [reflexivity|]. split; [|split].
  - intros x. rewrite !samples_df_select, !filter_In.
    intros [Hin Hx]. split; [exact Hin | apply Himp, Hx].
  - rewrite !df_len_select. apply count_if_mono. intros x _. apply Himp.
  - intros Hc. unfold result. rewrite detect_calm_periods_run by exact Hc.
    cbn [fst]. f_equal.
    apply (df_select_refine (fun v => Qltb v t1) (fun v => Qltb v t2)).
    intros x _. apply Himp.
Qed.

Lemma calm_threshold_monotone_witness :
  exists c1 c2 : DataFrame,
    result (detect_calm_periods 3) (Some ten_samples) = inr c1 /\
    result (detect_calm_periods 7) (Some ten_samples) = inr c2 /\
    (df_len c1 <= df_len c2)%nat.
Proof.
  assert (Ht : 3 <= 7) by discriminate.
  destruct (calm_threshold_monotone ten_samples 3 7 eq_refl Ht)
    as (c1 & c2 & H1 & H2 & _ & H4 & _).
  exists c1, c2. split; [exact H1|]. split; [exact H2 | exact H4].
Defined.

Lemma select_length_mask {A} (mask : list bool) :
  forall c : list A,
    length c = length mask ->
    length (select mask c) = length (filter (fun b => b) mask).
Proof.
  induction mask as [|b mask IH]; intros [|x c] H; cbn [select filter length] in *;
    try reflexivity; try discriminate.
  destruct b; cbn [length]; rewrite IH by lia; reflexivity.
Qed.

Lemma col_aligned_select {A} (mask : list bool) (c : option (list A)) :
  col_aligned (length mask) c ->
  col_aligned (length (filter (fun b => b) mask)) (option_map (select mask) c).
Proof.
  destruct c as [l|]; cbn [col_aligned option_map]; [|trivial].
  intros H. apply select_length_mask, H.
Qed.

(** X9.  The frames returned by [detect_calm_periods] and
    [detect_strong_wind_events] on an aligned table are aligned (every
    column, helper columns included, keeps one entry per selected row) and
    have at most as many rows as the table. *)
Theorem selections_are_aligned (df : DataFrame) (t : Q) :
  df_empty df = false ->
  aligned df ->
  exists c s : DataFrame,
    result (detect_calm_periods t) (Some df) = inr c /\
    result (detect_strong_wind_events t) (Some df) = inr s /\
    aligned c /\ aligned s /\
    (df_len c <= df_len df)%nat /\ (df_len s <= df_len df)%nat.
Proof.
  intros H (Hd & Hts & Hbin & Hhr).
  assert (Hsel : forall f : Q -> bool,
             aligned (df_select (map f (wind_speed df)) df) /\
             (df_len (df_select (map f (wind_speed df)) df) <= df_len df)%nat).
  { intros f. split.
    - unfold aligned, df_select, df_len in *.
      cbn [timestamp wind_speed wind_direction direction_bin hour].
      assert (Hm : length (map f (wind_speed df)) = length (wind_speed df))
        by apply length_map.
      rewrite (select_length_mask (map f (wind_speed df)) (wind_speed df))
        by (symmetry; exact Hm).
      rewrite <- Hm in Hd, Hts, Hbin, Hhr.
      split; [apply select_length_mask, Hd|].
      split; [apply col_aligned_select, Hts|].
      split; [apply col_aligned_select, Hbin | apply col_aligned_select, Hhr].
    - unfold df_len, df_select. cbn [wind_speed]. apply select_length_le. }
  exists (df_select (map (fun v => Qltb v t) (wind_speed df)) df),
         (df_select (map (fun v => Qltb t v) (wind_speed df)) df).
  unfold result.
  rewrite detect_calm_periods_run, detect_strong_wind_events_run by exact H.
  split; [reflexivity|]. split; [reflexivity|].
  split; [apply Hsel|]. split; [apply Hsel|]. split; apply Hsel.
Qed.

Lemma selections_are_aligned_witness :
  exists c s : DataFrame,
    result (detect_calm_periods 4) (Some timed_samples) = inr c /\
    result (detect_strong_wind_events 4) (Some timed_samples) = inr s /\
    aligned c /\ aligned s.
Proof.
  assert (Ha : aligned timed_samples).
  { unfold aligned. simpl. repeat split; reflexivity. }
  destruct (selections_are_aligned timed_samples 4 eq_refl Ha)
    as (c & s & H1 & H2 & H3 & H4 & _).
  exists c, s. split; [exact H1|]. split; [exact H2|]. split; [exact H3 | exact H4].
Defined.

(* ================================================================= *)
(** ** The gust factor: long windows, window 1, upper bound, units *)

Lemma gust_run_nth (df : DataFrame) (window : Z) (i : nat) :
  df_empty df = false -> (1 <= window)%Z -> (i < df_len df)%nat ->
  exists (g : list (ext Q)) (v : ext Q) (mx : Q),
    result (calculate_gust_factor window) (Some df) = inr g /\
    length g = df_len df /\
    nth_error g i = Some v /\
    ((i + 1 < Z.to_nat window)%nat -> v = NaN) /\
    ((Z.to_nat window <= i + 1)%nat ->
     In mx (window_slice (Z.to_nat window) i (wind_speed df)) /\
     (forall y, In y (window_slice (Z.to_nat window) i (wind_speed df)) -> y <= mx) /\
     qmean (window_slice (Z.to_nat window) i (wind_speed df)) <= mx /\
     (qmean (window_slice (Z.to_nat window) i (wind_speed df)) == 0 ->
      mx == 0 -> v = NaN) /\
     (qmean (window_slice (Z.to_nat window) i (wind_speed df)) == 0 ->
      ~ mx == 0 -> v = PosInf) /\
     (~ qmean (window_slice (Z.to_nat window) i (wind_speed df)) == 0 ->
      v = Fin (mx / qmean (window_slice (Z.to_nat window) i (wind_speed df))))).
Proof.
  intros H Hw Hi. unfold df_len in *.
  assert (Hn : (1 <= Z.to_nat window)%nat) by lia.
  destruct (gust_value (wind_speed df) (Z.to_nat window) i Hn Hi)
    as (v & mx & Ev & Hshort & Hfull).
  eexists. exists v, mx.
  unfold result. rewrite calculate_gust_factor_run by (assumption || lia).
  cbn [fst]. split; [reflexivity|].
  split.
  { rewrite map2_length; unfold rolling; rewrite ?rolling_from_length;
      reflexivity. }
  split; [exact Ev|]. split; [exact Hshort | exact Hfull].
Qed.

(** X10.  When the window is longer than the data set, every entry of the
    series returned by [calculate_gust_factor] is missing. *)
Theorem gust_factor_long_window (df : DataFrame) (window : Z) :
  df_empty df = false ->
  (Z.of_nat (df_len df) < window)%Z ->
  exists g : list (ext Q),
    result (calculate_gust_factor window) (Some df) = inr g /\
    length g = df_len df /\
    forall v, In v g -> v = NaN.
Proof.
  intros H Hw.
  assert (Hw1 : (1 <= window)%Z) by lia.
  assert (H0 : (0 < df_len df)%nat).
  { unfold df_empty in H. apply Nat.eqb_neq in H. lia. }
  destruct (gust_run_nth df window 0 H Hw1 H0) as (g & _ & _ & Hg & Hlen & _).
  exists g. split; [exact Hg|]. split; [exact Hlen|].
  intros v Hv. apply In_nth_error in Hv. destruct Hv as [i Hi].
  assert (Hlt : (i < df_len df)%nat).
  { rewrite <- Hlen. apply nth_error_Some. rewrite Hi. discriminate. }
  destruct (gust_run_nth df window i H Hw1 Hlt)
    as (g' & v' & _ & Hg' & _ & Hv' & Hshort & _).
  rewrite Hg in Hg'. injection Hg' as <-. rewrite Hi in Hv'. injection Hv' as <-.
  apply Hshort. lia.
Qed.

Lemma gust_factor_long_window_witness :
  exists g : list (ext Q),
    result (calculate_gust_factor 11) (Some ten_samples) = inr g /\
    length g = 10%nat /\
    forall v, In v g -> v = NaN.
Proof.
  assert (Hw : (Z.of_nat (df_len ten_samples) < 11)%Z) by (vm_compute; reflexivity).
  exact (gust_factor_long_window ten_samples 11 eq_refl Hw).
Defined.

Lemma window_slice_one (l : list Q) (i : nat) (x : Q) :
  nth_error l i = Some x -> window_slice 1 i l = [x].
Proof.
  intros H. unfold window_slice.
  replace (i + 1 - 1)%nat with i by lia.
  replace (i + 1 - i)%nat with 1%nat by lia.
  destruct (nth_error_split l i H) as (l1 & l2 & -> & <-).
  rewrite skipn_app, skipn_all, Nat.sub_diag. reflexivity.
Qed.

Lemma qmean_single (x : Q) : qmean [x] == x.
Proof. unfold qmean, qsum, qlen. cbn. field. Qed.

(** X11.  With a window of 1 the gust factor of a sample is 1 when its
    speed is not 0 (whatever its sign) and is missing when its speed is 0. *)
Theorem gust_factor_window_one (df : DataFrame) (i : nat) (x : Q) :
  df_empty df = false ->
  nth_error (wind_speed df) i = Some x ->
  exists (g : list (ext Q)) (v : ext Q),
    result (calculate_gust_factor 1) (Some df) = inr g /\
    nth_error g i = Some v /\
    (x == 0 -> v = NaN) /\
    (~ x == 0 -> exists q, v = Fin q /\ q == 1).
Proof.
  intros H Hx.
  assert (Hi : (i < df_len df)%nat).
  { unfold df_len. apply nth_error_Some. rewrite Hx. discriminate. }
  assert (Hw : (1 <= 1)%Z) by lia.
  destruct (gust_run_nth df 1 i H Hw Hi)
    as (g & v & mx & Hg & _ & Hv & _ & Hfull).
  change (Z.to_nat 1) with 1%nat in Hfull.
  rewrite (window_slice_one _ _ _ Hx) in Hfull.
  destruct (Hfull ltac:(lia)) as (Imx & _ & _ & Hnan & _ & Hfin).
  destruct Imx as [<- | []].
  exists g, v. split; [exact Hg|]. split; [exact Hv|]. split.
  - intros E. apply Hnan; [rewrite qmean_single; exact E | exact E].
  - intros E. exists (x / qmean [x]). split.
    + apply Hfin. rewrite qmean_single. exact E.
    + rewrite qmean_single. field. exact E.
Qed.

Lemma gust_factor_window_one_witness :
  exists (g : list (ext Q)) (v : ext Q),
    result (calculate_gust_factor 1) (Some signed_samples) = inr g /\
    nth_error g 0 = Some v /\
    exists q, v = Fin q /\ q == 1.
Proof.
  destruct (gust_factor_window_one signed_samples 0 (-1) eq_refl eq_refl)
    as (g & v & H1 & H2 & _ & H4).
  exists g, v. split; [exact H1|]. split; [exact H2|].
  apply H4. discriminate.
Defined.

Lemma qsum_member_le (l : list Q) (x : Q) :
  (forall y, In y l -> 0 <= y) -> In x l -> x <= qsum l.
Proof.
  induction l as [|a l IH]; intros Hpos Hx; [destruct Hx|].
  rewrite qsum_cons.
  assert (Ha : 0 <= a) by (apply Hpos; left; reflexivity).
  assert (Hl : 0 <= qsum l)
    by (apply qsum_nonneg; intros y Hy; apply Hpos; right; exact Hy).
  destruct Hx as [<- | Hx].
  - lra.
  - assert (x <= qsum l)
      by (apply IH; [intros y Hy; apply Hpos; right; exact Hy | exact Hx]).
    lra.
Qed.


(** The bound of X12 below is one of exact arithmetic: for a window of 3 on
    the speeds 0.1, 0.2, 0.3, 0, 0, 0 the program divides 0.3 by the rounded
    mean 0.09999999999999998 and returns 3.0000000000000004 at position 4. *)
Lemma gust_factor64_above_window :
  exists v : PrimFloat.float,
    nth_error (gust_factor64 3 rising_then_calm) 4 = Some v /\
    PrimFloat.ltb (float_of_Z 3) v = true.
Proof.
  exists (nth 4 (gust_factor64 3 rising_then_calm) PrimFloat.nan).
  split; vm_compute; reflexivity.
Qed.



Lemma window_slice_map (f : Q -> Q) (w i : nat) (l : list Q) :
  window_slice w i (map f l) = map f (window_slice w i l).
Proof.
  unfold window_slice. rewrite skipn_map, firstn_map. reflexivity.
Qed.

Lemma qsum_scale (c : Q) (l : list Q) : qsum (map (Qmult c) l) == c * qsum l.
Proof.
  induction l as [|x l IH]; cbn [map].
  - change (0 == c * 0). ring.
  - rewrite !qsum_cons, IH. ring.
Qed.

Lemma qmean_scale (c : Q) (l : list Q) :
  l <> [] -> qmean (map (Qmult c) l) == c * qmean l.
Proof.
  intros H. unfold qmean, qlen. rewrite length_map, qsum_scale.
  pose proof (qlen_pos l H) as Hp. unfold qlen in Hp. field. lra.
Qed.

(** X13.  The gust factor does not depend on the unit of the speeds: after
    multiplying every speed of the table by the same factor [c > 0], each
    entry of the series is missing, infinite or a number as before, and a
    number is the same number. *)
Theorem gust_factor_unit_change (df : DataFrame) (c : Q) (window : Z) (i : nat) :
  df_empty df = false ->
  0 < c ->
  (1 <= window)%Z ->
  (i < df_len df)%nat ->
  exists (g g' : list (ext Q)) (v v' : ext Q),
    result (calculate_gust_factor window) (Some df) = inr g /\
    result (calculate_gust_factor window)
           (Some {| timestamp := timestamp df;
                    wind_speed := map (Qmult c) (wind_speed df);
                    wind_direction := wind_direction df;
                    direction_bin := direction_bin df;
                    hour := hour df |}) = inr g' /\
    nth_error g i = Some v /\
    nth_error g' i = Some v' /\
    ext_Qeq v v'.
Proof.
  intros H Hc Hw Hi.
  set (df' := {| timestamp := timestamp df;
                 wind_speed := map (Qmult c) (wind_speed df);
                 wind_direction := wind_direction df;
                 direction_bin := direction_bin df;
                 hour := hour df |}).
  assert (H' : df_empty df' = false).
  { unfold df_empty, df_len, df'. cbn [wind_speed]. rewrite length_map. exact H. }
  assert (Hi' : (i < df_len df')%nat).
  { unfold df_len, df'. cbn [wind_speed]. rewrite length_map. exact Hi. }
  destruct (gust_run_nth df window i H Hw Hi)
    as (g & v & mx & Hg & _ & Hv & Hshort & Hfull).
  destruct (gust_run_nth df' window i H' Hw Hi')
    as (g' & v' & mx' & Hg' & _ & Hv' & Hshort' & Hfull').
  exists g, g', v, v'.
  split; [exact Hg|]. split; [exact Hg'|]. split; [exact Hv|]. split; [exact Hv'|].
  unfold df' in Hfull'. cbn [wind_speed] in Hfull'.
  rewrite window_slice_map in Hfull'.
  set (win := window_slice (Z.to_nat window) i (wind_speed df)) in *.
  destruct (Nat.lt_ge_cases (i + 1) (Z.to_nat window)) as [Hs | Hf].
  { rewrite (Hshort Hs), (Hshort' Hs). exact I. }
  destruct (Hfull Hf) as (Imx & Lmx & _ & Hnan & Hinf & Hfin).
  destruct (Hfull' Hf) as (Imx' & Lmx' & _ & Hnan' & Hinf' & Hfin').
  assert (Hne : win <> []) by (intros E; rewrite E in Imx; destruct Imx).
  pose proof (qmean_scale c win Hne) as Em.
  assert (Emx : mx' == c * mx).
  { apply Qle_antisym.
    - apply in_map_iff in Imx'. destruct Imx' as (y & <- & Hy).
      apply Qmult_le_l; [exact Hc | apply Lmx, Hy].
    - apply Lmx'. apply in_map. exact Imx. }
  destruct (Qeq_dec (qmean win) 0) as [E | E].
  - assert (E' : qmean (map (Qmult c) win) == 0) by (rewrite Em, E; ring).
    destruct (Qeq_dec mx 0) as [Z0 | Z0].
    + assert (Z0' : mx' == 0) by (rewrite Emx, Z0; ring).
      rewrite (Hnan E Z0), (Hnan' E' Z0'). exact I.
    + assert (Z0' : ~ mx' == 0).
      { rewrite Emx. intros Hz. apply Z0.
        apply (Qmult_integral c mx) in Hz. destruct Hz as [Hz | Hz]; [lra | exact Hz]. }
      rewrite (Hinf E Z0), (Hinf' E' Z0'). exact I.
  - assert (E' : ~ qmean (map (Qmult c) win) == 0).
    { rewrite Em. intros Hz. apply E.
      apply (Qmult_integral c (qmean win)) in Hz.
      destruct Hz as [Hz | Hz]; [lra | exact Hz]. }
    rewrite (Hfin E), (Hfin' E'). cbn [ext_Qeq].
    rewrite Em, Emx. field. split; [exact E | lra].
Qed.

Lemma gust_factor_unit_change_witness :
  exists (g g' : list (ext Q)) (v v' : ext Q),
    result (calculate_gust_factor 3) (Some ten_samples) = inr g /\
    nth_error g 4 = Some v /\
    nth_error g' 4 = Some v' /\
    ext_Qeq v v'.
Proof.
  assert (Hc : 0 < 18 # 5) by reflexivity.
  assert (Hw : (1 <= 3)%Z) by lia.
  assert (Hi : (4 < df_len ten_samples)%nat) by (vm_compute; lia).
  destruct (gust_factor_unit_change ten_samples (18 # 5) 3 4 eq_refl Hc Hw Hi)
    as (g & g' & v & v' & H1 & _ & H3 & H4 & H5).
  exists g, g', v, v'.
  split; [exact H1|]. split; [exact H3|]. split; [exact H4 | exact H5].
Defined.

(* ================================================================= *)
(** ** The prevailing direction: least share, directions modulo 360 *)

Lemma list_sum_bound {A} (f : A -> nat) (m : nat) (l : list A) :
  (forall x, In x l -> (f x <= m)%nat) ->
  (list_sum (map f l) <= length l * m)%nat.
Proof.
  induction l as [|x l IH]; intros H; cbn [map length].
  - cbn. lia.
  - rewrite list_sum_cons.
    assert (f x <= m)%nat by (apply H; left; reflexivity).
    assert (list_sum (map f l) <= length l * m)%nat
      by (apply IH; intros y Hy; apply H; right; exact Hy).
    lia.
Qed.

(** X14.  The percentage returned by [get_prevailing_direction] is at least
    6.25: the most frequent of the 16 bins holds at least one sample in
    sixteen. *)
Theorem prevailing_share_at_least_sixteenth (df : DataFrame) :
  df_empty df = false ->
  length (wind_direction df) = df_len df ->
  exists d pct : Q,
    result get_prevailing_direction (Some df) = inr (d, pct) /\
    25 # 4 <= pct.
Proof.
  intros H Hlen.
  assert (Hcol : map prevailing_bin_of (wind_direction df) <> []).
  { pose proof (df_nonempty_speeds df H) as Hs. unfold df_len in Hlen.
    destruct (wind_direction df); [|discriminate].
    destruct (wind_speed df); [congruence | discriminate Hlen]. }
  destruct (mode_head _ Hcol) as (b & t & Emode & Hin & Hmax & _).
  remember (map prevailing_bin_of (wind_direction df)) as col eqn:Ec.
  assert (Hrange : forall x, In x col -> (0 <= x < 16)%Z).
  { intros x Hx. rewrite Ec in Hx. apply in_map_iff in Hx.
    destruct Hx as (d & <- & _). apply prevailing_bin_range. }
  assert (Hn : length col = df_len df) by (rewrite Ec, length_map; exact Hlen).
  assert (Hsum : (df_len df <= 16 * count_occ Z.eq_dec col b)%nat).
  { rewrite <- Hn, <- (counts_sum 16 col Hrange).
    pose proof (list_sum_bound (count_occ Z.eq_dec col)
                               (count_occ Z.eq_dec col b) (range 16)
                               (fun x _ => Hmax x)) as Hb.
    rewrite range_length in Hb. exact Hb. }
  assert (Hpos : (1 <= df_len df)%nat).
  { unfold df_empty in H. apply Nat.eqb_neq in H. lia. }
  eexists. eexists. unfold result.
  rewrite get_prevailing_direction_run by exact H. cbv zeta.
  rewrite <- Ec, Emode. cbn [fst]. split; [reflexivity|].
  rewrite count_eq_count_occ.
  pose proof (qnat_pos _ Hpos) as Hq.
  assert (Hle : qnat (df_len df) <= 16 * qnat (count_occ Z.eq_dec col b)).
  { unfold qnat. change 16 with (inject_Z 16).
    rewrite <- inject_Z_mult, <- Zle_Qle. lia. }
  assert (Hfrac : 1 # 16 <= qnat (count_occ Z.eq_dec col b) / qnat (df_len df)).
  { apply Qle_shift_div_l; [exact Hq | lra]. }
  generalize dependent (qnat (count_occ Z.eq_dec col b) / qnat (df_len df)).
  intros x Hx. lra.
Qed.

Lemma prevailing_share_at_least_sixteenth_witness :
  exists d pct : Q,
    result get_prevailing_direction (Some timed_samples) = inr (d, pct) /\
    25 # 4 <= pct.
Proof.
  exact (prevailing_share_at_least_sixteenth timed_samples eq_refl eq_refl).
Defined.








(* ================================================================= *)
(** ** The daily pattern: number of rows, statistics of a row *)

Lemma range_In (n x : Z) : In x (range n) <-> (0 <= x < n)%Z.
Proof.
  unfold range. rewrite in_map_iff. split.
  - intros (k & <- & Hk). apply in_seq in Hk. lia.
  - intros Hx. exists (Z.to_nat x). split; [lia|]. apply in_seq. lia.
Qed.

(** X16.  The table returned by [analyze_daily_pattern] has at most one row
    per sample, and at most 24 rows when every timestamp has its hour in
    [0 .. 23]. *)
Theorem daily_pattern_row_count (df : DataFrame) (ts : list Timestamp) :
  df_empty df = false ->
  timestamp df = Some ts ->
  exists pat : list (Z * HourStats),
    result analyze_daily_pattern (Some df) = inr pat /\
    (length pat <= length ts)%nat /\
    ((forall t, In t ts -> (0 <= ts_hour t < 24)%Z) -> (length pat <= 24)%nat).
Proof.
  intros H E.
  exists (groupby_agg (map ts_hour ts) (wind_speed df)).
  unfold result. rewrite analyze_daily_pattern_run by exact H. rewrite E.
  split; [reflexivity|].
  assert (Hlen : length (groupby_agg (map ts_hour ts) (wind_speed df))
                 = length (isort Z.leb (nodup Z.eq_dec (map ts_hour ts)))).
  { rewrite <- (groupby_agg_keys (map ts_hour ts) (wind_speed df)).
    rewrite length_map. reflexivity. }
  assert (Hnd : NoDup (isort Z.leb (nodup Z.eq_dec (map ts_hour ts))))
    by apply isort_NoDup, NoDup_nodup.
  rewrite Hlen. split.
  - rewrite <- (length_map ts_hour ts). apply NoDup_incl_length; [exact Hnd|].
    intros h Hh. rewrite isort_In, nodup_In in Hh. exact Hh.
  - intros Hrange. replace 24%nat with (length (range 24)) by reflexivity.
    apply NoDup_incl_length; [exact Hnd|].
    intros h Hh. rewrite isort_In, nodup_In in Hh.
    apply in_map_iff in Hh. destruct Hh as (t & <- & Ht).
    apply range_In, Hrange, Ht.
Qed.

Lemma daily_pattern_row_count_witness :
  exists pat : list (Z * HourStats),
    result analyze_daily_pattern (Some timed_samples) = inr pat /\
    (length pat <= 3)%nat.
Proof.
  destruct (daily_pattern_row_count timed_samples
              [at_hour 0; at_hour 1; at_hour 0] eq_refl eq_refl)
    as (pat & H1 & H2 & _).
  exists pat. split; [exact H1 | exact H2].
Defined.

Lemma vals_of_key_incl (k : Z) (keys : list Z) (vals : list Q) (y : Q) :
  In y (vals_of_key Z.eqb k keys vals) -> In y vals.
Proof.
  unfold vals_of_key. intros H. apply in_map_iff in H.
  destruct H as ([k' v] & <- & Hp). apply filter_In in Hp.
  destruct Hp as [Hp _]. apply in_combine_r in Hp. exact Hp.
Qed.

Lemma vals_of_key_length (k : Z) (keys : list Z) (vals : list Q) :
  length vals = length keys ->
  length (vals_of_key Z.eqb k keys vals) = count_occ Z.eq_dec keys k.
Proof.
  intros H. rewrite <- select_vals_of_key. apply select_length_count, H.
Qed.

(** X17.  In every row of the table returned by [analyze_daily_pattern], the
    minimum, mean and maximum are numbers, the minimum and the maximum lie
    between the least and the greatest speed of the whole data set, and in
    exact arithmetic, that is with the sum and the quotient of the mean taken
    without rounding, the mean lies between the minimum and the maximum; the
    standard deviation is missing when the hour has a single sample and is a
    number [>= 0] when it has more. *)
Theorem daily_pattern_row_statistics (df : DataFrame) (ts : list Timestamp) :
  df_empty df = false ->
  timestamp df = Some ts ->
  length ts = df_len df ->
  exists (pat : list (Z * HourStats)) (lo hi : Q),
    result analyze_daily_pattern (Some df) = inr pat /\
    In lo (wind_speed df) /\ In hi (wind_speed df) /\
    forall h st,
      In (h, st) pat ->
      exists mn m mx : Q,
        h_min st = Fin mn /\ h_mean st = Fin m /\ h_max st = Fin mx /\
        lo <= mn /\ mn <= m /\ m <= mx /\ mx <= hi /\
        (count_occ Z.eq_dec (map ts_hour ts) h = 1%nat -> h_std st = NaN) /\
        ((2 <= count_occ Z.eq_dec (map ts_hour ts) h)%nat ->
         exists r : R, h_std st = Fin r /\ (0 <= r)%R).
Proof.
  intros H E Hlen. pose proof (df_nonempty_speeds df H) as Hne.
  destruct (series_min_spec _ Hne) as (lo & _ & Ilo & Llo).
  destruct (series_max_spec _ Hne) as (hi & _ & Ihi & Lhi).
  exists (groupby_agg (map ts_hour ts) (wind_speed df)), lo, hi.
  unfold result. rewrite analyze_daily_pattern_run by exact H. rewrite E.
  split; [reflexivity|]. split; [exact Ilo|]. split; [exact Ihi|].
  intros h st Hin.
  destruct (groupby_agg_entry _ _ _ _ Hin) as [Hh ->].
  assert (Hkl : length (wind_speed df) = length (map ts_hour ts))
    by (rewrite length_map, Hlen; reflexivity).
  pose proof (vals_of_key_length h _ _ Hkl) as Hcount.
  set (grp := vals_of_key Z.eqb h (map ts_hour ts) (wind_speed df)) in *.
  assert (Hgne : grp <> []).
  { intros E0. rewrite E0 in Hcount. cbn [length] in Hcount.
    apply (count_occ_In Z.eq_dec) in Hh. lia. }
  destruct (series_min_spec _ Hgne) as (mn & Emn & Imn & Lmn).
  destruct (series_max_spec _ Hgne) as (mx & Emx & Imx & Lmx).
  exists mn, (qmean grp), mx. cbn [agg_stats h_min h_mean h_max h_std].
  split; [exact Emn|].
  split; [destruct grp; [congruence | reflexivity]|].
  split; [exact Emx|].
  split; [apply Llo, (vals_of_key_incl _ _ _ _ Imn)|].
  split; [apply qmean_lower; assumption|].
  split; [apply qmean_upper; assumption|].
  split; [apply Lhi, (vals_of_key_incl _ _ _ _ Imx)|].
  rewrite <- Hcount. split.
  - intros E1. destruct grp as [|x [|y t]]; try discriminate E1. reflexivity.
  - intros H2. destruct (series_var_spec _ H2) as [Ev _].
    unfold series_std. rewrite Ev. cbn [ext_map].
    eexists. split; [reflexivity | apply sqrt_pos].
Qed.

Lemma daily_pattern_row_statistics_witness :
  exists (pat : list (Z * HourStats)) (lo hi : Q),
    result analyze_daily_pattern (Some timed_samples) = inr pat /\
    In lo (wind_speed timed_samples) /\ In hi (wind_speed timed_samples).
Proof.
  destruct (daily_pattern_row_statistics timed_samples
              [at_hour 0; at_hour 1; at_hour 0] eq_refl eq_refl eq_refl)
    as (pat & lo & hi & H1 & H2 & H3 & _).
  exists pat, lo, hi. split; [exact H1|]. split; [exact H2 | exact H3].
Defined.

(* ================================================================= *)
(** ** Power density: sign and order *)

Lemma cube_monotone (a b : Q) : a <= b -> a * a * a <= b * b * b.
Proof.
  intros H.
  assert (E : b * b * b - a * a * a
              == (b - a) * ((a + b / 2) * (a + b / 2) + (3 # 4) * (b * b)))
    by field.
  assert (H1 : 0 <= (a + b / 2) * (a + b / 2)).
  { generalize (a + b / 2). intros u. destruct (Qlt_le_dec u 0).
    - setoid_replace (u * u) with ((- u) * (- u)) by ring.
      apply Qmult_le_0_compat; lra.
    - apply Qmult_le_0_compat; assumption. }
  assert (H2 : 0 <= b * b).
  { destruct (Qlt_le_dec b 0).
    - setoid_replace (b * b) with ((- b) * (- b)) by ring.
      apply Qmult_le_0_compat; lra.
    - apply Qmult_le_0_compat; assumption. }
  assert (H3 : 0 <= (b - a) * ((a + b / 2) * (a + b / 2) + (3 # 4) * (b * b))).
  { apply Qmult_le_0_compat; lra. }
  lra.
Qed.

Lemma power_of_monotone (rho a b : Q) :
  0 <= rho -> a <= b -> power_of rho a <= power_of rho b.
Proof.
  intros Hr Hab. rewrite !power_of_Qeq.
  pose proof (cube_monotone a b Hab) as Hc.
  assert (H : 0 <= (1 # 2) * rho) by lra.
  setoid_replace ((1 # 2) * rho * (b * b * b))
    with ((1 # 2) * rho * (a * a * a)
          + (1 # 2) * rho * (b * b * b - a * a * a)) by ring.
  assert (0 <= (1 # 2) * rho * (b * b * b - a * a * a))
    by (apply Qmult_le_0_compat; lra).
  lra.
Qed.

(** X18.  For speeds that are floats, in exact arithmetic (the product and
    the cube taken without rounding or overflow; a column of integer speeds
    is cubed in int64 and can wrap): for an air density [>= 0] the power
    density follows the order of the speeds: a sample with a speed at most
    that of another has a power density at most that of the other; in
    particular a negative speed, which the analyzer accepts, gives a power
    density [<= 0]. *)
Theorem power_density_order (df : DataFrame) (rho : Q) :
  df_empty df = false ->
  0 <= rho ->
  exists pd : list Q,
    result (calculate_power_density rho) (Some df) = inr pd /\
    (forall i j si sj pi pj,
        nth_error (wind_speed df) i = Some si ->
        nth_error (wind_speed df) j = Some sj ->
        nth_error pd i = Some pi -> nth_error pd j = Some pj ->
        si <= sj -> pi <= pj) /\
    (forall i s p,
        nth_error (wind_speed df) i = Some s -> nth_error pd i = Some p ->
        s <= 0 -> p <= 0).
Proof.
  intros H Hr.
  exists (map (power_of rho) (wind_speed df)).
  unfold result. rewrite calculate_power_density_run by exact H.
  split; [reflexivity|]. split.
  - intros i j si sj pi pj Hi Hj Hpi Hpj Hle.
    rewrite nth_error_map, Hi in Hpi. rewrite nth_error_map, Hj in Hpj.
    injection Hpi as <-. injection Hpj as <-.
    apply power_of_monotone; assumption.
  - intros i s p Hi Hp Hs.
    rewrite nth_error_map, Hi in Hp. injection Hp as <-.
    pose proof (power_of_monotone rho s 0 Hr Hs) as Hm.
    assert (E0 : power_of rho 0 == 0) by (rewrite power_of_Qeq; ring).
    lra.
Qed.

Lemma power_density_order_witness :
  exists pd : list Q,
    result (calculate_power_density (49 # 40)) (Some signed_samples) = inr pd /\
    exists p, nth_error pd 0 = Some p /\ p <= 0.
Proof.
  assert (Hr : 0 <= 49 # 40) by discriminate.
  destruct (power_density_order signed_samples (49 # 40) eq_refl Hr)
    as (pd & H1 & _ & H3).
  exists pd. split; [exact H1|].
  unfold result in H1. rewrite calculate_power_density_run in H1 by reflexivity.
  injection H1 as <-. eexists. split; [reflexivity|].
  apply (H3 0%nat (-1)); [reflexivity | reflexivity | discriminate].
Defined.

(* ================================================================= *)
(** ** The summary report as a composition of the other queries *)

Lemma mode_nonempty (df : DataFrame) :
  df_empty df = false ->
  length (wind_direction df) = df_len df ->
  exists b t, mode (map prevailing_bin_of (wind_direction df)) = b :: t.
Proof.
  intros H Hlen.
  assert (Hcol : map prevailing_bin_of (wind_direction df) <> []).
  { pose proof (df_nonempty_speeds df H) as Hs. unfold df_len in Hlen.
    destruct (wind_direction df); [|discriminate].
    destruct (wind_speed df); [congruence | discriminate Hlen]. }
  destruct (mode_head _ Hcol) as (b & t & E & _). exists b, t. exact E.
Qed.

(** X19.  On a data set with at least one sample, [get_summary_report]
    raises nothing and reports exactly what the separate queries return on
    the same table: the number of rows, the statistics of
    [get_basic_statistics], the pair of [get_prevailing_direction], the
    numbers of rows of [detect_calm_periods 2] and
    [detect_strong_wind_events 10], and the mean of
    [calculate_power_density 1.225]; the calm and strong counts together
    never exceed the number of rows; the table is left as
    [get_prevailing_direction] leaves it. *)
Theorem summary_report_composition (df : DataFrame) :
  df_empty df = false ->
  length (wind_direction df) = df_len df ->
  exists (rep : Report) (st : BasicStatistics) (p : Q * Q)
         (c s : DataFrame) (pd : list Q),
    result get_summary_report (Some df) = inr rep /\
    result get_basic_statistics (Some df) = inr st /\
    result get_prevailing_direction (Some df) = inr p /\
    result (detect_calm_periods 2) (Some df) = inr c /\
    result (detect_strong_wind_events 10) (Some df) = inr s /\
    result (calculate_power_density (1225 # 1000)) (Some df) = inr pd /\
    total_observations rep = df_len df /\
    r_stats rep = st /\
    (r_prevailing_dir rep, r_prevailing_pct rep) = p /\
    r_calm_periods rep = df_len c /\
    r_strong_events rep = df_len s /\
    r_avg_power_density rep = series_mean pd /\
    (r_calm_periods rep + r_strong_events rep <= total_observations rep)%nat /\
    state_after get_summary_report (Some df)
    = state_after get_prevailing_direction (Some df).
Proof.
  intros H Hlen.
  destruct (mode_nonempty df H Hlen) as (b & t & Emode).
  unfold result, state_after.
  rewrite get_summary_report_run, get_basic_statistics_run,
    get_prevailing_direction_run, detect_calm_periods_run,
    detect_strong_wind_events_run, calculate_power_density_run by exact H.
  cbv zeta. rewrite Emode. cbn [fst snd].
  do 6 eexists.
  split; [reflexivity|]. split; [reflexivity|]. split; [reflexivity|].
  split; [reflexivity|]. split; [reflexivity|]. split; [reflexivity|].
  cbn [total_observations r_stats r_prevailing_dir r_prevailing_pct
       r_calm_periods r_strong_events r_avg_power_density].
  split; [reflexivity|]. split; [reflexivity|]. split; [reflexivity|].
  split; [reflexivity|]. split; [reflexivity|]. split; [reflexivity|].
  split; [|reflexivity].
  rewrite !select_own_mask.
  pose proof (three_way_count default_calm_threshold (wind_speed df)) as H3.
  unfold count_if in H3. unfold df_len.
  assert (Hs : (length (filter (fun s0 => Qltb default_strong_threshold s0)
                               (wind_speed df))
                <= length (filter (fun x => Qltb default_calm_threshold x)
                                  (wind_speed df)))%nat).
  { apply (count_if_mono (fun s0 => Qltb default_strong_threshold s0)
                         (fun x => Qltb default_calm_threshold x)).
    intros x _ Hx. apply Qltb_lt. apply Qltb_lt in Hx.
    eapply Qlt_trans; [|exact Hx]. reflexivity. }
  lia.
Qed.

Lemma summary_report_composition_witness :
  exists rep : Report,
    result get_summary_report (Some ten_samples) = inr rep /\
    total_observations rep = 10%nat /\
    (r_calm_periods rep + r_strong_events rep <= total_observations rep)%nat.
Proof.
  destruct (summary_report_composition ten_samples eq_refl eq_refl)
    as (rep & st & p & c & s & pd & H1 & _ & _ & _ & _ & _ & H7 & _ & _ & _ & _
        & _ & H13 & _).
  exists rep. split; [exact H1|]. split; [exact H7 | exact H13].
Defined.

(* ================================================================= *)
(** ** What the queries do to the table *)

(** After a query, the table is as before, or has a new [direction_bin]
    column computed from the directions, or has a new [hour] column read off
    the timestamps. *)
Lemma state_after_cases (q : query) (df : DataFrame) :
  df_empty df = false ->
  state_after (run_query q) (Some df) = Some df \/
  (writes_direction_bin q = true /\
   exists f : Q -> Z,
     state_after (run_query q) (Some df)
     = Some (set_direction_bin df (map f (wind_direction df)))) \/
  (writes_hour q = true /\
   exists ts, timestamp df = Some ts /\
              state_after (run_query q) (Some df)
              = Some (set_hour df (map ts_hour ts))).
Proof.
  intros H.
  destruct q; unfold run_query; rewrite state_after_fmap; unfold state_after.
  - left. rewrite get_basic_statistics_run by exact H. reflexivity.
  - destruct (Z.eq_dec bins 0) as [-> | Hb].
    + left. unfold get_wind_rose_data. rewrite bind_require_ok by exact H.
      reflexivity.
    + right. left. split; [reflexivity|].
      rewrite get_wind_rose_data_run by assumption. cbv zeta.
      eexists. reflexivity.
  - left. rewrite detect_calm_periods_run by exact H. reflexivity.
  - left. rewrite detect_strong_wind_events_run by exact H. reflexivity.
  - left. destruct (Z.ltb_spec window 0) as [Hw | Hw].
    + unfold calculate_gust_factor. rewrite bind_require_ok by exact H.
      apply Z.ltb_lt in Hw. rewrite Hw. reflexivity.
    + rewrite calculate_gust_factor_run by assumption. reflexivity.
  - right. left. split; [reflexivity|].
    rewrite get_prevailing_direction_run by exact H. cbv zeta.
    eexists. reflexivity.
  - rewrite analyze_daily_pattern_run by exact H.
    destruct (timestamp df) as [ts|] eqn:E.
    + right. right. split; [reflexivity|]. exists ts. split; reflexivity.
    + left. reflexivity.
  - left. rewrite calculate_power_density_run by exact H. reflexivity.
  - right. left. split; [reflexivity|].
    rewrite get_summary_report_run by exact H. cbv zeta.
    eexists. reflexivity.
Qed.

Lemma state_after_no_data (q : query) (s : Analyzer) :
  no_data s = true -> state_after (run_query q) s = s.
Proof.
  intros H. unfold state_after. rewrite (query_guard q s H). reflexivity.
Qed.

Lemma query_keeps_table (q : query) (df : DataFrame) :
  aligned df ->
  exists df',
    state_after (run_query q) (Some df) = Some df' /\
    timestamp df' = timestamp df /\
    wind_speed df' = wind_speed df /\
    wind_direction df' = wind_direction df /\
    aligned df'.
Proof.
  intros Ha. destruct (df_empty df) eqn:H.
  - exists df. rewrite (state_after_no_data q (Some df) H).
    repeat split; try reflexivity; apply Ha.
  - destruct (state_after_cases q df H)
      as [E | [(_ & f & E) | (_ & ts & Ets & E)]]; rewrite E.
    + exists df. repeat split; try reflexivity; apply Ha.
    + eexists. split; [reflexivity|]. cbn [set_direction_bin timestamp
        wind_speed wind_direction]. repeat (split; [reflexivity|]).
      destruct Ha as (H1 & H2 & H3 & H4). unfold aligned, df_len in *.
      cbn [set_direction_bin timestamp wind_speed wind_direction
           direction_bin hour col_aligned].
      rewrite length_map. repeat split; assumption.
    + eexists. split; [reflexivity|]. cbn [set_hour timestamp
        wind_speed wind_direction]. repeat (split; [reflexivity|]).
      destruct Ha as (H1 & H2 & H3 & H4). unfold aligned, df_len in *.
      cbn [set_hour timestamp wind_speed wind_direction
           direction_bin hour col_aligned].
      rewrite length_map. pose proof H2 as H2'.
      rewrite Ets in H2'. cbn [col_aligned] in H2'.
      repeat split; assumption.
Qed.

(** X20.  Whatever queries are run, in whatever order and with whatever
    arguments, and whether they return or raise, the table of the analyzer
    keeps its timestamps, speeds and directions, hence its number of rows,
    and stays aligned: the helper columns written have one entry per row. *)
Theorem queries_keep_the_samples (qs : list query) (df : DataFrame) :
  aligned df ->
  exists df',
    run_all qs (Some df) = Some df' /\
    timestamp df' = timestamp df /\
    wind_speed df' = wind_speed df /\
    wind_direction df' = wind_direction df /\
    df_len df' = df_len df /\
    aligned df'.
Proof.
  revert df. induction qs as [|q qs IH]; intros df Ha; cbn [run_all].
  - exists df. repeat split; try reflexivity; apply Ha.
  - destruct (query_keeps_table q df Ha) as (df1 & E1 & Ht & Hs & Hd & Ha1).
    rewrite E1. destruct (IH df1 Ha1) as (df2 & E2 & Ht2 & Hs2 & Hd2 & Hl2 & Ha2).
    exists df2. split; [exact E2|].
    split; [congruence|]. split; [congruence|]. split; [congruence|].
    split; [unfold df_len in *; congruence | exact Ha2].
Qed.

Lemma queries_keep_the_samples_witness :
  exists df',
    run_all [QWindRose 16; QDailyPattern; QSummaryReport; QGustFactor (-1)]
            (Some timed_samples) = Some df' /\
    wind_speed df' = wind_speed timed_samples /\
    aligned df'.
Proof.
  assert (Ha : aligned timed_samples).
  { unfold aligned. simpl. repeat split; reflexivity. }
  destruct (queries_keep_the_samples
              [QWindRose 16; QDailyPattern; QSummaryReport; QGustFactor (-1)]
              timed_samples Ha)
    as (df' & H1 & _ & H3 & _ & _ & H6).
  exists df'. split; [exact H1|]. split; [exact H3 | exact H6].
Defined.

(** X21.  A query writes at most its own helper column.  The queries other
    than [get_wind_rose_data], [get_prevailing_direction] and
    [get_summary_report] leave [direction_bin] as it is, the queries other
    than [analyze_daily_pattern] leave [hour] as it is, and the remaining
    five queries leave the table exactly as it is. *)
Theorem query_write_set (q : query) (s : Analyzer) :
  (writes_direction_bin q = false ->
   option_map direction_bin (state_after (run_query q) s)
   = option_map direction_bin s) /\
  (writes_hour q = false ->
   option_map hour (state_after (run_query q) s) = option_map hour s) /\
  (writes_direction_bin q = false -> writes_hour q = false ->
   state_after (run_query q) s = s).
Proof.
  destruct (no_data s) eqn:Hs.
  { rewrite (state_after_no_data q s Hs). auto. }
  destruct s as [df|]; [|discriminate Hs]. cbn [no_data] in Hs.
  destruct (state_after_cases q df Hs)
    as [E | [(Hw & f & E) | (Hw & ts & _ & E)]]; rewrite E.
  - auto.
  - split; [intros Hn; congruence|]. split; [reflexivity|].
    intros Hn. congruence.
  - split; [reflexivity|]. split; [intros Hn; congruence|].
    intros _ Hn. congruence.
Qed.

Lemma query_write_set_witness :
  state_after (run_query (QGustFactor 3)) (Some ten_samples) = Some ten_samples /\
  option_map hour (state_after (run_query QPrevailingDirection) (Some timed_samples))
  = option_map hour (Some timed_samples).
Proof.
  split.
  - apply (proj2 (proj2 (query_write_set (QGustFactor 3) (Some ten_samples))));
      reflexivity.
  - apply (proj1 (proj2 (query_write_set QPrevailingDirection (Some timed_samples)))).
    reflexivity.
Defined.

(** X22.  A query that raises leaves the table exactly as it was. *)
Theorem failed_query_changes_nothing (q : query) (s : Analyzer) (e : exn) :
  (forall df, s = Some df -> length (wind_direction df) = df_len df) ->
  result (run_query q) s = inl e ->
  state_after (run_query q) s = s.
Proof.
  intros Hwf He. destruct (no_data s) eqn:Hs.
  { apply state_after_no_data, Hs. }
  destruct s as [df|]; [|discriminate Hs]. cbn [no_data] in Hs.
  specialize (Hwf df eq_refl).
  revert He.
  destruct q; unfold run_query; rewrite result_fmap, state_after_fmap;
    unfold result, state_after.
  - rewrite get_basic_statistics_run by exact Hs. discriminate.
  - destruct (Z.eq_dec bins 0) as [-> | Hb].
    + intros _. unfold get_wind_rose_data. rewrite bind_require_ok by exact Hs.
      reflexivity.
    + rewrite get_wind_rose_data_run by assumption. discriminate.
  - rewrite detect_calm_periods_run by exact Hs. discriminate.
  - rewrite detect_strong_wind_events_run by exact Hs. discriminate.
  - destruct (Z.ltb_spec window 0) as [Hw | Hw].
    + intros _. unfold calculate_gust_factor. rewrite bind_require_ok by exact Hs.
      apply Z.ltb_lt in Hw. rewrite Hw. reflexivity.
    + rewrite calculate_gust_factor_run by assumption. discriminate.
  - rewrite get_prevailing_direction_run by exact Hs. cbv zeta.
    destruct (mode_nonempty df Hs Hwf) as (b & t & ->). discriminate.
  - rewrite analyze_daily_pattern_run by exact Hs.
    destruct (timestamp df); [discriminate | reflexivity].
  - rewrite calculate_power_density_run by exact Hs. discriminate.
  - rewrite get_summary_report_run by exact Hs. cbv zeta.
    destruct (mode_nonempty df Hs Hwf) as (b & t & ->). discriminate.
Qed.

Lemma failed_query_changes_nothing_witness :
  state_after (run_query QDailyPattern) (Some ten_samples) = Some ten_samples.
Proof.
  apply (failed_query_changes_nothing QDailyPattern (Some ten_samples)
                                      MissingTimestampError).
  - intros df E. injection E as <-. reflexivity.
  - reflexivity.
Defined.

(* ================================================================= *)
(** ** The generator of sample data *)


Lemma range_NoDup_from (a n : nat) : NoDup (map Z.of_nat (seq a n)).
Proof.
  revert a. induction n as [|n IH]; intros a; cbn [seq map].
  - constructor.
  - constructor; [|apply IH].
    intros Hin. apply in_map_iff in Hin. destruct Hin as (k & Ek & Hk).
    apply in_seq in Hk. lia.
Qed.



Section GeneratorProperties.

Variable np_sin : Q -> Q.
Variable np_pi : Q.
Variable random_component gust_choice gust_size direction_variation : nat -> Q.


(** X24.  With at least 24 generated samples, whatever the start,
    [analyze_daily_pattern] on the generated table returns exactly 24 rows,
    one for each hour [0 .. 23]. *)
Theorem generated_data_covers_the_day (n : Z) (start : Timestamp) :
  (24 <= n)%Z ->
  exists (df : DataFrame) (pat : list (Z * HourStats)),
    generate_sample_data np_sin np_pi random_component gust_choice gust_size
                         direction_variation n start = inr df /\
    result analyze_daily_pattern (Some df) = inr pat /\
    (forall h, In h (map fst pat) <-> (0 <= h < 24)%Z) /\
    length pat = 24%nat.
Proof.
  intros Hn. unfold generate_sample_data.
  destruct (Z.ltb_spec n 0) as [Hneg | _]; [lia|].
  eexists. eexists. split; [reflexivity|].
  unfold result. rewrite analyze_daily_pattern_run.
  2:{ unfold df_empty, df_len. cbn [wind_speed].
      rewrite length_map, length_seq. apply Nat.eqb_neq. lia. }
  cbn [timestamp fst wind_speed]. split; [reflexivity|].
  rewrite groupby_agg_keys.
  set (hours := map ts_hour
                    (map (fun i => add_hours start (Z.of_nat i))
                         (seq 0 (Z.to_nat n)))).
  assert (Hmem : forall h, In h (isort Z.leb (nodup Z.eq_dec hours))
                           <-> (0 <= h < 24)%Z).
  { intros h. rewrite isort_In, nodup_In. unfold hours.
    rewrite map_map, in_map_iff. cbn [add_hours ts_hour]. split.
    - intros (i & <- & _). apply Z.mod_pos_bound. lia.
    - intros Hh. exists (Z.to_nat ((h - ts_hour start) mod 24)).
      assert (Hb : (0 <= (h - ts_hour start) mod 24 < 24)%Z)
        by (apply Z.mod_pos_bound; lia).
      split.
      + rewrite Z2Nat.id by lia. rewrite Zplus_mod_idemp_r.
        replace (ts_hour start + (h - ts_hour start))%Z with h by lia.
        apply Z.mod_small. exact Hh.
      + apply in_seq. lia. }
  split; [exact Hmem|].
  rewrite <- (length_map fst), groupby_agg_keys. fold hours.
  assert (Hnd : NoDup (isort Z.leb (nodup Z.eq_dec hours)))
    by apply isort_NoDup, NoDup_nodup.
  apply Nat.le_antisymm.
  - replace 24%nat with (length (range 24)) by reflexivity.
    apply NoDup_incl_length; [exact Hnd|].
    intros h Hh. apply range_In, Hmem, Hh.
  - replace 24%nat with (length (range 24)) by reflexivity.
    apply NoDup_incl_length; [apply range_NoDup_from|].
    intros h Hh. apply Hmem, range_In, Hh.
Qed.

End GeneratorProperties.


Lemma generated_data_covers_the_day_witness :
  exists (df : DataFrame) (pat : list (Z * HourStats)),
    generate_sample_data (fun _ => 0) 3 (fun _ => 1) (fun _ => 0) (fun _ => 4)
                         (fun _ => 30) 30 (at_hour 5)
    = inr df /\
    result analyze_daily_pattern (Some df) = inr pat /\
    length pat = 24%nat.
Proof.
  assert (Hn : (24 <= 30)%Z) by lia.
  destruct (generated_data_covers_the_day (fun _ => 0) 3 (fun _ => 1)
              (fun _ => 0) (fun _ => 4) (fun _ => 30) 30 (at_hour 5) Hn)
    as (df & pat & H1 & H2 & _ & H4).
  exists df, pat. split; [exact H1|]. split; [exact H2 | exact H4].
Defined.

(* ================================================================= *)
(** ** The example program *)

Lemma bind_run {A B} (c : M A) (k : A -> M B) (s s' : Analyzer) (x : A) :
  c s = (inr x, s') -> bind c k s = k x s'.
Proof. intros E. unfold bind. rewrite E. reflexivity. Qed.

(** The run of [main] on a table with rows, directions and timestamps. *)
Lemma main_analysis_run (df : DataFrame) (ts : list Timestamp) (b : Z) (t : list Z) :
  df_empty df = false ->
  timestamp df = Some ts ->
  mode (map prevailing_bin_of (wind_direction df)) = b :: t ->
  exists out : AnalysisOutputs,
    main_analysis (Some df)
    = (inr out,
       Some (set_hour (set_direction_bin df
                         (map prevailing_bin_of (wind_direction df)))
                      (map ts_hour ts))) /\
    result get_basic_statistics (Some df) = inr (out_stats out) /\
    result get_prevailing_direction (Some df) = inr (out_prevailing out) /\
    result (calculate_power_density default_air_density) (Some df)
    = inr (out_power_density out) /\
    result (get_wind_rose_data 16) (Some df) = inr (out_wind_rose out) /\
    result analyze_daily_pattern (Some df) = inr (out_daily_pattern out) /\
    result get_summary_report (Some df) = inr (out_report out) /\
    out_calm out
    = df_select (map (fun s => Qltb s 2) (wind_speed df))
                (set_direction_bin df (map prevailing_bin_of (wind_direction df))) /\
    out_strong out
    = df_select (map (fun s => Qltb 10 s) (wind_speed df))
                (set_direction_bin df (map prevailing_bin_of (wind_direction df))) /\
    out_data out
    = Some (set_hour (set_direction_bin df
                        (map prevailing_bin_of (wind_direction df)))
                     (map ts_hour ts)).
Proof.
  intros H Ets Emode.
  set (col := map prevailing_bin_of (wind_direction df)) in *.
  set (df1 := set_direction_bin df col).
  set (rose_col := map (wind_rose_bin_of 16 (360 / inject_Z 16))
                       (wind_direction df)).
  set (df2 := set_direction_bin df1 rose_col).
  set (df3 := set_hour df2 (map ts_hour ts)).
  assert (H1 : df_empty df1 = false) by exact H.
  assert (H2 : df_empty df2 = false) by exact H.
  assert (H3 : df_empty df3 = false) by exact H.
  assert (Hb : 16%Z <> 0%Z) by lia.
  assert (Eprev : get_prevailing_direction (Some df)
                  = (inr (inject_Z b * (45 # 2),
                          qnat (count_eq b col) / qnat (df_len df) * 100),
                     Some df1)).
  { rewrite get_prevailing_direction_run by exact H. cbv zeta. fold col.
    rewrite Emode. reflexivity. }
  assert (Edaily : analyze_daily_pattern (Some df2)
                   = (inr (groupby_agg (map ts_hour ts) (wind_speed df)),
                      Some df3)).
  { rewrite analyze_daily_pattern_run by exact H2.
    change (timestamp df2) with (timestamp df). rewrite Ets. reflexivity. }
  assert (Erep : get_summary_report (Some df3)
                 = (fst (get_summary_report (Some df)),
                    Some (set_direction_bin df3 col))).
  { rewrite !get_summary_report_run by assumption. cbv zeta.
    change (wind_direction df3) with (wind_direction df). fold col.
    rewrite Emode. reflexivity. }
  assert (Erep' : exists rep, fst (get_summary_report (Some df)) = inr rep).
  { rewrite get_summary_report_run by exact H. cbv zeta. fold col.
    rewrite Emode. eexists. reflexivity. }
  destruct Erep' as (rep & Erep').
  rewrite Erep' in Erep.
  eexists. split.
  - unfold main_analysis.
    rewrite (bind_run _ _ _ _ _ (get_basic_statistics_run df H)).
    rewrite (bind_run _ _ _ _ _ Eprev).
    rewrite (bind_run _ _ _ _ _ (detect_calm_periods_run df1 2 H1)).
    rewrite (bind_run _ _ _ _ _ (detect_strong_wind_events_run df1 10 H1)).
    rewrite (bind_run _ _ _ _ _
               (calculate_power_density_run df1 default_air_density H1)).
    rewrite (bind_run _ _ _ _ _ (get_wind_rose_data_run df1 16 H1 Hb)).
    cbv zeta.
    rewrite (bind_run _ _ _ _ _ Edaily).
    rewrite (bind_run _ _ _ _ _ Erep).
    unfold bind, get_data, ret. reflexivity.
  - cbn [out_stats out_prevailing out_calm out_strong out_power_density
         out_wind_rose out_daily_pattern out_report out_data].
    unfold result.
    rewrite get_basic_statistics_run, calculate_power_density_run,
      analyze_daily_pattern_run by exact H.
    rewrite get_wind_rose_data_run by assumption.
    rewrite Eprev, Ets, Erep'. cbv zeta.
    repeat (split; [reflexivity|]). reflexivity.
Qed.

(** X25.  On a table with at least one sample and with timestamps, the
    example program raises nothing.  The statistics, prevailing direction,
    power density, wind rose, daily pattern and report it obtains are those
    the queries return on the table as it was given, although the queries run
    one after the other on a table that gathers helper columns; the calm and
    strong frames hold the samples below 2 and above 10 and already carry the
    [direction_bin] column.  The table that [main] kept and hands to the
    plots ends with an [hour] column and with a [direction_bin] column that
    holds the rounded bins of the report, not the bins of the wind rose. *)
Theorem example_analysis_outputs (df : DataFrame) (ts : list Timestamp) :
  df_empty df = false ->
  length (wind_direction df) = df_len df ->
  timestamp df = Some ts ->
  exists (out : AnalysisOutputs) (final : DataFrame),
    result main_analysis (Some df) = inr out /\
    result get_basic_statistics (Some df) = inr (out_stats out) /\
    result get_prevailing_direction (Some df) = inr (out_prevailing out) /\
    result (calculate_power_density default_air_density) (Some df)
    = inr (out_power_density out) /\
    result (get_wind_rose_data 16) (Some df) = inr (out_wind_rose out) /\
    result analyze_daily_pattern (Some df) = inr (out_daily_pattern out) /\
    result get_summary_report (Some df) = inr (out_report out) /\
    samples (out_calm out) = filter (calm 2) (samples df) /\
    samples (out_strong out) = filter (strong 10) (samples df) /\
    direction_bin (out_calm out) <> None /\
    direction_bin (out_strong out) <> None /\
    out_data out = Some final /\
    state_after main_analysis (Some df) = Some final /\
    timestamp final = timestamp df /\
    wind_speed final = wind_speed df /\
    wind_direction final = wind_direction df /\
    direction_bin final
    = Some (map (fun d => (round_half_even (d / (45 # 2)) mod 16)%Z)
                (wind_direction df)) /\
    hour final = Some (map ts_hour ts).
Proof.
  intros H Hlen Ets.
  destruct (mode_nonempty df H Hlen) as (b & t & Emode).
  destruct (main_analysis_run df ts b t H Ets Emode)
    as (out & Erun & E1 & E2 & E3 & E4 & E5 & E6 & Ec & Es & Ed).
  exists out. eexists.
  unfold result at 1. unfold state_after. rewrite Erun. cbn [fst snd].
  split; [reflexivity|].
  split; [exact E1|]. split; [exact E2|]. split; [exact E3|].
  split; [exact E4|]. split; [exact E5|]. split; [exact E6|].
  split.
  { rewrite Ec.
    etransitivity;
      [exact (samples_df_select (fun s => Qltb s 2)
                (set_direction_bin df
                   (map prevailing_bin_of (wind_direction df))))|].
    apply filter_ext. intros x. symmetry. apply calm_Qltb. }
  split.
  { rewrite Es.
    etransitivity;
      [exact (samples_df_select (fun s => Qltb 10 s)
                (set_direction_bin df
                   (map prevailing_bin_of (wind_direction df))))|].
    apply filter_ext. intros x. symmetry. apply strong_Qltb. }
  split; [rewrite Ec; discriminate|].
  split; [rewrite Es; discriminate|].
  split; [exact Ed|].
  repeat (split; [reflexivity|]). reflexivity.
Qed.

Lemma example_analysis_outputs_witness :
  exists (out : AnalysisOutputs) (final : DataFrame),
    result main_analysis (Some timed_samples) = inr out /\
    out_data out = Some final /\
    hour final = Some [0%Z; 1%Z; 0%Z].
Proof.
  destruct (example_analysis_outputs timed_samples
              [at_hour 0; at_hour 1; at_hour 0] eq_refl eq_refl eq_refl)
    as (out & final & H1 & _ & _ & _ & _ & _ & _ & _ & _ & _ & _ & H12 & _ & _
        & _ & _ & _ & H18).
  exists out, final. split; [exact H1|]. split; [exact H12 | exact H18].
Defined.

(** X26.  The example program on generated data: whatever the random draws
    and the start, for every number of samples [n >= 1] the analysis of
    [main] on the table of [generate_sample_data] raises nothing, its power
    density has [n] entries, its wind rose 16 bins, and its report counts [n]
    observations. *)
Theorem example_program_on_generated_data
        (np_sin : Q -> Q) (np_pi : Q)
        (random_component gust_choice gust_size direction_variation : nat -> Q)
        (n : Z) (start : Timestamp) :
  (1 <= n)%Z ->
  exists (df : DataFrame) (out : AnalysisOutputs),
    generate_sample_data np_sin np_pi random_component gust_choice gust_size
                         direction_variation n start = inr df /\
    result main_analysis (Some df) = inr out /\
    length (out_power_density out) = Z.to_nat n /\
    length (frequencies (out_wind_rose out)) = 16%nat /\
    total_observations (out_report out) = Z.to_nat n.
Proof.
  intros Hn. unfold generate_sample_data.
  destruct (Z.ltb_spec n 0) as [Hneg | _]; [lia|].
  match goal with
  | |- exists df out, inr ?d = inr df /\ _ => set (gen := d)
  end.
  assert (H : df_empty gen = false).
  { unfold df_empty, df_len, gen. cbn [wind_speed].
    rewrite length_map, length_seq. apply Nat.eqb_neq. lia. }
  assert (Hlen : length (wind_direction gen) = df_len gen).
  { unfold df_len, gen. cbn [wind_speed wind_direction].
    rewrite !length_map. reflexivity. }
  assert (Hsize : df_len gen = Z.to_nat n).
  { unfold df_len, gen. cbn [wind_speed]. rewrite length_map, length_seq.
    reflexivity. }
  destruct (mode_nonempty gen H Hlen) as (b & t & Emode).
  destruct (main_analysis_run gen _ b t H eq_refl Emode)
    as (out & Erun & _ & _ & E3 & E4 & _ & E6 & _).
  exists gen, out. split; [reflexivity|].
  unfold result at 1. rewrite Erun. split; [reflexivity|].
  unfold result in E3, E4, E6.
  rewrite calculate_power_density_run in E3 by exact H.
  rewrite get_wind_rose_data_run in E4 by (exact H || lia).
  rewrite get_summary_report_run in E6 by exact H.
  cbv zeta in E4, E6. rewrite Emode in E6. cbn [fst] in E3, E4, E6.
  injection E3 as <-. injection E4 as <-. injection E6 as <-.
  cbn [frequencies total_observations].
  split; [rewrite length_map; exact Hsize|].
  split; [rewrite !length_map; reflexivity | exact Hsize].
Qed.

Lemma example_program_on_generated_data_witness :
  exists (df : DataFrame) (out : AnalysisOutputs),
    generate_sample_data (fun _ => 0) 3 (fun _ => 1) (fun _ => 0) (fun _ => 4)
                         (fun _ => 30) 5 (at_hour 0) = inr df /\
    result main_analysis (Some df) = inr out /\
    length (out_power_density out) = 5%nat.
Proof.
  assert (Hn : (1 <= 5)%Z) by lia.
  destruct (example_program_on_generated_data (fun _ => 0) 3 (fun _ => 1)
              (fun _ => 0) (fun _ => 4) (fun _ => 30) 5 (at_hour 0) Hn)
    as (df & out & H1 & H2 & H3 & _).
  exists df, out. split; [exact H1|]. split; [exact H2 | exact H3].
Defined.

(* ================================================================= *)
(** ** Two facts the unit tests rely on *)

Lemma qsum_power (rho : Q) (l : list Q) :
  qsum (map (power_of rho) l)
  == (1 # 2) * rho * qsum (map (fun s => s * s * s) l).
Proof.
  induction l as [|x l IH]; cbn [map].
  - change (0 == (1 # 2) * rho * 0). ring.
  - rewrite !qsum_cons, IH, power_of_Qeq. ring.
Qed.

Lemma cube_nonneg (s : Q) : 0 <= s -> 0 <= s * s * s.
Proof.
  intros H. apply Qmult_le_0_compat; [|exact H].
  apply Qmult_le_0_compat; exact H.
Qed.

Lemma cube_pos (s : Q) : 0 < s -> 0 < s * s * s.
Proof.
  intros H.
  assert (H2 : 0 < s * s).
  { setoid_replace 0 with (0 * s) by ring. apply Qmult_lt_compat_r; exact H. }
  setoid_replace 0 with (0 * s) by ring. apply Qmult_lt_compat_r; assumption.
Qed.

Lemma cubes_sum_pos (l : list Q) :
  (forall s, In s l -> 0 <= s) -> (exists s, In s l /\ 0 < s) ->
  0 < qsum (map (fun s => s * s * s) l).
Proof.
  intros Hall (s & Hin & Hs).
  eapply Qlt_le_trans; [apply (cube_pos s Hs)|].
  apply qsum_member_le.
  - intros y Hy. apply in_map_iff in Hy. destruct Hy as (x & <- & Hx).
    apply cube_nonneg, Hall, Hx.
  - apply in_map_iff. exists s. split; [reflexivity | exact Hin].
Qed.

(** X27.  For speeds that are floats, in exact arithmetic (the products,
    the cubes and the mean taken without rounding, underflow or overflow):
    when no speed is negative and some speed is positive, a higher air
    density gives a strictly higher mean power density (the comparison made
    by [test_power_density_custom_air_density]). *)
Theorem mean_power_increases_with_density (df : DataFrame) (rho1 rho2 : Q) :
  df_empty df = false ->
  (forall s, In s (wind_speed df) -> 0 <= s) ->
  (exists s, In s (wind_speed df) /\ 0 < s) ->
  rho2 < rho1 ->
  exists (pd1 pd2 : list Q) (m1 m2 : Q),
    result (calculate_power_density rho1) (Some df) = inr pd1 /\
    result (calculate_power_density rho2) (Some df) = inr pd2 /\
    series_mean pd1 = Fin m1 /\ series_mean pd2 = Fin m2 /\
    m2 < m1.
Proof.
  intros H Hall Hsome Hrho.
  pose proof (df_nonempty_speeds df H) as Hne.
  exists (map (power_of rho1) (wind_speed df)),
         (map (power_of rho2) (wind_speed df)),
         (qmean (map (power_of rho1) (wind_speed df))),
         (qmean (map (power_of rho2) (wind_speed df))).
  unfold result. rewrite !calculate_power_density_run by exact H.
  split; [reflexivity|]. split; [reflexivity|].
  split; [destruct (wind_speed df); [congruence | reflexivity]|].
  split; [destruct (wind_speed df); [congruence | reflexivity]|].
  unfold qmean, qlen. rewrite !length_map, !qsum_power.
  pose proof (cubes_sum_pos _ Hall Hsome) as Hc.
  pose proof (qlen_pos _ Hne) as Hn. unfold qlen in Hn.
  set (C := qsum (map (fun s => s * s * s) (wind_speed df))) in *.
  set (N := inject_Z (Z.of_nat (length (wind_speed df)))) in *.
  apply Qlt_shift_div_l; [exact Hn|].
  setoid_replace ((1 # 2) * rho2 * C / N * N) with ((1 # 2) * rho2 * C)
    by (field; lra).
  assert (Hd : 0 < (rho1 - rho2) * C).
  { setoid_replace 0 with (0 * C) by ring.
    apply Qmult_lt_compat_r; [exact Hc | lra]. }
  lra.
Qed.

Lemma mean_power_increases_with_density_witness :
  exists (pd1 pd2 : list Q) (m1 m2 : Q),
    result (calculate_power_density (1225 # 1000)) (Some ten_samples) = inr pd1 /\
    result (calculate_power_density 1) (Some ten_samples) = inr pd2 /\
    series_mean pd1 = Fin m1 /\ series_mean pd2 = Fin m2 /\
    m2 < m1.
Proof.
  assert (Hall : forall s, In s (wind_speed ten_samples) -> 0 <= s).
  { intros s Hs. simpl in Hs.
    repeat (destruct Hs as [<- | Hs]; [discriminate|]). destruct Hs. }
  assert (Hsome : exists s, In s (wind_speed ten_samples) /\ 0 < s).
  { exists 1. split; [left; reflexivity | reflexivity]. }
  assert (Hrho : 1 < 1225 # 1000) by reflexivity.
  exact (mean_power_increases_with_density ten_samples (1225 # 1000) 1
           eq_refl Hall Hsome Hrho).
Defined.

(** X28.  The maximum returned by [get_basic_statistics] is strictly above
    the minimum as soon as two speeds of the data set differ (the comparison
    made by [test_basic_statistics]); when all speeds are the same, minimum
    and maximum are that speed. *)
Theorem extremes_differ_when_speeds_differ (df : DataFrame) :
  df_empty df = false ->
  exists (st : BasicStatistics) (mn mx : Q),
    result get_basic_statistics (Some df) = inr st /\
    min_speed st = Fin mn /\ max_speed st = Fin mx /\
    ((exists x y, In x (wind_speed df) /\ In y (wind_speed df) /\ ~ x == y) ->
     mn < mx) /\
    (forall c, (forall x, In x (wind_speed df) -> x == c) -> mn == c /\ mx == c).
Proof.
  intros H. pose proof (df_nonempty_speeds df H) as Hne.
  destruct (series_min_spec _ Hne) as (mn & Emn & Imn & Lmn).
  destruct (series_max_spec _ Hne) as (mx & Emx & Imx & Lmx).
  eexists. exists mn, mx.
  unfold result. rewrite get_basic_statistics_run by exact H.
  cbn [fst]. split; [reflexivity|]. cbn [min_speed max_speed].
  split; [exact Emn|]. split; [exact Emx|]. split.
  - intros (x & y & Hx & Hy & Hxy).
    apply Qnot_le_lt. intros Hle. apply Hxy.
    assert (Hx1 := Lmn x Hx). assert (Hx2 := Lmx x Hx).
    assert (Hy1 := Lmn y Hy). assert (Hy2 := Lmx y Hy).
    apply Qle_antisym; lra.
  - intros c Hc. split; [apply Hc, Imn | apply Hc, Imx].
Qed.

Lemma extremes_differ_when_speeds_differ_witness :
  exists (st : BasicStatistics) (mn mx : Q),
    result get_basic_statistics (Some ten_samples) = inr st /\
    min_speed st = Fin mn /\ max_speed st = Fin mx /\ mn < mx.
Proof.
  destruct (extremes_differ_when_speeds_differ ten_samples eq_refl)
    as (st & mn & mx & H1 & H2 & H3 & H4 & _).
  exists st, mn, mx. split; [exact H1|]. split; [exact H2|]. split; [exact H3|].
  apply H4. exists 1, 2. split; [left; reflexivity|].
  split; [right; left; reflexivity | discriminate].
Defined.
